(** * Goldstone south/sonic interface server: a shallow embedding

    This development embeds the parts of
    [south/sonic/goldstone/south/sonic/interfaces.py] that decide the
    behaviour of the operational-status resolver, interface-type and speed
    validation, breakout validation, the reconcile routine and the
    link-state notification loop, and states the properties of the
    specification against that embedding.

    Python values are a small untyped tree ([value]); dictionaries are
    association lists in insertion order, exceptions are an explicit error
    type, and stateful code is written in a state-and-error monad over the
    driver state. *)

From Stdlib Require Import ZArith String Ascii List Bool Lia DecimalString.
From stdpp Require Import base option list strings gmap.

Set Warnings "-register-all".

Open Scope string_scope.
Open Scope Z_scope.

(** ** Python strings *)

Module PyStr.

Definition endswith (s suffix : string) : bool :=
  let n := String.length s in
  let m := String.length suffix in
  if (m <=? n)%nat then String.eqb (substring (n - m) m s) suffix else false.

(** [sub in s] *)
Fixpoint contains (sub s : string) : bool :=
  String.prefix sub s ||
  match s with
  | EmptyString => false
  | String _ s' => contains sub s'
  end.

Definition upper_ascii (c : ascii) : ascii :=
  let n := nat_of_ascii c in
  if ((97 <=? n) && (n <=? 122))%nat then ascii_of_nat (n - 32) else c.

Definition lower_ascii (c : ascii) : ascii :=
  let n := nat_of_ascii c in
  if ((65 <=? n) && (n <=? 90))%nat then ascii_of_nat (n + 32) else c.

Fixpoint map_ascii (f : ascii -> ascii) (s : string) : string :=
  match s with
  | EmptyString => EmptyString
  | String c s' => String (f c) (map_ascii f s')
  end.

Definition upper : string -> string := map_ascii upper_ascii.
Definition lower : string -> string := map_ascii lower_ascii.

(** [s.split(sep)[-1]] for a one-character separator: the text after the
    last separator, or all of [s] when there is none. *)
Fixpoint split_last_go (sep : ascii) (cur s : string) : string :=
  match s with
  | EmptyString => cur
  | String c s' =>
      if Ascii.eqb c sep then split_last_go sep EmptyString s'
      else split_last_go sep (cur +:+ String c EmptyString) s'
  end.

Definition split_last (sep : ascii) (s : string) : string :=
  split_last_go sep EmptyString s.

(** [s.split(sep)[0]] for a one-character separator. *)
Fixpoint split_first (sep : ascii) (s : string) : string :=
  match s with
  | EmptyString => EmptyString
  | String c s' =>
      if Ascii.eqb c sep then EmptyString else String c (split_first sep s')
  end.

(** [s.replace(old, new)] for a non-empty [old]: leftmost non-overlapping
    occurrences; [skip] counts the characters of a match still to drop. *)
Fixpoint replace_go (old new : string) (skip : nat) (s : string) : string :=
  match s with
  | EmptyString => EmptyString
  | String c s' =>
      match skip with
      | S k => replace_go old new k s'
      | O =>
          if String.prefix old s
          then new +:+ replace_go old new (String.length old - 1) s'
          else String c (replace_go old new O s')
      end
  end.

Definition replace (old new s : string) : string := replace_go old new O s.

(** [sep.join(l)] *)
Definition join (sep : string) (l : list string) : string := String.concat sep l.

End PyStr.

(** ** Python values, exceptions and the error monad *)

Inductive value : Type :=
| VNone
| VBool (b : bool)
| VInt (z : Z)
| VStr (s : string)
| VList (l : list value)
| VDict (d : list (string * value)).

Inductive exn : Type :=
| InvalArgError (msg : string)
| LockedError (msg : string)
| CallbackFailedError (msg : string)
| NotFoundError
| KeyError (key : string)
| NameError (name : string)
| TypeError
| AttributeError
| IndexError
| ValueError
| Exception (msg : string).

Inductive result (A : Type) : Type :=
| Ok (a : A)
| Raise (e : exn).
Arguments Ok {A} a.
Arguments Raise {A} e.

#[global] Instance result_ret : MRet result := fun A a => Ok a.
#[global] Instance result_bind : MBind result := fun A B f m =>
  match m with
  | Ok a => f a
  | Raise e => Raise e
  end.

Module Py.

(** Truthiness, as [if v:] and [not v] use it. *)
Definition truthy (v : value) : bool :=
  match v with
  | VNone => false
  | VBool b => b
  | VInt z => negb (z =? 0)
  | VStr s => negb (String.eqb s "")
  | VList l => match l with [] => false | _ => true end
  | VDict d => match d with [] => false | _ => true end
  end.

(** Association lists in insertion order stand for [dict]. *)
Fixpoint dict_lookup (k : string) (d : list (string * value)) : option value :=
  match d with
  | [] => None
  | (k', v) :: d' => if String.eqb k k' then Some v else dict_lookup k d'
  end.

(** [d[k] = v]: replace in place, or append a new key at the end. *)
Fixpoint dict_set (k : string) (v : value) (d : list (string * value))
  : list (string * value) :=
  match d with
  | [] => [(k, v)]
  | (k', v') :: d' =>
      if String.eqb k k' then (k', v) :: d' else (k', v') :: dict_set k v d'
  end.

Definition dict_mem (k : string) (d : list (string * value)) : bool :=
  match dict_lookup k d with Some _ => true | None => false end.

Definition is_str (s : string) (v : value) : bool :=
  match v with VStr t => String.eqb s t | _ => false end.

(** [o == s] for a string-or-[None] [o]. *)
Definition opt_eq_str (o : option string) (s : string) : bool :=
  match o with
  | Some t => String.eqb t s
  | None => false
  end.

(** [v.get(k, default)] *)
Definition get (v : value) (k : string) (default : value) : result value :=
  match v with
  | VDict d =>
      match dict_lookup k d with
      | Some x => Ok x
      | None => Ok default
      end
  | _ => Raise AttributeError
  end.

(** [v[k]] with a string subscript. *)
Definition getitem (v : value) (k : string) : result value :=
  match v with
  | VDict d =>
      match dict_lookup k d with
      | Some x => Ok x
      | None => Raise (KeyError k)
      end
  | _ => Raise TypeError
  end.

(** [s in v] for a string [s]. *)
Definition contains (s : string) (v : value) : result bool :=
  match v with
  | VList l => Ok (existsb (is_str s) l)
  | VDict d => Ok (dict_mem s d)
  | VStr t => Ok (PyStr.contains s t)
  | _ => Raise TypeError
  end.

Fixpoint chars (s : string) : list value :=
  match s with
  | EmptyString => []
  | String c s' => VStr (String c EmptyString) :: chars s'
  end.

(** [list(v)], also the sequence a [for] loop walks. *)
Definition to_list (v : value) : result (list value) :=
  match v with
  | VList l => Ok l
  | VDict d => Ok (map (fun kv => VStr (fst kv)) d)
  | VStr t => Ok (chars t)
  | _ => Raise TypeError
  end.

(** [try: body except: pass], seen from the loop that continues. *)
Definition attempt {A : Type} (r : result (option A)) : option A :=
  match r with
  | Ok o => o
  | Raise _ => None
  end.

End Py.

Arguments Py.dict_lookup : simpl never.
Arguments Py.dict_set : simpl never.
Arguments PyStr.endswith : simpl never.
Arguments PyStr.contains : simpl never.
Arguments String.eqb : simpl never.
Arguments String.append : simpl never.

(** ** The running datastore

    [get_running_data(xpath, default)] belongs to the server base class of
    [goldstone.lib.core] and to the datastore engine behind it.  The
    datastore is taken as what it answers per xpath: data, nothing, or an
    exception of the engine. *)

Definition datastore : Type := string -> result (option value).

Definition get_running_data (running : datastore) (xpath : string)
    (default : value) : result value :=
  o ← running xpath;
  match o with
  | Some v => Ok v
  | None => Ok default
  end.

(** [libyang.xpath_get(cache, xpath, default)] on the per-batch snapshot of
    the post-change configuration, likewise taken per xpath. *)
Definition snapshot : Type := string -> option value.

Definition xpath_get (cache : snapshot) (xpath : string) (default : value) : value :=
  match cache xpath with
  | Some v => v
  | None => default
  end.

Definition SINGLE_LANE_INTERFACE_TYPES : list string := ["CR"; "LR"; "SR"; "KR"].
Definition DOUBLE_LANE_INTERFACE_TYPES : list string := ["CR2"; "LR2"; "SR2"; "KR2"].
Definition QUAD_LANE_INTERFACE_TYPES : list string := ["CR4"; "LR4"; "SR4"; "KR4"].

Definition str_in_list (s : string) (l : list string) : bool :=
  existsb (String.eqb s) l.
Arguments str_in_list : simpl never.

(** ** Read-only methods of [InterfaceServer] *)

Section ServerQueries.

Variable running : datastore.
(** [self.sonic.get_oper_status]: the raw status of the driver layer. *)
Variable sonic_get_oper_status : value -> option string.

Definition get_ufd : result value :=
  get_running_data running
    "/goldstone-uplink-failure-detection:ufd-groups/ufd-group" (VList []).

(** One group of [is_ufd_port]'s loop: [Ok true] stands for [return True]. *)
Definition is_ufd_port_group (ifname : string) (ufd_id : value) : result bool :=
  c ← Py.get ufd_id "config" (VDict []);
  u ← Py.get c "uplink" (VList []);
  inu ← Py.contains ifname u;
  if (inu : bool) then Ok true
  else
    c' ← Py.get ufd_id "config" (VDict []);
    d ← Py.get c' "downlink" (VList []);
    Py.contains ifname d.

Fixpoint is_ufd_port_loop (ifname : string) (groups : list value) : result bool :=
  match groups with
  | [] => Ok false
  | ufd_id :: rest =>
      hit ← is_ufd_port_group ifname ufd_id;
      if (hit : bool) then Ok true else is_ufd_port_loop ifname rest
  end.

Definition is_ufd_port (ifname : string) (ufd_list : option value) : result bool :=
  ufd_list' ← match ufd_list with
              | None => get_ufd
              | Some l => Ok l
              end;
  groups ← Py.to_list ufd_list';
  is_ufd_port_loop ifname groups.

(** The [try] body of [is_downlink_port]: [Some uplinks] is the early
    return, [None] falls through to the next group. *)
Definition is_downlink_port_try (ifname : string) (data : value)
  : result (option (list value)) :=
  c ← Py.getitem data "config";
  d ← Py.getitem c "downlink";
  hit ← Py.contains ifname d;
  if (hit : bool) then
    c' ← Py.getitem data "config";
    u ← Py.getitem c' "uplink";
    l ← Py.to_list u;
    Ok (Some l)
  else Ok None.

Fixpoint is_downlink_port_loop (ifname : string) (groups : list value)
  : bool * option (list value) :=
  match groups with
  | [] => (false, None)
  | data :: rest =>
      match Py.attempt (is_downlink_port_try ifname data) with
      | Some uplinks => (true, Some uplinks)
      | None => is_downlink_port_loop ifname rest
      end
  end.

Definition is_downlink_port (ifname : string)
  : result (bool * option (list value)) :=
  ufd_list ← get_ufd;
  groups ← Py.to_list ufd_list;
  Ok (is_downlink_port_loop ifname groups).

(** [get_oper_status]: [None] is Python's implicit [return None]. *)
Definition get_oper_status (ifname : string) : result (option string) :=
  let oper_status := sonic_get_oper_status (VStr ifname) in
  '(downlink_port, uplink_port) ← is_downlink_port ifname;
  let passthrough :=
    match oper_status with
    | Some s => Some (PyStr.upper s)
    | None => None
    end in
  match downlink_port, uplink_port with
  | true, Some (first :: _) =>
      let uplink_oper_status := sonic_get_oper_status first in
      if Py.opt_eq_str uplink_oper_status "down" then Ok (Some "DORMANT")
      else Ok passthrough
  | _, _ => Ok passthrough
  end.

(** [get_breakout_detail].  The [elif] reads the name [name], which the
    function never binds (its parameter is [ifname]): evaluating it is a
    [NameError], so the recursive call on the parent is never reached and
    the definition needs no recursion. *)
Definition get_breakout_detail (ifname : string) : result (option value) :=
  let xpath := "/goldstone-interfaces:interfaces/interface[name='" +:+ ifname
               +:+ "']/ethernet/breakout/state" in
  data ← get_running_data running xpath VNone;
  if negb (Py.truthy data) then Ok None
  else
    n ← Py.get data "num-channels" (VInt 1);
    gt ← match n with
         | VInt z => Ok (1 <? z)
         | VBool b => Ok false
         | _ => Raise TypeError
         end;
    if (gt : bool) then
      nc ← Py.getitem data "num-channels";
      cs ← Py.getitem data "channel-speed";
      Ok (Some (VDict [("num-channels", nc); ("channel-speed", cs)]))
    else Raise (NameError "name").

(** [int(v)].  Strings are covered for plain decimal numerals only (the
    channel count is a YANG integer and arrives as [int]). *)
Definition py_int (v : value) : result Z :=
  match v with
  | VInt z => Ok z
  | VBool b => Ok (if b then 1 else 0)
  | VStr s =>
      match s with
      | EmptyString => Raise ValueError
      | _ =>
          match NilEmpty.uint_of_string s with
          | Some u => Ok (Z.of_uint u)
          | None => Raise ValueError
          end
      end
  | _ => Raise TypeError
  end.

(** The [try] block of [validate_interface_type]; a falsy detail raises
    [KeyError]. *)
Definition breakout_channels (ifname : string) : result (value * Z) :=
  let xpath := "/goldstone-interfaces:interfaces/interface[name='" +:+ ifname
               +:+ "']" in
  _ ← get_running_data running xpath VNone;
  detail ← get_breakout_detail ifname;
  match detail with
  | Some d =>
      if negb (Py.truthy d) then Raise (KeyError "")
      else
        nc ← Py.getitem d "num-channels";
        numch ← py_int nc;
        Ok (d, numch)
  | None => Raise (KeyError "")
  end.

Definition validate_interface_type (ifname iftype : string) : result unit :=
  let err := InvalArgError "Unsupported interface type" in
  '(detail, numch) ← match breakout_channels ifname with
                     | Ok dn => Ok dn
                     | Raise (KeyError _) | Raise NotFoundError => Ok (VNone, 1)
                     | Raise e => Raise e
                     end;
  if (numch : Z) =? 4 then
    cs ← Py.getitem detail "channel-speed";
    tenGB ← match cs with
            | VStr t => Ok (PyStr.endswith t "10GB")
            | _ => Raise AttributeError
            end;
    if (tenGB : bool) && String.eqb iftype "SR" then Raise err
    else if negb (str_in_list iftype SINGLE_LANE_INTERFACE_TYPES) then Raise err
    else Ok tt
  else if numch =? 2 then
    if negb (str_in_list iftype DOUBLE_LANE_INTERFACE_TYPES) then Raise err
    else Ok tt
  else if numch =? 1 then
    if negb (str_in_list iftype QUAD_LANE_INTERFACE_TYPES) then Raise err
    else Ok tt
  else Raise err.

End ServerQueries.

(** ** Change handlers *)

Inductive change_type : Type := created | modified | deleted.

Definition is_set (t : change_type) : bool :=
  match t with
  | created | modified => true
  | deleted => false
  end.

(** What a handler keeps of its change event: the interface name read off
    the xpath, the operation and the new value. *)
Record handler : Type := Handler {
  h_ifname : string;
  h_type : change_type;
  h_value : string
}.

Section Handlers.

Variable running : datastore.
(** [speed_yang_to_redis] and [speed_redis_to_yang] come from the driver
    module [sonic]; they are taken as they are given. *)
Variable speed_yang_to_redis : value -> value.
Variable speed_redis_to_yang : Z -> string.

(** [IfChangeHandler.__init__] after the xpath is split. *)
Definition IfChangeHandler_init (ifnames : list string) (ifname : string)
    (t : change_type) (v : string) : result handler :=
  if negb (str_in_list ifname ifnames)
  then Raise (InvalArgError "Invalid Interface name")
  else Ok (Handler ifname t v).

Definition valid_speeds (h : handler) : list Z :=
  let valid_speeds := [40000; 100000] in
  let breakout_valid_speeds := [] in
  if negb (PyStr.endswith (h_ifname h) "_1") then breakout_valid_speeds
  else valid_speeds.

(** [value in valids] for a list of ints. *)
Definition in_ints (v : value) (l : list Z) : bool :=
  match v with
  | VInt z => existsb (Z.eqb z) l
  | VBool b => existsb (Z.eqb (if b then 1 else 0)) l
  | _ => false
  end.

Definition SpeedHandler_validate (h : handler) : result unit :=
  if is_set (h_type h) then
    let value := speed_yang_to_redis (VStr (h_value h)) in
    let valids := valid_speeds h in
    if negb (in_ints value valids) then
      let valids := map speed_redis_to_yang valids in
      Raise (InvalArgError ("Invalid speed: " +:+ h_value h +:+ ", candidates: "
                            +:+ PyStr.join "," valids))
    else Ok tt
  else Ok tt.

(** The message of this handler reads [change.value], not
    [self.change.value]; [change] is not bound in [validate]. *)
Definition AutoNegotiateAdvertisedSpeedsHandler_validate (h : handler)
  : result unit :=
  if is_set (h_type h) then
    let value := speed_yang_to_redis (VStr (h_value h)) in
    let valids := valid_speeds h in
    if negb (in_ints value valids) then
      let valids := map speed_redis_to_yang valids in
      Raise (NameError "change")
    else Ok tt
  else Ok tt.

Definition EthernetIfTypeHandler_validate (h : handler) : result unit :=
  if is_set (h_type h) then validate_interface_type running (h_ifname h) (h_value h)
  else Ok tt.

(** [BreakoutHandler.validate]; [cache] is what [setup_cache] returned. *)
Definition BreakoutHandler_validate (cache : snapshot) (h : handler)
  : result unit :=
  if is_set (h_type h) then
    if negb (PyStr.contains "_1" (h_ifname h))
    then Raise (InvalArgError "breakout cannot be configured on a sub-interface")
    else
      ufd ← is_ufd_port running (h_ifname h) None;
      if (ufd : bool)
      then Raise (InvalArgError
             "Breakout cannot be configured on the interface that is part of UFD")
      else
        let xpath := "/goldstone-interfaces:interfaces/interface[name='"
                     +:+ h_ifname h +:+ "']" in
        let cache := xpath_get cache xpath VNone in
        e ← Py.getitem cache "ethernet";
        b ← Py.getitem e "breakout";
        config ← Py.getitem b "config";
        has_n ← Py.contains "num-channels" config;
        if negb has_n
        then Raise (InvalArgError "both num-channels and channel-speed must be set at once")
        else
          has_s ← Py.contains "channel-speed" config;
          if negb has_s
          then Raise (InvalArgError "both num-channels and channel-speed must be set at once")
          else Ok tt
  else Ok tt.

End Handlers.

(** ** Driver state and collaborators of the reconcile routine *)

(** The port map handed to [update_usonic_config]: interface name to
    (channel count, channel speed), in insertion order. *)
Definition portmap : Type := list (string * (value * value)).

Inductive task : Type := ReconcileTask.

Record sonic : Type := Sonic {
  is_rebooting : bool;
  usonic_config : portmap;
  restarts : nat;
  ifnames : list string;
  config_db : gmap (string * string) value;
  bcm_log : list (string * string);
  warnings : list (string * value);
  counters : gmap string Z;
  counter_cache : gmap string Z;
  task_queue : list task
}.

Record schema_node : Type := SchemaNode {
  node_type : string;
  node_default : value
}.

(** The collaborators of the reconcile routine (datastore, schema, driver
    module, vendor channel, peers), as the routine sees them. *)
Record environment : Type := Environment {
  running : datastore;
  conn_top : string;
  find_node : string -> option schema_node;
  speed_yang_to_redis : value -> value;
  get_default_iftype : string -> value;
  run_bcmcmd_port_outcome : string -> string -> result unit;
  wait_outcome : result unit;
  port_names : portmap -> list string;
  servers : list (result unit)
}.

(** The per-batch context [user], as [post] reads it: the "update-sonic"
    flag, the interfaces under "needs_adv_speed_config" and the snapshot
    under "cache". *)
Record user_context : Type := UserContext {
  update_sonic : bool;
  needs_adv_speed_config : list string;
  user_cache : snapshot
}.

(** State-and-error monad over the driver state. *)
Definition M (A : Type) : Type := sonic -> result A * sonic.

#[global] Instance M_ret : MRet M := fun A a s => (Ok a, s).
#[global] Instance M_bind : MBind M := fun A B f m s =>
  match m s with
  | (Ok a, s') => f a s'
  | (Raise e, s') => (Raise e, s')
  end.

Definition lift {A : Type} (r : result A) : M A := fun s => (r, s).

(** Effects on the driver that do not depend on its state. *)
Inductive action : Type :=
| ASetConfigDb (ifname key : string) (v : value)
| ABcmCmd (ifname cmd : string)
| AWarn (key : string) (v : value).

Definition run_action (a : action) (s : sonic) : sonic :=
  match a with
  | ASetConfigDb ifname key v =>
      Sonic (is_rebooting s) (usonic_config s) (restarts s) (ifnames s)
            (<[(ifname, key) := v]> (config_db s)) (bcm_log s) (warnings s)
            (counters s) (counter_cache s) (task_queue s)
  | ABcmCmd ifname cmd =>
      Sonic (is_rebooting s) (usonic_config s) (restarts s) (ifnames s)
            (config_db s) (bcm_log s ++ [(ifname, cmd)]) (warnings s)
            (counters s) (counter_cache s) (task_queue s)
  | AWarn key v =>
      Sonic (is_rebooting s) (usonic_config s) (restarts s) (ifnames s)
            (config_db s) (bcm_log s) (warnings s ++ [(key, v)])
            (counters s) (counter_cache s) (task_queue s)
  end.

Definition emit (a : action) : M unit := fun s => (Ok tt, run_action a s).

Definition with_is_rebooting (b : bool) (s : sonic) : sonic :=
  Sonic b (usonic_config s) (restarts s) (ifnames s) (config_db s)
        (bcm_log s) (warnings s) (counters s) (counter_cache s) (task_queue s).

Definition with_usonic_config (intfs : portmap) (s : sonic) : sonic :=
  Sonic (is_rebooting s) intfs (restarts s) (ifnames s) (config_db s)
        (bcm_log s) (warnings s) (counters s) (counter_cache s) (task_queue s).

Definition with_counter_cache (c : gmap string Z) (s : sonic) : sonic :=
  Sonic (is_rebooting s) (usonic_config s) (restarts s) (ifnames s)
        (config_db s) (bcm_log s) (warnings s) (counters s) c (task_queue s).

Definition with_task_queue (q : list task) (s : sonic) : sonic :=
  Sonic (is_rebooting s) (usonic_config s) (restarts s) (ifnames s)
        (config_db s) (bcm_log s) (warnings s) (counters s) (counter_cache s) q.

(** The driver after a restart of the forwarding plane: one more restart,
    the interfaces [names], hardware counters at zero. *)
Definition restarted (names : list string) (s : sonic) : sonic :=
  Sonic (is_rebooting s) (usonic_config s) (S (restarts s)) names (config_db s)
        (bcm_log s) (warnings s) ∅ (counter_cache s) (task_queue s).

Definition set_is_rebooting (b : bool) : M unit := fun s =>
  (Ok tt, with_is_rebooting b s).

(** Equality of values, for comparing port maps. *)
Fixpoint value_eqb (a b : value) {struct a} : bool :=
  match a, b with
  | VNone, VNone => true
  | VBool x, VBool y => Bool.eqb x y
  | VInt x, VInt y => Z.eqb x y
  | VStr x, VStr y => String.eqb x y
  | VList l, VList l' =>
      (fix go (l l' : list value) : bool :=
         match l, l' with
         | [], [] => true
         | x :: r, y :: r' => value_eqb x y && go r r'
         | _, _ => false
         end) l l'
  | VDict d, VDict d' =>
      (fix go (d d' : list (string * value)) : bool :=
         match d, d' with
         | [], [] => true
         | (k, x) :: r, (k', y) :: r' => String.eqb k k' && value_eqb x y && go r r'
         | _, _ => false
         end) d d'
  | _, _ => false
  end.

Fixpoint portmap_eqb (m m' : portmap) : bool :=
  match m, m' with
  | [], [] => true
  | (n, (c, sp)) :: r, (n', (c', sp')) :: r' =>
      String.eqb n n' && value_eqb c c' && value_eqb sp sp' && portmap_eqb r r'
  | _, _ => false
  end.

(** [intfs[name] = entry] *)
Fixpoint portmap_set (name : string) (entry : value * value) (m : portmap) : portmap :=
  match m with
  | [] => [(name, entry)]
  | (n, e) :: r =>
      if String.eqb name n then (n, entry) :: r else (n, e) :: portmap_set name entry r
  end.

(** ** The reconcile routine *)

(** The datastore delivers containers as dictionaries; a value of another
    shape where [reconcile] walks a container is reported as [TypeError]. *)
Definition as_dict (v : value) : result (list (string * value)) :=
  match v with
  | VDict d => Ok d
  | _ => Raise TypeError
  end.

(** ["prefix" + v] *)
Definition str_add (prefix : string) (v : value) : result string :=
  match v with
  | VStr s => Ok (prefix +:+ s)
  | _ => Raise TypeError
  end.

(** [",".join(v.replace("SPEED_", "").lower() for v in value)] *)
Fixpoint speed_names (l : list value) : result (list string) :=
  match l with
  | [] => Ok []
  | VStr s :: r =>
      names ← speed_names r;
      Ok (PyStr.lower (PyStr.replace "SPEED_" "" s) :: names)
  | _ :: _ => Raise AttributeError
  end.

Definition advertised_speeds (v : value) : result string :=
  l ← Py.to_list v;
  names ← speed_names l;
  Ok (PyStr.join "," names).

Section Reconcile.

Variable E : environment.

(** Modelled from the spec: [update_usonic_config], the
    [update_port_map(map) -> changed:boolean] of the forwarding-plane
    layer, is missing from the source.  It compares the map with the
    active one, installs it when it differs and reports whether it did. *)
Definition update_usonic_config (intfs : portmap) : M bool := fun s =>
  if portmap_eqb intfs (usonic_config s) then (Ok false, s)
  else (Ok true, with_usonic_config intfs s).

(** Modelled from the spec: [restart] is missing from the source.  The
    forwarding plane comes back with the interfaces of the installed port
    map and with its hardware counters at zero. *)
Definition restart : M unit := fun s =>
  (Ok tt, restarted (port_names E (usonic_config s)) s).

(** Modelled from the spec: [wait], the bounded wait for the forwarding
    plane; it returns or raises as the environment decides. *)
Definition wait : M unit := lift (wait_outcome E).

(** Modelled from the spec: [cache_counters] snapshots the current
    cumulative counters as the baseline. *)
Definition cache_counters : M unit := fun s =>
  (Ok tt, with_counter_cache (counters s) s).

(** Modelled from the spec: [get_ifnames] lists the interfaces the
    forwarding plane runs with. *)
Definition get_ifnames : M (list string) := fun s => (Ok (ifnames s), s).

(** Modelled from the spec: [set_config_db] sets one field of an
    interface in the local state table. *)
Definition set_config_db (ifname key : string) (v : value) : M unit :=
  emit (ASetConfigDb ifname key v).

(** Modelled from the spec: [run_bcmcmd_port], the
    [issue_vendor_command(name, cmd) -> result] of the vendor control
    channel; the command is issued, or the call raises. *)
Definition run_bcmcmd_port (ifname cmd : string) : M unit :=
  lift (run_bcmcmd_port_outcome E ifname cmd) ;; emit (ABcmCmd ifname cmd).

Definition warn_unhandled (key : string) (v : value) : M unit :=
  emit (AWarn key v).

(** One round of the loop that builds [intfs]; [name] is the list key of
    the interface, a string. *)
Definition breakout_entry (i : value) : result (string * (value * value)) :=
  name ← Py.getitem i "name";
  e ← Py.get i "ethernet" (VDict []);
  b ← Py.get e "breakout" (VDict []);
  b' ← Py.get b "config" (VDict []);
  numch ← Py.get b' "num-channels" VNone;
  cs ← Py.get b' "channel-speed" VNone;
  let speed := speed_yang_to_redis E cs in
  match name with
  | VStr n => Ok (n, (numch, speed))
  | _ => Raise TypeError
  end.

Fixpoint breakout_portmap (l : list value) (intfs : portmap) : result portmap :=
  match l with
  | [] => Ok intfs
  | i :: r =>
      '(name, entry) ← breakout_entry i;
      breakout_portmap r (portmap_set name entry intfs)
  end.

(** The dictionary [intfs] that [breakout_update_usonic] builds. *)
Definition breakout_intfs (config : value) : result portmap :=
  ifs ← Py.get config "interfaces" (VDict []);
  l ← Py.get ifs "interface" (VList []);
  l' ← Py.to_list l;
  breakout_portmap l' [].

Definition breakout_update_usonic (config : value) : M bool :=
  intfs ← lift (breakout_intfs config);
  is_updated ← update_usonic_config intfs;
  if (is_updated : bool) then restart ;; mret true else mret false.

Fixpoint get_default_loop (key : string) (keys : list (list string)) : result value :=
  match keys with
  | [] => Raise (Exception ("default value not found for " +:+ key))
  | k :: rest =>
      let xpath := String.concat "" (map (fun v => "/goldstone-interfaces:" +:+ v) k) in
      match find_node E xpath with
      | None => get_default_loop key rest
      | Some node =>
          if String.eqb (node_type node) "boolean"
          then Ok (VBool (Py.is_str "true" (node_default node)))
          else Ok (node_default node)
      end
  end.

Definition get_default (key : string) : result value :=
  get_default_loop key
    [ ["interfaces"; "interface"; "config"; key];
      ["interfaces"; "interface"; "ethernet"; "config"; key];
      ["interfaces"; "interface"; "ethernet"; "auto-negotiate"; "config"; key] ].

(** [if key not in d: d[key] = self.get_default(key)] *)
Definition fill_default (key : string) (d : list (string * value))
  : result (list (string * value)) :=
  if negb (Py.dict_mem key d) then
    v ← get_default key;
    Ok (Py.dict_set key v d)
  else Ok d.

Definition autoneg_config (data : value) : result (list (string * value)) :=
  e ← Py.get data "ethernet" (VDict []);
  a ← Py.get e "auto-negotiate" (VDict []);
  c ← Py.get a "config" (VDict []);
  autoneg ← as_dict c;
  if negb (Py.dict_mem "enabled" autoneg) then
    v ← get_default "enabled";
    Ok (Py.dict_set "enabled" (VBool (Py.is_str "true" v)) autoneg)
  else Ok autoneg.

Fixpoint autoneg_loop (ifname : string) (items : list (string * value)) : M unit :=
  match items with
  | [] => mret tt
  | (key, value) :: rest =>
      (if String.eqb key "enabled" then
         let v := if Py.truthy value then "yes" else "no" in
         run_bcmcmd_port ifname ("an=" +:+ v)
       else if String.eqb key "advertised-speeds" then
         speeds ← lift (advertised_speeds value);
         run_bcmcmd_port ifname ("adv=" +:+ speeds)
       else mret tt) ;;
      autoneg_loop ifname rest
  end.

Definition ethernet_config (ifname : string) (data : value)
  : result (list (string * value)) :=
  e ← Py.get data "ethernet" (VDict []);
  c ← Py.get e "config" (VDict []);
  ethernet ← as_dict c;
  ethernet ← fill_default "mtu" ethernet;
  ethernet ← fill_default "fec" ethernet;
  let key := "interface-type" in
  if negb (Py.dict_mem key ethernet) then
    let iftype := get_default_iftype E ifname in
    if Py.truthy iftype then Ok (Py.dict_set key iftype ethernet) else Ok ethernet
  else Ok ethernet.

(** The loop [for key in ethernet].  Its last branch formats
    [config[key]], where [config] is still the value bound before this
    loop: the whole running configuration on the first interface, the
    previous interface's [config] dictionary afterwards. *)
Fixpoint ethernet_loop (ifname : string) (ethernet config : value)
    (keys : list string) : M unit :=
  match keys with
  | [] => mret tt
  | key :: rest =>
      (if String.eqb key "interface-type" then
         v ← lift (Py.getitem ethernet key);
         cmd ← lift (str_add "if=" v);
         run_bcmcmd_port ifname cmd
       else if str_in_list key ["mtu"; "fec"; "speed"] then
         v ← lift (Py.getitem ethernet key);
         set_config_db ifname key v
       else
         v ← lift (Py.getitem config key);
         warn_unhandled key v) ;;
      ethernet_loop ifname ethernet config rest
  end.

Definition interface_config (data : value) : result (list (string * value)) :=
  c ← Py.get data "config" (VDict []);
  config ← as_dict c;
  if negb (Py.dict_mem "admin-status" config) then
    v ← get_default "admin-status";
    Ok (Py.dict_set "admin-status" v config)
  else Ok config.

Fixpoint config_loop (ifname : string) (config : value) (keys : list string)
  : M unit :=
  match keys with
  | [] => mret tt
  | key :: rest =>
      (if str_in_list key ["admin-status"; "description"] then
         v ← lift (Py.getitem config key);
         set_config_db ifname key v
       else if str_in_list key ["name"] then mret tt
       else
         v ← lift (Py.getitem config key);
         warn_unhandled key v) ;;
      config_loop ifname config rest
  end.

(** One round of the loop over the interfaces; returns the value the
    local [config] is left bound to. *)
Definition reconcile_interface (ifname : string) (config : value) : M value :=
  let xpath := "/goldstone-interfaces:interfaces/interface[name='" +:+ ifname
               +:+ "']" in
  data ← lift (get_running_data (running E) xpath (VDict []));
  autoneg ← lift (autoneg_config data);
  autoneg_loop ifname autoneg ;;
  ethernet ← lift (ethernet_config ifname data);
  ethernet_loop ifname (VDict ethernet) config (map fst ethernet) ;;
  config' ← lift (interface_config data);
  config_loop ifname (VDict config') (map fst config') ;;
  mret (VDict config').

Fixpoint reconcile_interfaces (names : list string) (config : value) : M value :=
  match names with
  | [] => mret config
  | ifname :: rest =>
      config' ← reconcile_interface ifname config;
      reconcile_interfaces rest config'
  end.

(** [for server in self.servers: await server.reconcile()]: the peers
    keep their own state; each run returns or raises. *)
Fixpoint reconcile_servers (l : list (result unit)) : M unit :=
  match l with
  | [] => mret tt
  | r :: rest => lift r ;; reconcile_servers rest
  end.

Definition reconcile : M unit :=
  set_is_rebooting true ;;
  config ← lift (get_running_data (running E) (conn_top E) (VDict []));
  is_updated ← breakout_update_usonic config;
  (if (is_updated : bool) then wait else cache_counters) ;;
  names ← get_ifnames;
  reconcile_interfaces names config ;;
  reconcile_servers (servers E) ;;
  set_is_rebooting false.

(** [pre]: the check every commit passes first. *)
Definition pre : M unit := fun s =>
  if is_rebooting s then (Raise (LockedError "uSONiC is rebooting"), s)
  else (Ok tt, s).

Definition task_queue_put (t : task) : M unit := fun s =>
  (Ok tt, with_task_queue (task_queue s ++ [t]) s).

(** [task_queue.get(False)]: [None] is [queue.Empty]. *)
Definition task_queue_get : M (option task) := fun s =>
  match task_queue s with
  | [] => (Ok None, s)
  | t :: q => (Ok (Some t), with_task_queue q s)
  end.

(** The loop of [post] over the interfaces that need their advertised
    speeds pushed. *)
Fixpoint post_adv_speeds (cache : snapshot) (names : list string) : M unit :=
  match names with
  | [] => mret tt
  | ifname :: rest =>
      let xpath := "/goldstone-interfaces:interfaces/interface[name='" +:+ ifname
                   +:+ "']/ethernet/auto-negotiate/config/advertised-speeds" in
      let config := xpath_get cache xpath VNone in
      speeds ← lift (if Py.truthy config then advertised_speeds config else Ok "");
      run_bcmcmd_port ifname ("adv=" +:+ speeds) ;;
      post_adv_speeds cache rest
  end.

(** [post]: a batch that changed the breakout configuration schedules a
    reconcile run and does nothing else. *)
Definition post (user : user_context) : M unit :=
  if update_sonic user
  then set_is_rebooting true ;; task_queue_put ReconcileTask
  else post_adv_speeds (user_cache user) (needs_adv_speed_config user).

(** One round of the [while True] loop of [handle_tasks]: only
    [queue.Empty] is caught. *)
Definition handle_tasks_round : M unit :=
  t ← task_queue_get;
  match t with
  | Some ReconcileTask => reconcile
  | None => mret tt
  end.

(** [n] rounds of the loop; an exception ends it. *)
Fixpoint handle_tasks (n : nat) : M unit :=
  match n with
  | O => mret tt
  | S k => handle_tasks_round ;; handle_tasks k
  end.

End Reconcile.

(** ** The link-state notification loop *)

(** A keyspace message: [pattern] is [None] for subscription
    acknowledgements; [channel] is the decoded channel name. *)
Record message : Type := Message {
  pattern : option string;
  channel : string
}.

(** What the loop reads from outside when a message arrives. *)
Record world : Type := World {
  w_running : datastore;
  w_oper_status : value -> option string
}.

Record notifier : Type := Notifier {
  notif_if : gmap string string;
  sent : list (string * option string)
}.

(** The body of [async for msg in psub.listen()] for one message. *)
Definition event_handler_step (w : world) (msg : message) (n : notifier)
  : result notifier :=
  match pattern msg with
  | None => Ok n
  | Some _ =>
      let ifname := PyStr.split_last ":" (channel msg) in
      let oper_status := w_oper_status w (VStr ifname) in
      let curr_oper_status := default "unknown" (notif_if n !! ifname) in
      match oper_status with
      | None => Ok n
      | Some st =>
          if String.eqb curr_oper_status st then Ok n
          else
            resolved ← get_oper_status (w_running w) (w_oper_status w) ifname;
            Ok (Notifier (<[ifname := st]> (notif_if n))
                         (sent n ++ [(ifname, resolved)]))
      end
  end.

Fixpoint event_handler (feed : list (world * message)) (n : notifier)
  : result notifier :=
  match feed with
  | [] => Ok n
  | (w, msg) :: rest =>
      n' ← event_handler_step w msg n;
      event_handler rest n'
  end.

(** ** The resolver as the specification words it

    Follows the specification, not the source: a downlink is dormant when
    all configured uplinks of a group that lists it report "down". *)
Definition spec_group_dormant (raw : value -> option string) (name : string)
    (uplinks downlinks : list string) : bool :=
  str_in_list name downlinks &&
  forallb (fun u => match raw (VStr u) with
                    | Some st => String.eqb st "down"
                    | None => false
                    end) uplinks.

Definition spec_resolve (raw : value -> option string)
    (groups : list (list string * list string)) (name : string) : option string :=
  if existsb (fun g => spec_group_dormant raw name (fst g) (snd g)) groups
  then Some "DORMANT"
  else match raw (VStr name) with
       | Some st => Some (PyStr.upper st)
       | None => None
       end.

(** A group as the datastore holds it. *)
Definition ufd_group (uplinks downlinks : list string) : value :=
  VDict [("config", VDict [("uplink", VList (map VStr uplinks));
                           ("downlink", VList (map VStr downlinks))])].

(** ** Vocabulary of the statements *)

(** The group [g] lists [ifname] as a downlink and has the uplinks [ups]:
    the way [is_downlink_port] returns from its loop. *)
Definition lists_downlink (ifname : string) (g : value) (ups : list value) : Prop :=
  exists c dl u,
    Py.getitem g "config" = Ok c /\
    Py.getitem c "downlink" = Ok dl /\
    Py.contains ifname dl = Ok true /\
    Py.getitem c "uplink" = Ok u /\
    Py.to_list u = Ok ups.

(** [is_downlink_port] passes over the group [g]: it does not list
    [ifname] as a downlink, or lacks one of the keys read. *)
Definition skipped (ifname : string) (g : value) : Prop :=
  Py.attempt (is_downlink_port_try ifname g) = None.

Definition passthrough (raw : value -> option string) (ifname : string)
  : option string :=
  PyStr.upper <$> raw (VStr ifname).

(** A datastore that holds the given UFD groups and nothing else. *)
Definition ufd_datastore (groups : list value) : datastore := fun xpath =>
  if String.eqb xpath "/goldstone-uplink-failure-detection:ufd-groups/ufd-group"
  then Ok (Some (VList groups))
  else Ok None.

(** Raw statuses from a table; interfaces outside it have none. *)
Definition raw_table (t : list (string * string)) : value -> option string :=
  fun v =>
    match v with
    | VStr name => snd <$> List.find (fun p => String.eqb (fst p) name) t
    | _ => None
    end.

(** A group with uplinks Ethernet1_1 and Ethernet2_1 and the downlink
    Ethernet3_1, and three readings of the raw statuses. *)
Definition sample_group : value :=
  ufd_group ["Ethernet1_1"; "Ethernet2_1"] ["Ethernet3_1"].

Definition raw_uplinks_down : value -> option string :=
  raw_table [("Ethernet1_1", "down"); ("Ethernet2_1", "down"); ("Ethernet3_1", "up")].

Definition raw_first_uplink_up : value -> option string :=
  raw_table [("Ethernet1_1", "up"); ("Ethernet2_1", "down"); ("Ethernet3_1", "down")].

Definition raw_second_uplink_up : value -> option string :=
  raw_table [("Ethernet1_1", "down"); ("Ethernet2_1", "up"); ("Ethernet3_1", "up")].

Definition interface_xpath (ifname : string) : string :=
  "/goldstone-interfaces:interfaces/interface[name='" +:+ ifname +:+ "']".

Definition breakout_state_xpath (ifname : string) : string :=
  "/goldstone-interfaces:interfaces/interface[name='" +:+ ifname
  +:+ "']/ethernet/breakout/state".

(** A datastore where one interface has the given breakout state. *)
Definition breakout_datastore (ifname : string) (state : value) : datastore :=
  fun xpath =>
    if String.eqb xpath (breakout_state_xpath ifname) then Ok (Some state)
    else Ok None.

Definition four_by_10G : value :=
  VDict [("num-channels", VInt 4); ("channel-speed", VStr "SPEED_10G")].



(** Stand-ins for the driver's speed conversions, for closed examples. *)
Definition sample_speed_yang_to_redis (v : value) : value :=
  match v with
  | VStr s =>
      if String.eqb s "SPEED_100G" then VInt 100000
      else if String.eqb s "SPEED_40G" then VInt 40000
      else if String.eqb s "SPEED_25G" then VInt 25000
      else if String.eqb s "SPEED_10G" then VInt 10000
      else VNone
  | _ => VNone
  end.

Definition sample_speed_redis_to_yang (z : Z) : string :=
  if z =? 100000 then "SPEED_100G"
  else if z =? 40000 then "SPEED_40G"
  else if z =? 25000 then "SPEED_25G"
  else if z =? 10000 then "SPEED_10G"
  else "SPEED_UNKNOWN".

(** The breakout configuration [BreakoutHandler.validate] reads from the
    snapshot of the post-change configuration. *)
Definition breakout_config (cache : snapshot) (ifname : string) : result value :=
  e ← Py.getitem (xpath_get cache (interface_xpath ifname) VNone) "ethernet";
  b ← Py.getitem e "breakout";
  Py.getitem b "config".

(** A leaf-list of interface names. *)
Definition names_value (l : list string) : value := VList (map VStr l).

(** What the group queries read of an entry [g] of the group list.  [g] is
    a dictionary, with any keys (its list key "ufd-id" among them); its
    "config", when it has one, is a dictionary, with any keys; [ups] and
    [downs] are the interface names under "uplink" and "downlink" of that
    "config", [None] where the key is absent. *)
Definition ufd_entry (g : value) (ups downs : option (list string)) : Prop :=
  exists d c,
    g = VDict d /\
    (Py.dict_lookup "config" d = Some (VDict c) \/
     Py.dict_lookup "config" d = None /\ c = []) /\
    Py.dict_lookup "uplink" c = names_value <$> ups /\
    Py.dict_lookup "downlink" c = names_value <$> downs.

(** The uplinks and the downlinks of a group, where it has them. *)
Definition ufd_lists : Type := (option (list string) * option (list string))%type.

Definition ufd_entries (entries : list value) (groups : list ufd_lists) : Prop :=
  Forall2 (fun g p => ufd_entry g (fst p) (snd p)) entries groups.

Definition listed (ifname : string) (l : option (list string)) : bool :=
  str_in_list ifname (default [] l).

(** Membership, as uplink or as downlink, in one of the groups. *)
Definition ufd_member (ifname : string) (groups : list ufd_lists) : bool :=
  existsb (fun p => listed ifname (fst p) || listed ifname (snd p)) groups.

(** The uplinks of the first group, in list order, that lists [ifname] as
    a downlink and has an uplink list. *)
Definition first_downlink_group (ifname : string) (groups : list ufd_lists)
  : option (list string) :=
  p ← List.find (fun p => listed ifname (snd p) &&
                          match fst p with Some _ => true | None => false end)
                groups;
  fst p.

(** A group entry with its list key, as the datastore delivers it. *)
Definition keyed_group (id : string) (ups downs : option (list string)) : value :=
  VDict [("ufd-id", VStr id);
         ("config",
          VDict ([("ufd-id", VStr id)]
                 ++ match ups with
                    | Some l => [("uplink", names_value l)]
                    | None => []
                    end
                 ++ match downs with
                    | Some l => [("downlink", names_value l)]
                    | None => []
                    end))].

(** Two groups: the first has an uplink only, the second the uplinks
    Ethernet1_1 and Ethernet2_1 and the downlink Ethernet3_1. *)
Definition keyed_groups : list value :=
  [keyed_group "1" (Some ["Ethernet7_1"]) None;
   keyed_group "2" (Some ["Ethernet1_1"; "Ethernet2_1"]) (Some ["Ethernet3_1"])].

Definition keyed_lists : list ufd_lists :=
  [(Some ["Ethernet7_1"], None);
   (Some ["Ethernet1_1"; "Ethernet2_1"], Some ["Ethernet3_1"])].

(** A snapshot where one interface has the given breakout configuration. *)
Definition breakout_snapshot (ifname : string) (config : value) : snapshot :=
  fun xpath =>
    if String.eqb xpath (interface_xpath ifname)
    then Some (VDict [("ethernet", VDict [("breakout", VDict [("config", config)])])])
    else None.

Definition raw_all_down : value -> option string :=
  raw_table [("Ethernet1_1", "down"); ("Ethernet2_1", "down"); ("Ethernet3_1", "down")].

(** A keyspace message for Ethernet3_1, and the notifications a run of
    the loop has sent. *)
Definition port_message : message :=
  Message (Some "__keyspace@0__:PORT_TABLE:Ethernet*")
          "__keyspace@0__:PORT_TABLE:Ethernet3_1".

Definition sent_by (r : result notifier) : list (string * option string) :=
  match r with
  | Ok n => sent n
  | Raise _ => []
  end.

(** Effects in sequence, and computations whose result and effects do not
    depend on the driver state they start from. *)
Definition run_actions (acts : list action) (s : sonic) : sonic :=
  fold_left (fun s a => run_action a s) acts s.

Definition uniform {A : Type} (m : M A) : Prop :=
  exists r acts, forall s, m s = (r, run_actions acts s).

Definition db_write (db : gmap (string * string) value) (a : action)
  : gmap (string * string) value :=
  match a with
  | ASetConfigDb ifname key v => <[(ifname, key) := v]> db
  | _ => db
  end.

Definition db_writes (acts : list action) (db : gmap (string * string) value)
  : gmap (string * string) value :=
  fold_left db_write acts db.

Definition bcm_cmds (acts : list action) : list (string * string) :=
  flat_map (fun a => match a with
                     | ABcmCmd ifname cmd => [(ifname, cmd)]
                     | _ => []
                     end) acts.

Definition warn_msgs (acts : list action) : list (string * value) :=
  flat_map (fun a => match a with
                     | AWarn key v => [(key, v)]
                     | _ => []
                     end) acts.

(** The replay of the configuration and the peers' runs, after the port
    map is settled. *)
Definition replay (E : environment) (names : list string) (config : value)
  : M unit :=
  reconcile_interfaces E names config ;; reconcile_servers (servers E).

(** How a run ends: the busy flag is cleared after a replay that returned,
    and left as it is after one that raised. *)
Definition finish (out : result unit * sonic) : result unit * sonic :=
  match out with
  | (Ok _, s) => (Ok tt, with_is_rebooting false s)
  | (Raise e, s) => (Raise e, s)
  end.

(** The interface state a run leaves: the active port map, the interfaces
    and the local state table. *)
Definition interface_state (s : sonic)
  : portmap * list string * gmap (string * string) value :=
  (usonic_config s, ifnames s, config_db s).

(** A closed environment for examples: a datastore built from the
    interfaces' data, defaults for the four leaves [reconcile] fills in, a
    vendor channel that accepts every command, no peers. *)
Definition interfaces_datastore (ifs : list (string * value)) : datastore :=
  fun xpath =>
    if String.eqb xpath "/goldstone-interfaces:interfaces"
    then Ok (Some (VDict [("interfaces", VDict [("interface", VList (map snd ifs))])]))
    else Ok (snd <$> List.find (fun p => String.eqb xpath (interface_xpath (fst p))) ifs).

Definition sample_find_node (xpath : string) : option schema_node :=
  if String.eqb xpath "/goldstone-interfaces:interfaces/goldstone-interfaces:interface/goldstone-interfaces:config/goldstone-interfaces:admin-status"
  then Some (SchemaNode "enumeration" (VStr "DOWN"))
  else if String.eqb xpath "/goldstone-interfaces:interfaces/goldstone-interfaces:interface/goldstone-interfaces:ethernet/goldstone-interfaces:config/goldstone-interfaces:mtu"
  then Some (SchemaNode "uint16" (VStr "9100"))
  else if String.eqb xpath "/goldstone-interfaces:interfaces/goldstone-interfaces:interface/goldstone-interfaces:ethernet/goldstone-interfaces:config/goldstone-interfaces:fec"
  then Some (SchemaNode "enumeration" (VStr "NONE"))
  else if String.eqb xpath "/goldstone-interfaces:interfaces/goldstone-interfaces:interface/goldstone-interfaces:ethernet/goldstone-interfaces:auto-negotiate/goldstone-interfaces:config/goldstone-interfaces:enabled"
  then Some (SchemaNode "boolean" (VStr "false"))
  else None.

Definition sample_environment (ifs : list (string * value))
    (wait_result : result unit) : environment :=
  Environment (interfaces_datastore ifs) "/goldstone-interfaces:interfaces"
    sample_find_node sample_speed_yang_to_redis (fun _ => VStr "CR4")
    (fun _ _ => Ok tt) wait_result (fun m => map fst m) [].

(** The driver before the first run, and with one interface up and its
    port map installed. *)
Definition fresh_sonic : sonic := Sonic false [] 0 [] ∅ [] [] ∅ ∅ [].

Definition settled_sonic : sonic :=
  Sonic false [("Ethernet1_1", (VNone, VNone))] 0 ["Ethernet1_1"] ∅ [] [] ∅ ∅ [].

Definition plain_interface : string * value :=
  ("Ethernet1_1",
   VDict [("name", VStr "Ethernet1_1");
          ("config", VDict [("name", VStr "Ethernet1_1");
                            ("loopback-mode", VStr "NONE")])]).

(** An interface with its mtu configured and its fec left to the
    default. *)
Definition tuned_interface : string * value :=
  ("Ethernet1_1",
   VDict [("name", VStr "Ethernet1_1");
          ("config", VDict [("name", VStr "Ethernet1_1")]);
          ("ethernet", VDict [("config", VDict [("mtu", VInt 1500)])])]).

(** An interface whose ethernet configuration holds a leaf that
    [reconcile] does not know. *)
Definition odd_interface : string * value :=
  ("Ethernet1_1",
   VDict [("name", VStr "Ethernet1_1");
          ("ethernet", VDict [("config", VDict [("pin-mode", VStr "NRZ")])])]).

(** ** Further vocabulary *)

Definition is_dict (v : value) : bool :=
  match v with
  | VDict _ => true
  | _ => false
  end.

(** A datastore whose lookups all raise. *)
Definition failing_datastore (e : exn) : datastore := fun _ => Raise e.

(** [validate_interface_type] finds no breakout detail for the interface:
    a lookup raised NotFoundError, the breakout state is absent or empty,
    or it holds a channel count above one without a channel speed. *)
Definition no_breakout_detail (running : datastore) (ifname : string) : Prop :=
  running (interface_xpath ifname) = Raise NotFoundError \/
  (exists o, running (interface_xpath ifname) = Ok o) /\
  (running (breakout_state_xpath ifname) = Raise NotFoundError \/
   running (breakout_state_xpath ifname) = Ok None \/
   (exists v, running (breakout_state_xpath ifname) = Ok (Some v) /\
              Py.truthy v = false) \/
   (exists d z, running (breakout_state_xpath ifname) = Ok (Some (VDict d)) /\
                Py.dict_lookup "num-channels" d = Some (VInt z) /\ 1 < z /\
                Py.dict_lookup "channel-speed" d = None)).

(** The breakout state reads [z] channels, more than one, and a channel
    speed [cs]. *)
Definition breakout_detail_is (running : datastore) (ifname : string)
    (z : Z) (cs : value) : Prop :=
  (exists o, running (interface_xpath ifname) = Ok o) /\
  exists d, running (breakout_state_xpath ifname) = Ok (Some (VDict d)) /\
            Py.dict_lookup "num-channels" d = Some (VInt z) /\ 1 < z /\
            Py.dict_lookup "channel-speed" d = Some cs.

Definition unsupported_interface_type : exn :=
  InvalArgError "Unsupported interface type".

Definition KNOWN_INTERFACE_TYPES : list string :=
  (SINGLE_LANE_INTERFACE_TYPES ++ DOUBLE_LANE_INTERFACE_TYPES
   ++ QUAD_LANE_INTERFACE_TYPES)%list.

(** ** Further change handlers *)

(** [v == None] *)
Definition is_none (v : value) : bool :=
  match v with
  | VNone => true
  | _ => false
  end.

Definition IfTypeHandler_validate (h : handler) : result unit :=
  if is_set (h_type h) then
    if negb (String.eqb (h_value h) "IF_ETHERNET")
    then Raise (InvalArgError ("Unsupported interface type " +:+ h_value h))
    else Ok tt
  else Ok tt.

Definition LoopbackModeHandler_validate (h : handler) : result unit :=
  if is_set (h_type h) then
    if negb (String.eqb (h_value h) "NONE")
    then Raise (InvalArgError ("Unsupported loopback mode " +:+ h_value h))
    else Ok tt
  else Ok tt.

Definition PRBSModeHandler_validate (h : handler) : result unit :=
  if is_set (h_type h) then
    if negb (String.eqb (h_value h) "NONE")
    then Raise (InvalArgError ("Unsupported PRBS mode " +:+ h_value h))
    else Ok tt
  else Ok tt.

(** [VLANIfModeHandler.validate]; [cache] is what [setup_cache] returned. *)
Definition VLANIfModeHandler_validate (cache : snapshot) (h : handler)
  : result unit :=
  let xpath := "/goldstone-interfaces:interfaces/interface[name='"
               +:+ h_ifname h +:+ "']" in
  let cache := xpath_get cache xpath VNone in
  if is_set (h_type h) then
    sv ← Py.getitem cache "switched-vlan";
    config ← Py.getitem sv "config";
    mode ← Py.getitem config "interface-mode";
    trunk ← (if Py.is_str "TRUNK" mode then Py.contains "access-vlan" config
             else Ok false);
    if (trunk : bool) then
      Raise (InvalArgError
        "invalid VLAN configuration. can't set TRUNK mode and access-vlan at the same time")
    else
      mode' ← Py.getitem config "interface-mode";
      access ← (if Py.is_str "ACCESS" mode' then Py.contains "trunk-vlans" config
                else Ok false);
      if (access : bool) then
        Raise (InvalArgError
          "invalid VLAN configuration. can't set ACCESS mode and trunk-vlans at the same time")
      else Ok tt
  else
    if is_none cache then Ok tt
    else
      cache ← Py.get cache "switched-vlan" VNone;
      if is_none cache then Ok tt
      else
        cache ← Py.get cache "config" VNone;
        if is_none cache then Ok tt
        else
          has_access ← Py.contains "access-vlan" cache;
          left ← (if (has_access : bool) then Ok true
                  else Py.contains "trunk-vlans" cache);
          if (left : bool) then
            Raise (InvalArgError
              "invalid VLAN configuration. must remove interface-mode, access-vlan, trunk-vlans leaves at once")
          else Ok tt.

(** A handler whose new value is any leaf value (an enumeration name, a
    number, a boolean). *)
Record leaf_handler : Type := LeafHandler {
  l_ifname : string;
  l_type : change_type;
  l_value : value
}.

Section Appliers.

Variable E : environment.
(** [update_bcm_portmap] of the vendor channel returns or raises. *)
Variable update_bcm_portmap_outcome : result unit.
(** Modelled from the spec: [setup_cache], of the handler base class,
    builds the snapshot of the post-change configuration once per batch and
    keeps it in the context. *)
Variable setup_cache : user_context -> snapshot.

Definition AdminStatusHandler_apply (h : leaf_handler) : M unit :=
  value ← (if is_set (l_type h) then mret (l_value h)
           else lift (get_default E "admin-status"));
  set_config_db (l_ifname h) "admin-status" value.

Definition MTUHandler_apply (h : leaf_handler) : M unit :=
  value ← (if is_set (l_type h) then mret (l_value h)
           else lift (get_default E "mtu"));
  set_config_db (l_ifname h) "mtu" value.

Definition FECHandler_apply (h : leaf_handler) : M unit :=
  value ← (if is_set (l_type h) then mret (l_value h)
           else lift (get_default E "fec"));
  set_config_db (l_ifname h) "fec" value.

Definition EthernetIfTypeHandler_apply (h : leaf_handler) : M unit :=
  let value := if is_set (l_type h) then l_value h
               else get_default_iftype E (l_ifname h) in
  cmd ← lift (str_add "if=" value);
  run_bcmcmd_port E (l_ifname h) cmd.

Definition SpeedHandler_apply (h : leaf_handler) : M unit :=
  let value := if is_set (l_type h) then l_value h else VStr "100G" in
  set_config_db (l_ifname h) "speed" value ;;
  lift update_bcm_portmap_outcome.


(** [v.add(ifname)] on the set kept under "needs_adv_speed_config". *)
Definition set_add (x : string) (l : list string) : list string :=
  if str_in_list x l then l else (l ++ [x])%list.

Definition AutoNegotiateAdvertisedSpeedsHandler_apply (h : handler)
    (user : user_context) : user_context :=
  let cache := setup_cache user in
  let v := needs_adv_speed_config user in
  UserContext (update_sonic user) (set_add (h_ifname h) v) cache.

(** [BreakoutHandler.apply]; [xpath] is the xpath of the change. *)
Definition BreakoutHandler_apply (xpath : string) (h : handler)
    (user : user_context) : result user_context :=
  match h_type h with
  | deleted =>
      data ← get_running_data (running E) xpath VNone;
      if Py.truthy data
      then Ok (UserContext true (needs_adv_speed_config user) (user_cache user))
      else Ok user
  | _ => Ok (UserContext true (needs_adv_speed_config user) (user_cache user))
  end.

(** [clear_counters], the callback of the clear-counters RPC. *)
Definition clear_counters : M unit := cache_counters.

End Appliers.

(** ** Vocabulary for the handlers *)

Definition switched_vlan_config (cache : snapshot) (ifname : string) : result value :=
  sv ← Py.getitem (xpath_get cache (interface_xpath ifname) VNone) "switched-vlan";
  Py.getitem sv "config".

Definition vlan_snapshot (ifname : string) (config : value) : snapshot :=
  fun xpath =>
    if String.eqb xpath (interface_xpath ifname)
    then Some (VDict [("switched-vlan", VDict [("config", config)])])
    else None.

Definition trunk_with_access_vlan : exn :=
  InvalArgError
    "invalid VLAN configuration. can't set TRUNK mode and access-vlan at the same time".

Definition access_with_trunk_vlans : exn :=
  InvalArgError
    "invalid VLAN configuration. can't set ACCESS mode and trunk-vlans at the same time".

Definition vlan_leaves_left : exn :=
  InvalArgError
    "invalid VLAN configuration. must remove interface-mode, access-vlan, trunk-vlans leaves at once".



(** An environment like the sample one, with a chosen schema. *)
Definition schema_environment (find : string -> option schema_node) : environment :=
  Environment (interfaces_datastore []) "/goldstone-interfaces:interfaces"
    find sample_speed_yang_to_redis (fun _ => VNone)
    (fun _ _ => Ok tt) (Ok tt) (fun m => map fst m) [].


(** The value a leaf handler applies: the new value of a created or
    modified leaf, the schema default of a deleted one. *)
Definition leaf_value (E : environment) (key : string) (h : leaf_handler)
  : result value :=
  if is_set (l_type h) then Ok (l_value h) else get_default E key.

(** [m] sets the field [key] of [ifname] in the state table to the value
    [r] gives and does nothing else; when [r] is an exception, [m] raises
    it and leaves the driver as it was. *)
Definition sets_field (m : M unit) (ifname key : string) (r : result value) : Prop :=
  forall s,
    match r with
    | Ok v =>
        exists s',
          m s = (Ok tt, s') /\
          config_db s' !! (ifname, key) = Some v /\
          (forall k, k <> (ifname, key) -> config_db s' !! k = config_db s !! k) /\
          bcm_log s' = bcm_log s /\
          is_rebooting s' = is_rebooting s /\
          task_queue s' = task_queue s
    | Raise e => m s = (Raise e, s)
    end.

(** The context after a handler has asked for a reconcile run. *)
Definition flagged (user : user_context) : user_context :=
  UserContext true (needs_adv_speed_config user) (user_cache user).




(** The notifications sent for one interface. *)
Definition count_for (ifname : string) (l : list (string * option string)) : nat :=
  length (List.filter (fun p => String.eqb (fst p) ifname) l).

(** The list of interfaces [breakout_update_usonic] walks. *)
Definition interface_list (config : value) : result (list value) :=
  ifs ← Py.get config "interfaces" (VDict []);
  l ← Py.get ifs "interface" (VList []);
  Py.to_list l.

(** The characters of a string, for stating that a name has no colon. *)
Fixpoint has_char (c : ascii) (s : string) : bool :=
  match s with
  | EmptyString => false
  | String c' s' => Ascii.eqb c' c || has_char c s'
  end.

(** Computations whose result and effects do not depend on the driver
    state, with a property of every effect. *)
Definition emits (P : action -> Prop) {A : Type} (m : M A) : Prop :=
  exists r acts, Forall P acts /\ forall s, m s = (r, run_actions acts s).

(** The fields of the state table [reconcile] writes, and the commands it
    sends. *)
Definition replayed_field (key : string) : bool :=
  str_in_list key ["mtu"; "fec"; "speed"; "admin-status"; "description"].

Definition replay_command (cmd : string) : bool :=
  String.prefix "an=" cmd || String.prefix "adv=" cmd || String.prefix "if=" cmd.

(** What the replay of the interfaces [names] may do. *)
Definition replay_effect (names : list string) (a : action) : Prop :=
  match a with
  | ASetConfigDb ifname key _ => In ifname names /\ replayed_field key = true
  | ABcmCmd ifname cmd => In ifname names /\ replay_command cmd = true
  | AWarn _ _ => True
  end.

(** The container of an interface's running data that [reconcile] reaches
    along [path], each step a [.get(key, {})]. *)
Definition interface_container (E : environment) (ifname : string)
    (path : list string) : result value :=
  data ← get_running_data (running E) (interface_xpath ifname) (VDict []);
  fold_left (fun r key => c ← r; Py.get c key (VDict [])) path (Ok data).

(** The leaf [key] of that container, or the schema default where the
    container has no such leaf. *)
Definition configured_or_default (E : environment) (ifname : string)
    (path : list string) (key : string) : result value :=
  c ← interface_container E ifname path;
  d ← as_dict c;
  match Py.dict_lookup key d with
  | Some v => Ok v
  | None => get_default E key
  end.

(** The field [key] of [ifname] in the state table holds the value [r]
    gives. *)
Definition field_is (s : sonic) (ifname key : string) (r : result value) : Prop :=
  exists v, r = Ok v /\ config_db s !! (ifname, key) = Some v.

(** The effect [a] leaves the field [key] of [ifname] at the value [v]
    once it holds it. *)
Definition keeps_field (ifname key : string) (v : value) (a : action) : Prop :=
  match a with
  | ASetConfigDb i k w => i = ifname -> k = key -> w = v
  | _ => True
  end.

(** ** The operational-data callback *)

(** What [oper_cb] reads besides the driver state: the datastore, the raw
    statuses, the platform description given to the constructor, the
    vendor channel's port information, the counters and the port table of
    the driver, and the driver module's speed conversions. *)
Record oper_sources : Type := OperSources {
  o_running : datastore;
  o_oper_status : value -> option string;
  o_platform_info : string -> value;
  o_bcm_ports_info : list string -> result value;
  o_get_counters : string -> value;
  o_hgetall : string -> string -> list (string * string);
  o_speed_redis_to_yang : string -> value;
  o_speed_bcm_to_yang : value -> value
}.

(** One step of the request's xpath after [libyang.xpath_split]: prefix,
    node name and key predicates. *)
Definition xpath_step : Type := (string * string * list (string * string))%type.

Definition step_name (st : xpath_step) : string := snd (fst st).
Definition step_conds (st : xpath_step) : list (string * string) := snd st.

Definition opt_value (o : option string) : value :=
  match o with
  | Some s => VStr s
  | None => VNone
  end.

Section OperCallback.

Variable O : oper_sources.

(** The "component-connection" of an interface, when the platform
    description has an entry for it. *)
Definition component_connection (name : string) : result (option value) :=
  let p := o_platform_info O name in
  if Py.truthy p then
    has_c ← Py.contains "component" p;
    v ← (if (has_c : bool) then
           c ← Py.getitem p "component";
           n ← Py.getitem c "name";
           Ok [("platform", VDict [("component", n)])]
         else Ok []);
    has_t ← Py.contains "tai" p;
    v ← (if (has_t : bool) then
           t ← Py.getitem p "tai";
           m ← Py.getitem t "module";
           mn ← Py.getitem m "name";
           t' ← Py.getitem p "tai";
           h ← Py.getitem t' "hostif";
           hn ← Py.getitem h "name";
           Ok (Py.dict_set "transponder"
                 (VDict [("module", mn); ("host-interface", hn)]) v)
         else Ok v);
    Ok (Some (VDict v))
  else Ok None.

(** The breakout state of an interface: the parent for a sub-interface,
    else the breakout configuration of the datastore, else empty. *)
Definition oper_breakout_state (name : string) : result value :=
  if negb (PyStr.endswith name "_1") && has_char "_" name then
    let parent := PyStr.split_first "_" name +:+ "_1" in
    Ok (VDict [("parent", VStr parent)])
  else
    config ← get_running_data (o_running O)
               ("/goldstone-interfaces:interfaces/interface[name='" +:+ name
                +:+ "']/ethernet/breakout/config") VNone;
    if Py.truthy config then Ok config else Ok (VDict []).

(** The first loop over the interfaces. *)
Fixpoint oper_skeletons (names : list string)
  : result (list (string * option value * value)) :=
  match names with
  | [] => Ok []
  | name :: rest =>
      cc ← component_connection name;
      b ← oper_breakout_state name;
      l ← oper_skeletons rest;
      Ok ((name, cc, b) :: l)
  end.

(** The loop over the port table of one interface. *)
Fixpoint oper_port_table (config : list (string * string))
    (state eth_state : list (string * value))
  : list (string * value) * list (string * value) :=
  match config with
  | [] => (state, eth_state)
  | (key, value) :: rest =>
      if str_in_list key ["alias"; "lanes"] then
        oper_port_table rest (Py.dict_set key (VStr value) state) eth_state
      else if String.eqb key "speed" then
        oper_port_table rest state
          (Py.dict_set key (o_speed_redis_to_yang O value) eth_state)
      else if String.eqb key "admin_status" then
        oper_port_table rest
          (Py.dict_set "admin-status" (VStr (PyStr.upper value)) state) eth_state
      else if String.eqb key "mtu" then
        oper_port_table rest state
          (Py.dict_set "mtu" (VStr (PyStr.upper value)) eth_state)
      else oper_port_table rest state eth_state
  end.

(** The "auto-negotiate" container from the vendor channel's information. *)
Definition oper_auto_negotiate (info : value) : result value :=
  auto_nego ← Py.get info "auto-nego" VNone;
  if Py.truthy auto_nego then
    l ← Py.get auto_nego "local" (VDict []);
    v ← Py.get l "fd" VNone;
    if Py.truthy v then
      speeds ← Py.to_list v;
      Ok (VDict [("state",
                  VDict [("enabled", VBool true);
                         ("advertised-speeds",
                          VList (map (o_speed_bcm_to_yang O) speeds))])])
    else Ok (VDict [("state", VDict [("enabled", VBool true)])])
  else Ok (VDict [("state", VDict [("enabled", VBool false)])]).

(** One round of the second loop: the finished entry of an interface. *)
Definition oper_interface (counter_only : bool) (bcminfo : value)
    (sk : string * option value * value) : result value :=
  let '(ifname, cc, bstate) := sk in
  let state := [("name", VStr ifname); ("counters", o_get_counters O ifname)] in
  '(state, ethernet) ←
    (if counter_only
     then Ok (state, [("state", VDict []); ("breakout", VDict [("state", bstate)])])
     else
       st ← get_oper_status (o_running O) (o_oper_status O) ifname;
       let state := Py.dict_set "oper-status" (opt_value st) state in
       let config := o_hgetall O "APPL_DB" ("PORT_TABLE:" +:+ ifname) in
       let '(state, eth_state) := oper_port_table config state [] in
       info ← Py.get bcminfo ifname (VDict []);
       iftype ← Py.get info "iftype" VNone;
       let eth_state := if Py.truthy iftype
                        then Py.dict_set "interface-type" iftype eth_state
                        else eth_state in
       fec ← Py.get info "fec" VNone;
       let eth_state := if Py.truthy fec
                        then Py.dict_set "fec" fec eth_state
                        else eth_state in
       an ← oper_auto_negotiate info;
       Ok (state, [("state", VDict eth_state);
                   ("breakout", VDict [("state", bstate)]);
                   ("auto-negotiate", an)]));
  let interface := [("name", VStr ifname);
                    ("config", VDict [("name", VStr ifname)]);
                    ("state", VDict state);
                    ("ethernet", VDict ethernet)] in
  match cc with
  | Some v => Ok (VDict (interface ++ [("component-connection", v)]))
  | None => Ok (VDict interface)
  end.

Fixpoint oper_interfaces (counter_only : bool) (bcminfo : value)
    (sks : list (string * option value * value)) : result (list value) :=
  match sks with
  | [] => Ok []
  | sk :: rest =>
      i ← oper_interface counter_only bcminfo sk;
      l ← oper_interfaces counter_only bcminfo rest;
      Ok (i :: l)
  end.

Definition oper_reply (interfaces : list value) : value :=
  VDict [("goldstone-interfaces:interfaces",
          VDict [("interface", VList interfaces)])].

(** The interfaces a request is about: all of them, or the one its key
    predicate names; [None] stands for [return None], and the failed
    [assert] on the key of the predicate is the exception "AssertionError". *)
Definition oper_selected (req_xpath : list xpath_step) (ifnames : list string)
  : result (option (list string)) :=
  match req_xpath with
  | _ :: second :: _ =>
      if String.eqb (step_name second) "interface"
      then match step_conds second with
           | [cond] =>
               if negb (String.eqb (fst cond) "name")
               then Raise (Exception "AssertionError")
               else if negb (str_in_list (snd cond) ifnames) then Ok None
               else Ok (Some [snd cond])
           | _ => Ok (Some ifnames)
           end
      else Ok (Some ifnames)
  | _ => Ok (Some ifnames)
  end.

(** The request asks for the names of the interfaces only. *)
Definition oper_names_only (req_xpath : list xpath_step) : bool :=
  match req_xpath with
  | [_; second; third] =>
      String.eqb (step_name second) "interface" && String.eqb (step_name third) "name"
  | _ => false
  end.

(** [oper_cb]; [xpath] is the request and [req_xpath] its split form;
    [None] stands for [return None]. *)
Definition oper_cb (xpath : string) (req_xpath : list xpath_step) (s : sonic)
  : result (option value) :=
  if is_rebooting s then Raise (CallbackFailedError "uSONiC is rebooting")
  else
    let counter_only := PyStr.contains "counters" xpath in
    let ifnames := ifnames s in
    if oper_names_only req_xpath then
      Ok (Some (oper_reply (map (fun name => VDict [("name", VStr name)]) ifnames)))
    else
      sel ← oper_selected req_xpath ifnames;
      match sel with
      | None => Ok None
      | Some ifnames =>
          sks ← oper_skeletons ifnames;
          bcminfo ← (if counter_only then Ok VNone
                     else o_bcm_ports_info O (map (fun sk => fst (fst sk)) sks));
          interfaces ← oper_interfaces counter_only bcminfo sks;
          Ok (Some (oper_reply interfaces))
      end.

End OperCallback.

(** The name an entry of the reply carries in its own "name" leaf and in
    those of its "config" and "state" containers. *)
Definition entry_names (e : value) : result (value * value * value) :=
  n ← Py.getitem e "name";
  c ← Py.getitem e "config";
  cn ← Py.getitem c "name";
  st ← Py.getitem e "state";
  sn ← Py.getitem st "name";
  Ok (n, cn, sn).

(** The "oper-status" leaf of an entry of the reply, if it has one. *)
Definition entry_oper_status (e : value) : result value :=
  st ← Py.getitem e "state";
  Py.getitem st "oper-status".

(** Sources for closed examples: no platform description, an empty port
    table but for the admin status, no vendor information. *)
Definition sample_sources (running : datastore) (raw : value -> option string)
  : oper_sources :=
  OperSources running raw (fun _ => VNone) (fun _ => Ok (VDict []))
    (fun _ => VDict [("in-octets", VInt 0)])
    (fun _ _ => [("admin_status", "up"); ("name", "spoofed")])
    (fun s => VStr ("SPEED_" +:+ s)) (fun v => v).

Definition interface_step (ifname : string) : list xpath_step :=
  [("goldstone-interfaces", "interfaces", []);
   ("", "interface", [("name", ifname)])].

(** * Properties *)

(** Lookups in a dictionary written out in full are evaluated. *)
Ltac eval_lookups :=
  repeat match goal with
         | |- context [Py.dict_lookup ?k (cons ?p ?d)] =>
             let t := constr:(Py.dict_lookup k (cons p d)) in
             let r := eval cbv in t in
             change t with r
         end.

Ltac py_eval := repeat (progress (eval_lookups; cbn)).

(** ** Operational status *)

Lemma is_downlink_port_try_hit ifname g ups :
  lists_downlink ifname g ups ->
  Py.attempt (is_downlink_port_try ifname g) = Some ups.
Proof.
  intros (c & dl & u & Hc & Hd & Hin & Hu & Hl).
  unfold is_downlink_port_try.
  rewrite Hc. cbn. rewrite Hd. cbn. rewrite Hin. cbn.
  rewrite Hu. cbn. rewrite Hl. reflexivity.
Qed.

Lemma is_downlink_port_loop_first ifname pre g post ups :
  Forall (skipped ifname) pre ->
  Py.attempt (is_downlink_port_try ifname g) = Some ups ->
  is_downlink_port_loop ifname (pre ++ g :: post) = (true, Some ups).
Proof.
  intros Hpre Hg. induction Hpre as [| d pre Hd _ IH]; cbn.
  - rewrite Hg. reflexivity.
  - unfold skipped in Hd. rewrite Hd. exact IH.
Qed.

Lemma is_downlink_port_loop_none ifname groups :
  Forall (skipped ifname) groups ->
  is_downlink_port_loop ifname groups = (false, None).
Proof.
  induction 1 as [| d l Hd _ IH]; cbn; [reflexivity |].
  unfold skipped in Hd. rewrite Hd. exact IH.
Qed.

Lemma get_oper_status_unfold running raw ifname groups :
  get_ufd running = Ok (VList groups) ->
  get_oper_status running raw ifname =
    match is_downlink_port_loop ifname groups with
    | (true, Some (first :: _)) =>
        if Py.opt_eq_str (raw first) "down" then Ok (Some "DORMANT")
        else Ok (passthrough raw ifname)
    | _ => Ok (passthrough raw ifname)
    end.
Proof.
  intros Hufd. unfold get_oper_status, is_downlink_port. rewrite Hufd. cbn.
  destruct (is_downlink_port_loop ifname groups) as [[|] [[|first rest]|]];
    cbn; unfold passthrough; destruct (raw (VStr ifname)); reflexivity.
Qed.


(** The examples of the specification: both uplinks down gives DORMANT;
    with the first uplink up the downlink's own status passes through. *)
Example resolve_both_uplinks_down :
  get_oper_status (ufd_datastore [sample_group]) raw_uplinks_down "Ethernet3_1"
  = Ok (Some "DORMANT").
Proof. vm_compute. reflexivity. Qed.

Example resolve_first_uplink_up :
  get_oper_status (ufd_datastore [sample_group]) raw_first_uplink_up "Ethernet3_1"
  = Ok (Some "DOWN").
Proof. vm_compute. reflexivity. Qed.

(** C1, as the code has it.  [get_oper_status] looks at the first group, in
    list order, that lists the interface as a downlink, and at the first
    configured uplink of that group only: when that uplink reports raw
    status "down" the result is DORMANT whatever the interface's own raw
    status is; when the uplink list is empty, when the first uplink reports
    anything else, or when no group lists the interface as a downlink, the
    result is the interface's raw status in upper case (nothing when it has
    no raw status). *)
Theorem get_oper_status_first_uplink running raw ifname groups :
  get_ufd running = Ok (VList groups) ->
  (forall pre g post ups,
      groups = (pre ++ g :: post)%list ->
      Forall (skipped ifname) pre ->
      lists_downlink ifname g ups ->
      get_oper_status running raw ifname =
        Ok (match ups with
            | first :: _ =>
                if Py.opt_eq_str (raw first) "down" then Some "DORMANT"
                else passthrough raw ifname
            | [] => passthrough raw ifname
            end)) /\
  (Forall (skipped ifname) groups ->
   get_oper_status running raw ifname = Ok (passthrough raw ifname)).
Proof.
  intros Hufd. split.
  - intros pre g post ups -> Hpre Hg.
    rewrite (get_oper_status_unfold _ _ _ _ Hufd).
    rewrite (is_downlink_port_loop_first _ _ _ _ _ Hpre
               (is_downlink_port_try_hit _ _ _ Hg)).
    destruct ups as [| first rest]; [reflexivity |].
    destruct (Py.opt_eq_str (raw first) "down"); reflexivity.
  - intros Hall.
    rewrite (get_oper_status_unfold _ _ _ _ Hufd).
    rewrite (is_downlink_port_loop_none _ _ Hall). reflexivity.
Qed.

Lemma get_oper_status_first_uplink_witness :
  get_oper_status (ufd_datastore [sample_group]) raw_uplinks_down "Ethernet3_1"
  = Ok (Some "DORMANT") /\
  get_oper_status (ufd_datastore [sample_group]) raw_uplinks_down "Ethernet1_1"
  = Ok (Some "DOWN").
Proof.
  split.
  - apply (proj1 (get_oper_status_first_uplink (ufd_datastore [sample_group])
                    raw_uplinks_down "Ethernet3_1" [sample_group] eq_refl)
             [] sample_group [] [VStr "Ethernet1_1"; VStr "Ethernet2_1"] eq_refl).
    + constructor.
    + exists (VDict [("uplink", VList [VStr "Ethernet1_1"; VStr "Ethernet2_1"]);
                     ("downlink", VList [VStr "Ethernet3_1"])]),
             (VList [VStr "Ethernet3_1"]),
             (VList [VStr "Ethernet1_1"; VStr "Ethernet2_1"]).
      repeat split; reflexivity.
  - apply (proj2 (get_oper_status_first_uplink (ufd_datastore [sample_group])
                    raw_uplinks_down "Ethernet1_1" [sample_group] eq_refl)).
    repeat constructor.
Defined.

(** C1 as stated fails: with the first uplink down and the second up, not
    all uplinks are down, yet the code answers DORMANT where the resolver
    of the specification passes the downlink's own status through. *)
Lemma get_oper_status_all_uplinks_counterexample :
  get_oper_status (ufd_datastore [sample_group]) raw_second_uplink_up "Ethernet3_1"
  = Ok (Some "DORMANT") /\
  spec_resolve raw_second_uplink_up
    [(["Ethernet1_1"; "Ethernet2_1"], ["Ethernet3_1"])] "Ethernet3_1"
  = Some "UP".
Proof. split; vm_compute; reflexivity. Qed.

(** ** Interface-type validation *)

Lemma get_breakout_detail_channels running ifname d z :
  running (breakout_state_xpath ifname) = Ok (Some (VDict d)) ->
  Py.dict_lookup "num-channels" d = Some (VInt z) ->
  1 < z ->
  get_breakout_detail running ifname =
    match Py.dict_lookup "channel-speed" d with
    | Some cs => Ok (Some (VDict [("num-channels", VInt z); ("channel-speed", cs)]))
    | None => Raise (KeyError "channel-speed")
    end.
Proof.
  intros Hrun Hn Hz. unfold get_breakout_detail, get_running_data.
  fold (breakout_state_xpath ifname). rewrite Hrun. cbn.
  destruct d as [| kv d']; [discriminate |]. cbn [Py.truthy negb].
  unfold Py.get, Py.getitem. rewrite Hn. cbn.
  replace (1 <? z) with true by (symmetry; apply Z.ltb_lt; exact Hz).
  cbn. destruct (Py.dict_lookup "channel-speed" (kv :: d')); reflexivity.
Qed.




Lemma dict_lookup_nonempty k d v : Py.dict_lookup k d = Some v -> d <> [].
Proof. intros H ->. discriminate. Qed.

(** C9.  Whenever the interface's own breakout state is there and its
    num-channels is at most 1 (or absent, which reads as 1),
    [get_breakout_detail] reaches the branch that reads the unbound [name]
    and raises NameError; it returns neither the parent's detail nor None.
    This holds for every interface name, those not ending in "_1"
    included. *)
Theorem get_breakout_detail_name_error running ifname d :
  running (breakout_state_xpath ifname) = Ok (Some (VDict d)) ->
  d <> [] ->
  (Py.dict_lookup "num-channels" d = None \/
   exists z, Py.dict_lookup "num-channels" d = Some (VInt z) /\ z <= 1) ->
  get_breakout_detail running ifname = Raise (NameError "name").
Proof.
  intros Hrun Hd Hn. unfold get_breakout_detail, get_running_data.
  fold (breakout_state_xpath ifname). rewrite Hrun. cbn.
  destruct d as [| kv d']; [congruence |]. cbn [Py.truthy negb].
  unfold Py.get. destruct Hn as [Hn | (z & Hn & Hz)]; rewrite Hn; cbn.
  - reflexivity.
  - replace (1 <? z) with false by (symmetry; apply Z.ltb_ge; exact Hz).
    reflexivity.
Qed.

Lemma get_breakout_detail_name_error_witness :
  PyStr.endswith "Ethernet1_2" "_1" = false /\
  get_breakout_detail
    (breakout_datastore "Ethernet1_2" (VDict [("parent", VStr "Ethernet1_1")]))
    "Ethernet1_2" = Raise (NameError "name").
Proof.
  split; [reflexivity |].
  apply (get_breakout_detail_name_error
           (breakout_datastore "Ethernet1_2" (VDict [("parent", VStr "Ethernet1_1")]))
           "Ethernet1_2" [("parent", VStr "Ethernet1_1")]).
  - reflexivity.
  - discriminate.
  - left. reflexivity.
Defined.

(** ** Speed validation *)

(** C10.  For a created or modified advertised-speeds event whose value is
    outside the valid speeds of the interface, the handler's [validate]
    raises NameError (its message reads the unbound [change]) and not the
    InvalArgError it builds. *)
Theorem advertised_speeds_validate_name_error y2r r2y h :
  is_set (h_type h) = true ->
  in_ints (y2r (VStr (h_value h))) (valid_speeds h) = false ->
  AutoNegotiateAdvertisedSpeedsHandler_validate y2r r2y h = Raise (NameError "change").
Proof.
  intros Hset Hin. unfold AutoNegotiateAdvertisedSpeedsHandler_validate.
  rewrite Hset, Hin. reflexivity.
Qed.

Lemma advertised_speeds_validate_name_error_witness :
  AutoNegotiateAdvertisedSpeedsHandler_validate
    sample_speed_yang_to_redis sample_speed_redis_to_yang
    (Handler "Ethernet1_1" created "SPEED_25G") = Raise (NameError "change").
Proof.
  apply (advertised_speeds_validate_name_error
           sample_speed_yang_to_redis sample_speed_redis_to_yang
           (Handler "Ethernet1_1" created "SPEED_25G")); reflexivity.
Defined.

Lemma valid_speeds_sub_interface h :
  PyStr.endswith (h_ifname h) "_1" = false -> valid_speeds h = [].
Proof. intros H. unfold valid_speeds. rewrite H. reflexivity. Qed.

(** C7, as the code has it.  For a created or modified speed event whose
    value is not a valid speed of the interface, [validate] fails with
    InvalArgError; the message names the offending speed value (not the
    interface) and the candidate speeds joined by commas.  On an interface
    whose name does not end in "_1" no speed is valid, so every such event
    fails and the candidate list is empty.  [validate] is a function of the
    handler alone: it has no access to the driver state or the
    datastore. *)
Theorem SpeedHandler_validate_invalid y2r r2y h :
  is_set (h_type h) = true ->
  (in_ints (y2r (VStr (h_value h))) (valid_speeds h) = false ->
   SpeedHandler_validate y2r r2y h =
     Raise (InvalArgError ("Invalid speed: " +:+ h_value h +:+ ", candidates: "
                           +:+ PyStr.join "," (map r2y (valid_speeds h))))) /\
  (PyStr.endswith (h_ifname h) "_1" = false ->
   SpeedHandler_validate y2r r2y h =
     Raise (InvalArgError ("Invalid speed: " +:+ h_value h +:+ ", candidates: "))).
Proof.
  intros Hset. split.
  - intros Hin. unfold SpeedHandler_validate. rewrite Hset, Hin. reflexivity.
  - intros Hsub. unfold SpeedHandler_validate.
    rewrite Hset, (valid_speeds_sub_interface h Hsub).
    destruct (y2r (VStr (h_value h))); reflexivity.
Qed.

Lemma SpeedHandler_validate_invalid_witness :
  SpeedHandler_validate sample_speed_yang_to_redis sample_speed_redis_to_yang
    (Handler "Ethernet1_1" modified "SPEED_25G")
  = Raise (InvalArgError "Invalid speed: SPEED_25G, candidates: SPEED_40G,SPEED_100G") /\
  SpeedHandler_validate sample_speed_yang_to_redis sample_speed_redis_to_yang
    (Handler "Ethernet1_2" modified "SPEED_100G")
  = Raise (InvalArgError "Invalid speed: SPEED_100G, candidates: ").
Proof.
  split.
  - apply (proj1 (SpeedHandler_validate_invalid
                    sample_speed_yang_to_redis sample_speed_redis_to_yang
                    (Handler "Ethernet1_1" modified "SPEED_25G") eq_refl)).
    reflexivity.
  - apply (proj2 (SpeedHandler_validate_invalid
                    sample_speed_yang_to_redis sample_speed_redis_to_yang
                    (Handler "Ethernet1_2" modified "SPEED_100G") eq_refl)).
    reflexivity.
Defined.

(** C7 as stated fails: the message of the error names the offending
    value, and the interface appears nowhere in it. *)
Lemma SpeedHandler_message_counterexample :
  SpeedHandler_validate sample_speed_yang_to_redis sample_speed_redis_to_yang
    (Handler "Ethernet1_2" modified "SPEED_25G")
  = Raise (InvalArgError "Invalid speed: SPEED_25G, candidates: ") /\
  PyStr.contains "Ethernet1_2" "Invalid speed: SPEED_25G, candidates: " = false.
Proof. split; vm_compute; reflexivity. Qed.

(** ** Breakout validation *)

Lemma existsb_is_str ifname l :
  existsb (Py.is_str ifname) (map VStr l) = str_in_list ifname l.
Proof.
  unfold str_in_list. induction l as [| x l IH]; [reflexivity |].
  cbn [map existsb]. rewrite IH. reflexivity.
Qed.

Lemma ufd_entry_config g ups downs :
  ufd_entry g ups downs ->
  exists c,
    Py.get g "config" (VDict []) = Ok (VDict c) /\
    Py.dict_lookup "uplink" c = names_value <$> ups /\
    Py.dict_lookup "downlink" c = names_value <$> downs.
Proof.
  intros (d & c & -> & Hc & Hu & Hd). exists c. unfold Py.get.
  destruct Hc as [Hc | [Hc ->]]; rewrite Hc; repeat split; assumption.
Qed.

Lemma is_ufd_port_group_entry ifname g ups downs :
  ufd_entry g ups downs ->
  is_ufd_port_group ifname g = Ok (listed ifname ups || listed ifname downs).
Proof.
  intros Hg. destruct (ufd_entry_config _ _ _ Hg) as (c & Hc & Hu & Hd).
  unfold is_ufd_port_group. rewrite Hc. cbn. unfold Py.get. rewrite Hu, Hd.
  unfold listed.
  destruct ups as [u |], downs as [dl |]; cbn; rewrite ?existsb_is_str;
    try reflexivity.
  - destruct (str_in_list ifname u); reflexivity.
  - destruct (str_in_list ifname u); reflexivity.
Qed.

Lemma is_ufd_port_loop_entries ifname entries groups :
  ufd_entries entries groups ->
  is_ufd_port_loop ifname entries = Ok (ufd_member ifname groups).
Proof.
  unfold ufd_member. induction 1 as [| g p entries groups Hg _ IH];
    [reflexivity |].
  cbn [is_ufd_port_loop existsb]. rewrite (is_ufd_port_group_entry _ _ _ _ Hg).
  cbn. destruct (listed ifname (fst p) || listed ifname (snd p)); cbn;
    [reflexivity | exact IH].
Qed.

Lemma is_ufd_port_entries running ifname entries groups :
  get_ufd running = Ok (VList entries) ->
  ufd_entries entries groups ->
  is_ufd_port running ifname None = Ok (ufd_member ifname groups).
Proof.
  intros H Hg. unfold is_ufd_port. rewrite H. cbn.
  apply is_ufd_port_loop_entries. exact Hg.
Qed.

Lemma keyed_groups_entries : ufd_entries keyed_groups keyed_lists.
Proof.
  repeat constructor; cbn [fst snd]; eexists _, _;
    (split; [reflexivity |]); (split; [left; reflexivity |]);
    split; reflexivity.
Qed.

(** The names of the channels 2 to 4 of a port, [base_2] to [base_4], have
    no "_1" in them: they are the sub-interfaces of the handler's test. *)
Lemma contains_cons sub c s :
  PyStr.contains sub (String c s) = String.prefix sub (String c s) || PyStr.contains sub s.
Proof. reflexivity. Qed.

Lemma sub_interface_name base ch :
  PyStr.contains "_" base = false ->
  In ch ["2"; "3"; "4"] ->
  PyStr.contains "_1" (base +:+ "_" +:+ ch) = false.
Proof.
  intros Hbase Hch. induction base as [| c b IH].
  - cbn in Hch. destruct Hch as [<- | [<- | [<- | []]]]; vm_compute; reflexivity.
  - rewrite contains_cons in Hbase. apply orb_false_iff in Hbase as [Hc Hb].
    change ((String c b) +:+ "_" +:+ ch) with (String c (b +:+ "_" +:+ ch)).
    rewrite contains_cons, (IH Hb), orb_false_r.
    cbn [String.prefix] in Hc |- *.
    destruct (ascii_dec "_" c); [| reflexivity].
    destruct b; discriminate.
Qed.

(** C8.  A created or modified breakout configuration is rejected with a
    validation error (InvalArgError): always when the interface is a
    sub-interface (its name has no "_1", the test the handler makes),
    before the groups are read; and, on a group list whose entries are
    dictionaries holding their uplink and downlink names under "config",
    whatever other keys they carry and also where a list is absent, when
    the interface is an uplink or a downlink of a group, and when
    num-channels and channel-speed are not both present in the breakout
    configuration of the post-change snapshot. *)
Theorem BreakoutHandler_validate_rejects running cache h :
  is_set (h_type h) = true ->
  (PyStr.contains "_1" (h_ifname h) = false ->
   BreakoutHandler_validate running cache h =
     Raise (InvalArgError "breakout cannot be configured on a sub-interface")) /\
  (forall entries groups,
      get_ufd running = Ok (VList entries) ->
      ufd_entries entries groups ->
      (ufd_member (h_ifname h) groups = true ->
       exists msg,
         BreakoutHandler_validate running cache h = Raise (InvalArgError msg)) /\
      (forall config,
          breakout_config cache (h_ifname h) = Ok (VDict config) ->
          Py.dict_mem "num-channels" config && Py.dict_mem "channel-speed" config
          = false ->
          exists msg,
            BreakoutHandler_validate running cache h = Raise (InvalArgError msg))).
Proof.
  intros Hset. unfold BreakoutHandler_validate. rewrite Hset. split.
  - intros ->. reflexivity.
  - intros entries groups Hufd Hent.
    rewrite (is_ufd_port_entries _ _ _ _ Hufd Hent).
    destruct (PyStr.contains "_1" (h_ifname h)); cbn [negb];
      [| split; [intros _ | intros config _ _]; eexists; reflexivity].
    cbn. split.
    + intros ->. eexists; reflexivity.
    + intros config Hcfg Hboth.
      destruct (ufd_member (h_ifname h) groups); [eexists; reflexivity |].
      unfold breakout_config in Hcfg. fold (interface_xpath (h_ifname h)).
      destruct (Py.getitem (xpath_get cache (interface_xpath (h_ifname h)) VNone)
                  "ethernet") as [e | ?]; [| discriminate].
      cbn in Hcfg |- *.
      destruct (Py.getitem e "breakout") as [b | ?]; [| discriminate].
      cbn in Hcfg |- *. rewrite Hcfg. cbn.
      destruct (Py.dict_mem "num-channels" config); cbn; [| eexists; reflexivity].
      cbn in Hboth. rewrite Hboth. cbn. eexists; reflexivity.
Qed.

Lemma BreakoutHandler_validate_rejects_witness :
  BreakoutHandler_validate (failing_datastore NotFoundError)
    (breakout_snapshot "Ethernet5_2" four_by_10G)
    (Handler "Ethernet5_2" created "")
  = Raise (InvalArgError "breakout cannot be configured on a sub-interface") /\
  (exists msg,
      BreakoutHandler_validate (ufd_datastore keyed_groups)
        (breakout_snapshot "Ethernet7_1" four_by_10G)
        (Handler "Ethernet7_1" created "") = Raise (InvalArgError msg)) /\
  (exists msg,
      BreakoutHandler_validate (ufd_datastore keyed_groups)
        (breakout_snapshot "Ethernet3_1" four_by_10G)
        (Handler "Ethernet3_1" created "") = Raise (InvalArgError msg)) /\
  (exists msg,
      BreakoutHandler_validate (ufd_datastore keyed_groups)
        (breakout_snapshot "Ethernet5_1" (VDict [("num-channels", VInt 4)]))
        (Handler "Ethernet5_1" modified "") = Raise (InvalArgError msg)).
Proof.
  split; [| split; [| split]].
  - apply (proj1 (BreakoutHandler_validate_rejects (failing_datastore NotFoundError)
                    (breakout_snapshot "Ethernet5_2" four_by_10G)
                    (Handler "Ethernet5_2" created "") eq_refl)).
    reflexivity.
  - apply (proj1 (proj2 (BreakoutHandler_validate_rejects
                           (ufd_datastore keyed_groups) _
                           (Handler "Ethernet7_1" created "") eq_refl)
                    keyed_groups keyed_lists eq_refl keyed_groups_entries)).
    reflexivity.
  - apply (proj1 (proj2 (BreakoutHandler_validate_rejects
                           (ufd_datastore keyed_groups) _
                           (Handler "Ethernet3_1" created "") eq_refl)
                    keyed_groups keyed_lists eq_refl keyed_groups_entries)).
    reflexivity.
  - apply (proj2 (proj2 (BreakoutHandler_validate_rejects
                           (ufd_datastore keyed_groups) _
                           (Handler "Ethernet5_1" modified "") eq_refl)
                    keyed_groups keyed_lists eq_refl keyed_groups_entries)
             [("num-channels", VInt 4)]); reflexivity.
Defined.

(** ** Notifications *)




(** ** Reconcile: effects that do not depend on the state *)

Lemma run_actions_app a b s :
  run_actions (a ++ b) s = run_actions b (run_actions a s).
Proof. unfold run_actions. apply fold_left_app. Qed.

Lemma uniform_ret {A} (a : A) : uniform (mret a).
Proof. exists (Ok a), []. reflexivity. Qed.

Lemma uniform_lift {A} (r : result A) : uniform (lift r).
Proof. exists r, []. reflexivity. Qed.

Lemma uniform_emit a : uniform (emit a).
Proof. exists (Ok tt), [a]. reflexivity. Qed.

Lemma uniform_bind {A B} (m : M A) (f : A -> M B) :
  uniform m -> (forall a, uniform (f a)) -> uniform (m ≫= f).
Proof.
  intros (r & acts & Hm) Hf. destruct r as [a | e].
  - destruct (Hf a) as (r2 & acts2 & Hfa). exists r2, (acts ++ acts2)%list.
    intros s. unfold mbind, M_bind. rewrite Hm, Hfa, run_actions_app. reflexivity.
  - exists (Raise e), acts. intros s. unfold mbind, M_bind. rewrite Hm. reflexivity.
Qed.

Ltac uniform_step :=
  first
    [ apply uniform_ret
    | apply uniform_lift
    | apply uniform_emit
    | apply uniform_bind; [| intros ?]
    | match goal with
      | |- uniform (if ?b then _ else _) => destruct b
      end ].

Lemma uniform_run_bcmcmd_port E ifname cmd : uniform (run_bcmcmd_port E ifname cmd).
Proof. unfold run_bcmcmd_port. repeat uniform_step. Qed.

Lemma uniform_autoneg_loop E ifname items : uniform (autoneg_loop E ifname items).
Proof.
  induction items as [| [key v] rest IH]; cbn [autoneg_loop].
  - apply uniform_ret.
  - apply uniform_bind; [| intros _; exact IH].
    repeat (uniform_step || apply uniform_run_bcmcmd_port).
Qed.

Lemma uniform_ethernet_loop E ifname ethernet config keys :
  uniform (ethernet_loop E ifname ethernet config keys).
Proof.
  induction keys as [| key rest IH]; cbn [ethernet_loop].
  - apply uniform_ret.
  - apply uniform_bind; [| intros _; exact IH].
    unfold set_config_db, warn_unhandled.
    repeat (uniform_step || apply uniform_run_bcmcmd_port).
Qed.

Lemma uniform_config_loop ifname config keys :
  uniform (config_loop ifname config keys).
Proof.
  induction keys as [| key rest IH]; cbn [config_loop].
  - apply uniform_ret.
  - apply uniform_bind; [| intros _; exact IH].
    unfold set_config_db, warn_unhandled. repeat uniform_step.
Qed.

Lemma uniform_reconcile_interface E ifname config :
  uniform (reconcile_interface E ifname config).
Proof.
  unfold reconcile_interface.
  repeat (uniform_step || apply uniform_autoneg_loop
          || apply uniform_ethernet_loop || apply uniform_config_loop).
Qed.

Lemma uniform_reconcile_interfaces E names :
  forall config, uniform (reconcile_interfaces E names config).
Proof.
  induction names as [| ifname rest IH]; intros config; cbn [reconcile_interfaces].
  - apply uniform_ret.
  - apply uniform_bind; [apply uniform_reconcile_interface | intros c; apply IH].
Qed.

Lemma uniform_reconcile_servers l : uniform (reconcile_servers l).
Proof.
  induction l as [| r rest IH]; cbn [reconcile_servers].
  - apply uniform_ret.
  - apply uniform_bind; [apply uniform_lift | intros _; exact IH].
Qed.

Lemma uniform_replay E names config : uniform (replay E names config).
Proof.
  unfold replay. apply uniform_bind.
  - apply uniform_reconcile_interfaces.
  - intros _. apply uniform_reconcile_servers.
Qed.

Lemma run_actions_fields acts : forall s,
  run_actions acts s =
    Sonic (is_rebooting s) (usonic_config s) (restarts s) (ifnames s)
          (db_writes acts (config_db s)) (bcm_log s ++ bcm_cmds acts)
          (warnings s ++ warn_msgs acts) (counters s) (counter_cache s)
          (task_queue s).
Proof.
  induction acts as [| a acts IH]; intros s.
  - destruct s. cbn. rewrite !app_nil_r. reflexivity.
  - change (run_actions (a :: acts) s) with (run_actions acts (run_action a s)).
    rewrite IH. destruct a; cbn; rewrite <- ?app_assoc; reflexivity.
Qed.

Lemma db_writes_union acts : forall db,
  db_writes acts db = db_writes acts ∅ ∪ db.
Proof.
  induction acts as [| a acts IH]; intros db.
  - cbn. rewrite (left_id_L ∅ (∪)). reflexivity.
  - change (db_writes (a :: acts) db) with (db_writes acts (db_write db a)).
    change (db_writes (a :: acts) ∅) with (db_writes acts (db_write ∅ a)).
    rewrite (IH (db_write db a)), (IH (db_write ∅ a)).
    destruct a; cbn [db_write]; try (rewrite (right_id_L ∅ (∪)); reflexivity).
    rewrite <- (assoc_L (∪)). f_equal.
    rewrite <- insert_union_l, (left_id_L ∅ (∪)). reflexivity.
Qed.

Lemma db_writes_idempotent acts db :
  db_writes acts (db_writes acts db) = db_writes acts db.
Proof.
  rewrite (db_writes_union acts (db_writes acts db)), (db_writes_union acts db).
  rewrite (assoc_L (∪)), (idemp_L (∪)). reflexivity.
Qed.

(** ** Reconcile: the shape of a run *)

Lemma replay_then_idle E names config s :
  (reconcile_interfaces E names config ;;
   reconcile_servers (servers E) ;; set_is_rebooting false) s
  = finish (replay E names config s).
Proof.
  unfold replay, finish, mbind, M_bind.
  destruct (reconcile_interfaces E names config s) as [[c | e] s1]; [| reflexivity].
  destruct (reconcile_servers (servers E) s1) as [[[] | e] s2]; reflexivity.
Qed.

Lemma bind_eq {A B} (m : M A) (f : A -> M B) s :
  (m ≫= f) s =
    match m s with
    | (Ok a, s') => f a s'
    | (Raise e, s') => (Raise e, s')
    end.
Proof. reflexivity. Qed.

Lemma breakout_update_usonic_eq E config s :
  breakout_update_usonic E config s =
    match breakout_intfs E config with
    | Raise e => (Raise e, s)
    | Ok intfs =>
        if portmap_eqb intfs (usonic_config s) then (Ok false, s)
        else (Ok true, restarted (port_names E intfs) (with_usonic_config intfs s))
    end.
Proof.
  unfold breakout_update_usonic. rewrite bind_eq. unfold lift.
  destruct (breakout_intfs E config) as [intfs | e]; [| reflexivity].
  rewrite bind_eq. unfold update_usonic_config.
  destruct (portmap_eqb intfs (usonic_config s)); reflexivity.
Qed.

Lemma reconcile_eq E s :
  reconcile E s =
    match get_running_data (running E) (conn_top E) (VDict []) with
    | Raise e => (Raise e, with_is_rebooting true s)
    | Ok config =>
        match breakout_intfs E config with
        | Raise e => (Raise e, with_is_rebooting true s)
        | Ok intfs =>
            if portmap_eqb intfs (usonic_config s)
            then finish (replay E (ifnames s) config
                           (with_counter_cache (counters s)
                              (with_is_rebooting true s)))
            else
              match wait_outcome E with
              | Raise e =>
                  (Raise e,
                   restarted (port_names E intfs)
                     (with_usonic_config intfs (with_is_rebooting true s)))
              | Ok _ =>
                  finish (replay E (port_names E intfs) config
                            (restarted (port_names E intfs)
                               (with_usonic_config intfs
                                  (with_is_rebooting true s))))
              end
        end
    end.
Proof.
  unfold reconcile.
  change ((set_is_rebooting true ;; ?k) s) with (k (with_is_rebooting true s)).
  rewrite bind_eq. unfold lift at 1.
  destruct (get_running_data (running E) (conn_top E) (VDict [])) as [config | e];
    [| reflexivity].
  rewrite bind_eq, breakout_update_usonic_eq.
  destruct (breakout_intfs E config) as [intfs | e]; [| reflexivity].
  cbn [usonic_config with_is_rebooting].
  destruct (portmap_eqb intfs (usonic_config s)).
  - rewrite bind_eq. unfold cache_counters. rewrite bind_eq. unfold get_ifnames.
    rewrite replay_then_idle. reflexivity.
  - rewrite bind_eq. unfold wait, lift.
    destruct (wait_outcome E) as [[] | e]; [| reflexivity].
    rewrite bind_eq. unfold get_ifnames. rewrite replay_then_idle. reflexivity.
Qed.

Lemma finish_replay_busy E names config s r s' :
  is_rebooting s = true ->
  finish (replay E names config s) = (r, s') ->
  is_rebooting s' = match r with Ok _ => false | Raise _ => true end.
Proof.
  intros Hbusy. destruct (uniform_replay E names config) as (r0 & acts & Hrun).
  rewrite Hrun, run_actions_fields. unfold finish.
  destruct r0 as [[] | e]; intros [= <- <-]; cbn; [reflexivity | exact Hbusy].
Qed.

Lemma reconcile_busy_flag E s r s' :
  reconcile E s = (r, s') ->
  is_rebooting s' = match r with Ok _ => false | Raise _ => true end.
Proof.
  rewrite reconcile_eq.
  destruct (get_running_data (running E) (conn_top E) (VDict [])) as [config | e];
    [| intros [= <- <-]; reflexivity].
  destruct (breakout_intfs E config) as [intfs | e];
    [| intros [= <- <-]; reflexivity].
  destruct (portmap_eqb intfs (usonic_config s)).
  - apply finish_replay_busy. reflexivity.
  - destruct (wait_outcome E) as [[] | e]; [| intros [= <- <-]; reflexivity].
    apply finish_replay_busy. reflexivity.
Qed.

(** ** Reconcile: failure of a run *)

(** C3, as the code has it.  [reconcile] sets the busy flag first and
    clears it in its last statement only.  A run that raises, be it at the
    wait for the forwarding plane or anywhere else, leaves the flag set;
    [handle_tasks] catches nothing but the empty queue, so the exception
    ends its loop; and [pre] then refuses every commit with LockedError.
    Only a run that returns clears the flag, after which [pre] accepts. *)
Theorem reconcile_failure_stays_busy E s q n r s' :
  task_queue s = ReconcileTask :: q ->
  reconcile E (with_task_queue q s) = (r, s') ->
  match r with
  | Raise e =>
      handle_tasks E (S n) s = (Raise e, s') /\
      is_rebooting s' = true /\
      pre s' = (Raise (LockedError "uSONiC is rebooting"), s')
  | Ok _ =>
      is_rebooting s' = false /\ pre s' = (Ok tt, s')
  end.
Proof.
  intros Hq Hrun. pose proof (reconcile_busy_flag _ _ _ _ Hrun) as Hflag.
  destruct r as [[] | e].
  - split; [exact Hflag |]. unfold pre. rewrite Hflag. reflexivity.
  - split; [| split; [exact Hflag |]].
    + cbn [handle_tasks]. rewrite bind_eq. unfold handle_tasks_round.
      rewrite bind_eq. unfold task_queue_get. rewrite Hq, Hrun. reflexivity.
    + unfold pre. rewrite Hflag. reflexivity.
Qed.

Lemma reconcile_failure_stays_busy_witness :
  is_rebooting
    (snd (reconcile (sample_environment [plain_interface]
                       (Raise (Exception "uSONiC did not come up")))
            fresh_sonic)) = true.
Proof.
  pose proof (reconcile_failure_stays_busy
                (sample_environment [plain_interface]
                   (Raise (Exception "uSONiC did not come up")))
                (with_task_queue [ReconcileTask] fresh_sonic) [] 0
                (Raise (Exception "uSONiC did not come up"))
                (snd (reconcile (sample_environment [plain_interface]
                                   (Raise (Exception "uSONiC did not come up")))
                        fresh_sonic))
                eq_refl eq_refl) as H.
  exact (proj1 (proj2 H)).
Defined.

(** C3 as stated fails: when the wait for the forwarding plane raises, the
    run ends with the busy flag still set and the next commit is refused. *)
Lemma reconcile_failure_counterexample :
  fst (reconcile (sample_environment [plain_interface]
                    (Raise (Exception "uSONiC did not come up")))
         fresh_sonic) = Raise (Exception "uSONiC did not come up") /\
  is_rebooting
    (snd (reconcile (sample_environment [plain_interface]
                       (Raise (Exception "uSONiC did not come up")))
            fresh_sonic)) = true /\
  fst (pre (snd (reconcile (sample_environment [plain_interface]
                              (Raise (Exception "uSONiC did not come up")))
                   fresh_sonic)))
  = Raise (LockedError "uSONiC is rebooting").
Proof. split; [| split]; vm_compute; reflexivity. Qed.

(** A commit that changes the breakout configuration schedules the run;
    when the run raises, the task loop ends with the exception and the
    next commit finds the server locked. *)
Example commit_then_failed_run :
  fst (handle_tasks (sample_environment [plain_interface]
                       (Raise (Exception "uSONiC did not come up"))) 3
         (snd (post (sample_environment [plain_interface]
                       (Raise (Exception "uSONiC did not come up")))
                 (UserContext true [] (fun _ => None)) fresh_sonic)))
  = Raise (Exception "uSONiC did not come up") /\
  fst (pre (snd (handle_tasks (sample_environment [plain_interface]
                                 (Raise (Exception "uSONiC did not come up"))) 3
                   (snd (post (sample_environment [plain_interface]
                                 (Raise (Exception "uSONiC did not come up")))
                           (UserContext true [] (fun _ => None)) fresh_sonic)))))
  = Raise (LockedError "uSONiC is rebooting").
Proof. split; vm_compute; reflexivity. Qed.

(** ** Reconcile: unrecognized attributes *)

Lemma ethernet_loop_unknown_key E ifname ethernet config key rest e s :
  String.eqb key "interface-type" = false ->
  str_in_list key ["mtu"; "fec"; "speed"] = false ->
  Py.getitem config key = Raise e ->
  ethernet_loop E ifname ethernet config (key :: rest) s = (Raise e, s).
Proof.
  intros H1 H2 H3. cbn [ethernet_loop]. rewrite H1, H2, H3. reflexivity.
Qed.

(** The loop over the interface's own [config] formats [config[key]] with
    the dictionary it walks, and passes over every unrecognized key. *)
Lemma config_loop_returns ifname d keys :
  Forall (fun k => Py.dict_mem k d = true) keys ->
  exists acts, forall s,
    config_loop ifname (VDict d) keys s = (Ok tt, run_actions acts s).
Proof.
  induction 1 as [| key rest Hkey _ (acts & IH)].
  - exists []. reflexivity.
  - unfold Py.dict_mem in Hkey.
    destruct (Py.dict_lookup key d) as [v |] eqn:Hv; [| discriminate].
    cbn [config_loop]. unfold Py.getitem. rewrite Hv.
    destruct (str_in_list key ["admin-status"; "description"]);
      [| destruct (str_in_list key ["name"])].
    + exists (ASetConfigDb ifname key v :: acts). intros s.
      rewrite bind_eq. cbn. apply IH.
    + exists acts. intros s. rewrite bind_eq. cbn. apply IH.
    + exists (AWarn key v :: acts). intros s. rewrite bind_eq. cbn. apply IH.
Qed.

(** C4 at a failing input.  With a leaf in the ethernet configuration that
    the loop does not know, the branch that should log and skip it formats
    [config[key]] with the wrong dictionary, and the run ends in KeyError
    with the busy flag set. *)
Theorem reconcile_unknown_ethernet_leaf :
  fst (reconcile (sample_environment [odd_interface] (Ok tt)) settled_sonic)
  = Raise (KeyError "pin-mode") /\
  is_rebooting
    (snd (reconcile (sample_environment [odd_interface] (Ok tt)) settled_sonic))
  = true.
Proof. split; vm_compute; reflexivity. Qed.

(** The same kind of leaf in the interface's own [config] is logged and
    the run returns. *)
Example reconcile_unknown_config_leaf :
  fst (reconcile (sample_environment [plain_interface] (Ok tt)) settled_sonic)
  = Ok tt /\
  warnings
    (snd (reconcile (sample_environment [plain_interface] (Ok tt)) settled_sonic))
  = [("loopback-mode", VStr "NONE")].
Proof. split; vm_compute; reflexivity. Qed.

(** ** Reconcile: running twice *)

Lemma value_eqb_refl : forall v, value_eqb v v = true.
Proof.
  fix value_eqb_refl 1.
  intros v. destruct v as [| b | z | s | l | d]; cbn.
  - reflexivity.
  - destruct b; reflexivity.
  - apply Z.eqb_refl.
  - apply String.eqb_refl.
  - induction l as [| x l IH]; [reflexivity |].
    rewrite (value_eqb_refl x). exact IH.
  - induction d as [| [k x] d IH]; [reflexivity |].
    rewrite String.eqb_refl, (value_eqb_refl x). exact IH.
Qed.

Lemma portmap_eqb_refl m : portmap_eqb m m = true.
Proof.
  induction m as [| [n [c sp]] m IH]; [reflexivity |].
  cbn. rewrite String.eqb_refl, !value_eqb_refl. exact IH.
Qed.

(** A run on a driver whose port map is already the desired one: no
    restart, the counters snapshotted, then the replay. *)
Lemma reconcile_unchanged E s config intfs :
  get_running_data (running E) (conn_top E) (VDict []) = Ok config ->
  breakout_intfs E config = Ok intfs ->
  portmap_eqb intfs (usonic_config s) = true ->
  reconcile E s =
    finish (replay E (ifnames s) config
              (with_counter_cache (counters s) (with_is_rebooting true s))).
Proof. intros Hc Hi Heq. rewrite reconcile_eq, Hc, Hi, Heq. reflexivity. Qed.

Lemma finish_replay_fields E names config s r s' :
  finish (replay E names config s) = (r, s') ->
  usonic_config s' = usonic_config s /\ restarts s' = restarts s /\
  ifnames s' = ifnames s /\ counters s' = counters s /\
  counter_cache s' = counter_cache s.
Proof.
  destruct (uniform_replay E names config) as (r0 & acts & Hrun).
  rewrite Hrun, run_actions_fields. unfold finish.
  destruct r0 as [[] | e]; intros [= <- <-]; cbn; repeat split; reflexivity.
Qed.

(** The second of two runs, started where a first run that returned left
    the driver, given that it starts with the desired port map installed
    and the interfaces the first run replayed. *)
Lemma replay_twice E names config s0 s1 :
  finish (replay E names config s0) = (Ok tt, s1) ->
  exists s2 cmds,
    finish (replay E names config
              (with_counter_cache (counters s1) (with_is_rebooting true s1)))
    = (Ok tt, s2) /\
    interface_state s2 = interface_state s1 /\
    restarts s2 = restarts s1 /\
    counter_cache s2 = counters s1 /\
    bcm_log s1 = (bcm_log s0 ++ cmds)%list /\
    bcm_log s2 = (bcm_log s1 ++ cmds)%list.
Proof.
  destruct (uniform_replay E names config) as (r0 & acts & Hrun).
  rewrite !Hrun, !run_actions_fields. unfold finish.
  destruct r0 as [[] | e]; [| discriminate]. intros [= <-].
  eexists _, (bcm_cmds acts). split; [reflexivity |].
  cbn. unfold interface_state. cbn. rewrite db_writes_idempotent.
  repeat split; reflexivity.
Qed.

(** A run that follows another never restarts the forwarding plane,
    whether the two return or raise. *)
Lemma reconcile_second_restarts E s r1 s1 r2 s2 :
  reconcile E s = (r1, s1) ->
  reconcile E s1 = (r2, s2) ->
  restarts s2 = restarts s1.
Proof.
  rewrite (reconcile_eq E s), (reconcile_eq E s1).
  destruct (get_running_data (running E) (conn_top E) (VDict []))
    as [config | e] eqn:Hc.
  2:{ intros [= <- <-] [= <- <-]. reflexivity. }
  destruct (breakout_intfs E config) as [intfs | e] eqn:Hi.
  2:{ intros [= <- <-] [= <- <-]. reflexivity. }
  assert (Hsecond : usonic_config s1 = usonic_config s /\
                    portmap_eqb intfs (usonic_config s) = true \/
                    usonic_config s1 = intfs ->
                    portmap_eqb intfs (usonic_config s1) = true).
  { intros [[-> H] | ->]; [exact H | apply portmap_eqb_refl]. }
  destruct (portmap_eqb intfs (usonic_config s)) eqn:Heq.
  - intros Hrun. destruct (finish_replay_fields _ _ _ _ _ _ Hrun) as (Hu & _).
    cbn in Hu. rewrite Hsecond by (left; split; [exact Hu | reflexivity]).
    intros Hrun2.
    destruct (finish_replay_fields _ _ _ _ _ _ Hrun2) as (_ & Hr & _).
    exact Hr.
  - destruct (wait_outcome E) as [[] | e].
    + intros Hrun. destruct (finish_replay_fields _ _ _ _ _ _ Hrun) as (Hu & _).
      cbn in Hu. rewrite Hsecond by (right; exact Hu). intros Hrun2.
      destruct (finish_replay_fields _ _ _ _ _ _ Hrun2) as (_ & Hr & _).
      exact Hr.
    + intros [= <- <-]. cbn [usonic_config restarted with_usonic_config].
      rewrite portmap_eqb_refl. intros Hrun2.
      destruct (finish_replay_fields _ _ _ _ _ _ Hrun2) as (_ & Hr & _).
      exact Hr.
Qed.

(** C5.  A second run of [reconcile] with the configuration unchanged,
    after a first run that returned, returns as well; it finds the port map
    unchanged, so it does not restart the forwarding plane and snapshots
    the cumulative counters as the new baseline; it issues the same vendor
    commands as the first run and leaves the same interface state (port
    map, interfaces, local state table).  A run that follows another never
    restarts the forwarding plane, even when one of them raises.  And any
    run that finds the computed port map unchanged skips the restart and
    snapshots the counters. *)
Theorem reconcile_idempotent E s :
  (forall s1,
      reconcile E s = (Ok tt, s1) ->
      exists s2 cmds,
        reconcile E s1 = (Ok tt, s2) /\
        interface_state s2 = interface_state s1 /\
        restarts s2 = restarts s1 /\
        counter_cache s2 = counters s1 /\
        bcm_log s1 = (bcm_log s ++ cmds)%list /\
        bcm_log s2 = (bcm_log s1 ++ cmds)%list) /\
  (forall r1 s1 r2 s2,
      reconcile E s = (r1, s1) ->
      reconcile E s1 = (r2, s2) ->
      restarts s2 = restarts s1) /\
  (forall config intfs r s',
      get_running_data (running E) (conn_top E) (VDict []) = Ok config ->
      breakout_intfs E config = Ok intfs ->
      portmap_eqb intfs (usonic_config s) = true ->
      reconcile E s = (r, s') ->
      restarts s' = restarts s /\ counter_cache s' = counters s).
Proof.
  split; [| split].
  - intros s1. rewrite reconcile_eq.
    destruct (get_running_data (running E) (conn_top E) (VDict []))
      as [config | e] eqn:Hc; [| discriminate].
    destruct (breakout_intfs E config) as [intfs | e] eqn:Hi; [| discriminate].
    destruct (portmap_eqb intfs (usonic_config s)) eqn:Heq.
    + intros Hrun.
      destruct (finish_replay_fields _ _ _ _ _ _ Hrun)
        as (Hu & _ & Hn & _ & _). cbn in Hu, Hn.
      rewrite (reconcile_unchanged E s1 config intfs Hc Hi)
        by (rewrite Hu; exact Heq).
      rewrite Hn. exact (replay_twice _ _ _ _ _ Hrun).
    + destruct (wait_outcome E) as [[] | e]; [| discriminate]. intros Hrun.
      destruct (finish_replay_fields _ _ _ _ _ _ Hrun)
        as (Hu & _ & Hn & _ & _). cbn in Hu, Hn.
      rewrite (reconcile_unchanged E s1 config intfs Hc Hi)
        by (rewrite Hu; apply portmap_eqb_refl).
      rewrite Hn. exact (replay_twice _ _ _ _ _ Hrun).
  - intros r1 s1 r2 s2. apply reconcile_second_restarts.
  - intros config intfs r s' Hc Hi Heq.
    rewrite (reconcile_unchanged E s config intfs Hc Hi Heq). intros Hrun.
    destruct (finish_replay_fields _ _ _ _ _ _ Hrun) as (_ & Hr & _ & _ & Hcc).
    cbn in Hr, Hcc. split; assumption.
Qed.

Lemma reconcile_idempotent_witness :
  (exists s2 cmds,
      reconcile (sample_environment [plain_interface] (Ok tt))
        (snd (reconcile (sample_environment [plain_interface] (Ok tt)) fresh_sonic))
      = (Ok tt, s2) /\
      interface_state s2 =
        interface_state
          (snd (reconcile (sample_environment [plain_interface] (Ok tt)) fresh_sonic)) /\
      restarts s2 = 1%nat /\
      counter_cache s2 = ∅ /\
      bcm_log (snd (reconcile (sample_environment [plain_interface] (Ok tt))
                      fresh_sonic)) = ([] ++ cmds)%list /\
      bcm_log s2 =
        (bcm_log (snd (reconcile (sample_environment [plain_interface] (Ok tt))
                         fresh_sonic)) ++ cmds)%list) /\
  (restarts (snd (reconcile (sample_environment [plain_interface] (Ok tt))
                    settled_sonic)) = 0%nat /\
   counter_cache (snd (reconcile (sample_environment [plain_interface] (Ok tt))
                         settled_sonic)) = ∅).
Proof.
  split.
  - apply (proj1 (reconcile_idempotent
                    (sample_environment [plain_interface] (Ok tt)) fresh_sonic)
             (snd (reconcile (sample_environment [plain_interface] (Ok tt))
                     fresh_sonic))).
    vm_compute. reflexivity.
  - apply (proj2 (proj2 (reconcile_idempotent
                    (sample_environment [plain_interface] (Ok tt)) settled_sonic))
             (VDict [("interfaces",
                      VDict [("interface", VList [snd plain_interface])])])
             [("Ethernet1_1", (VNone, VNone))]
             (fst (reconcile (sample_environment [plain_interface] (Ok tt))
                     settled_sonic))
             (snd (reconcile (sample_environment [plain_interface] (Ok tt))
                     settled_sonic))).
    + reflexivity.
    + reflexivity.
    + reflexivity.
    + destruct (reconcile (sample_environment [plain_interface] (Ok tt))
                  settled_sonic); reflexivity.
Defined.

(** * Further properties of the code *)

Arguments get_default : simpl never.
Arguments fill_default : simpl never.

(** ** The resolver and the group queries *)

Lemma upper_ascii_idempotent c :
  PyStr.upper_ascii (PyStr.upper_ascii c) = PyStr.upper_ascii c.
Proof.
  destruct c as [[] [] [] [] [] [] [] []]; vm_compute; reflexivity.
Qed.

Lemma upper_idempotent s : PyStr.upper (PyStr.upper s) = PyStr.upper s.
Proof.
  unfold PyStr.upper. induction s as [| c s IH]; [reflexivity |].
  cbn [PyStr.map_ascii]. rewrite upper_ascii_idempotent, IH. reflexivity.
Qed.

Lemma get_oper_status_cases running raw ifname o :
  get_oper_status running raw ifname = Ok o ->
  o = Some "DORMANT" \/ o = passthrough raw ifname.
Proof.
  unfold get_oper_status.
  destruct (is_downlink_port running ifname) as [[b ups] | e]; cbn;
    [| discriminate].
  fold (passthrough raw ifname).
  assert (Hp : match raw (VStr ifname) with
               | Some s => Some (PyStr.upper s)
               | None => None
               end = passthrough raw ifname)
    by (unfold passthrough; destruct (raw (VStr ifname)); reflexivity).
  rewrite Hp.
  destruct b; [| intros [= <-]; right; reflexivity].
  destruct ups as [[| first rest] |]; try (intros [= <-]; right; reflexivity).
  destruct (Py.opt_eq_str (raw first) "down"); intros [= <-]; [left | right];
    reflexivity.
Qed.

(** X1.  Whatever the groups and the raw statuses are, a status that
    [get_oper_status] returns is in upper case: upper-casing it again
    changes nothing. *)
Theorem get_oper_status_upper_case running raw ifname st :
  get_oper_status running raw ifname = Ok (Some st) ->
  PyStr.upper st = st.
Proof.
  intros H. destruct (get_oper_status_cases _ _ _ _ H) as [[= ->] | Hp].
  - vm_compute. reflexivity.
  - unfold passthrough in Hp. destruct (raw (VStr ifname)) as [s |];
      [| discriminate].
    cbn in Hp. injection Hp as ->. apply upper_idempotent.
Qed.

Lemma get_oper_status_upper_case_witness :
  PyStr.upper "DOWN" = "DOWN".
Proof.
  apply (get_oper_status_upper_case (ufd_datastore [sample_group])
           raw_first_uplink_up "Ethernet3_1" "DOWN").
  vm_compute. reflexivity.
Defined.

Lemma is_downlink_port_try_entry ifname g ups downs :
  ufd_entry g ups downs ->
  Py.attempt (is_downlink_port_try ifname g) =
    if listed ifname downs then map VStr <$> ups else None.
Proof.
  intros (d & c & -> & Hc & Hu & Hd). unfold is_downlink_port_try, Py.getitem.
  destruct Hc as [Hc | [Hc ->]]; rewrite Hc; cbn.
  - rewrite Hd. destruct downs as [dl |]; cbn; [| reflexivity].
    unfold listed. cbn. rewrite existsb_is_str.
    destruct (str_in_list ifname dl); cbn; [| reflexivity].
    rewrite Hu. destruct ups; reflexivity.
  - destruct downs; [discriminate Hd | reflexivity].
Qed.

Lemma is_downlink_port_loop_entries ifname entries groups :
  ufd_entries entries groups ->
  is_downlink_port_loop ifname entries =
    match first_downlink_group ifname groups with
    | Some ups => (true, Some (map VStr ups))
    | None => (false, None)
    end.
Proof.
  unfold first_downlink_group.
  induction 1 as [| g [ups downs] entries groups Hg _ IH]; [reflexivity |].
  cbn [fst snd] in Hg.
  cbn [is_downlink_port_loop List.find fst snd].
  rewrite (is_downlink_port_try_entry _ _ _ _ Hg).
  destruct (listed ifname downs); cbn [andb]; [| exact IH].
  destruct ups as [ups |]; cbn; [reflexivity | exact IH].
Qed.

(** X2.  On a group list whose entries are dictionaries holding their
    uplink and downlink names under "config", whatever other keys they
    carry and also where a list is absent, [is_downlink_port] answers for
    the first group, in list order, that lists the interface as a downlink
    and has an uplink list: it returns True with that group's uplinks, all
    of them and in their order; it returns (False, None) when there is no
    such group, also when the interface is an uplink. *)
Theorem is_downlink_port_first_group running ifname entries groups :
  get_ufd running = Ok (VList entries) ->
  ufd_entries entries groups ->
  is_downlink_port running ifname =
    Ok (match first_downlink_group ifname groups with
        | Some ups => (true, Some (map VStr ups))
        | None => (false, None)
        end).
Proof.
  intros H Hg. unfold is_downlink_port. rewrite H. cbn.
  rewrite (is_downlink_port_loop_entries _ _ _ Hg). reflexivity.
Qed.

Lemma is_downlink_port_first_group_witness :
  is_downlink_port (ufd_datastore keyed_groups) "Ethernet3_1"
  = Ok (true, Some [VStr "Ethernet1_1"; VStr "Ethernet2_1"]) /\
  is_downlink_port (ufd_datastore keyed_groups) "Ethernet1_1"
  = Ok (false, None).
Proof.
  split.
  - apply (is_downlink_port_first_group (ufd_datastore keyed_groups)
             "Ethernet3_1" keyed_groups keyed_lists eq_refl keyed_groups_entries).
  - apply (is_downlink_port_first_group (ufd_datastore keyed_groups)
             "Ethernet1_1" keyed_groups keyed_lists eq_refl keyed_groups_entries).
Defined.

Lemma first_downlink_group_member ifname groups ups :
  first_downlink_group ifname groups = Some ups ->
  ufd_member ifname groups = true.
Proof.
  unfold first_downlink_group, ufd_member.
  induction groups as [| p groups IH]; [discriminate |].
  cbn [List.find existsb].
  destruct (listed ifname (snd p)) eqn:Hd; cbn [andb].
  - intros _. rewrite orb_true_r. reflexivity.
  - intros H. rewrite (IH H). apply orb_true_r.
Qed.

(** X3.  The two group queries agree: on such a group list, an interface
    that [is_downlink_port] reports as a downlink is a UFD port for
    [is_ufd_port]. *)
Theorem downlink_port_is_ufd_port running ifname entries groups ups :
  get_ufd running = Ok (VList entries) ->
  ufd_entries entries groups ->
  is_downlink_port running ifname = Ok (true, ups) ->
  is_ufd_port running ifname None = Ok true.
Proof.
  intros Hufd Hg. rewrite (is_ufd_port_entries _ _ _ _ Hufd Hg).
  unfold is_downlink_port. rewrite Hufd. cbn.
  rewrite (is_downlink_port_loop_entries _ _ _ Hg).
  destruct (first_downlink_group ifname groups) as [u |] eqn:Hfirst;
    [| discriminate].
  intros _. rewrite (first_downlink_group_member _ _ _ Hfirst). reflexivity.
Qed.

Lemma downlink_port_is_ufd_port_witness :
  is_ufd_port (ufd_datastore keyed_groups) "Ethernet3_1" None = Ok true.
Proof.
  apply (downlink_port_is_ufd_port (ufd_datastore keyed_groups) "Ethernet3_1"
           keyed_groups keyed_lists
           (Some [VStr "Ethernet1_1"; VStr "Ethernet2_1"])
           eq_refl keyed_groups_entries).
  reflexivity.
Defined.

(** X4.  A group entry that is not a dictionary is passed over by
    [is_downlink_port], whose [try] swallows the error, but makes
    [is_ufd_port] fail with AttributeError, since it calls [.get] on it
    unguarded. *)
Theorem malformed_group_entry ifname g rest :
  is_dict g = false ->
  is_downlink_port_loop ifname (g :: rest) = is_downlink_port_loop ifname rest /\
  is_ufd_port_loop ifname (g :: rest) = Raise AttributeError.
Proof.
  intros Hg. destruct g; try discriminate; split; reflexivity.
Qed.

Lemma malformed_group_entry_witness :
  is_downlink_port_loop "Ethernet3_1" [VNone; sample_group]
  = is_downlink_port_loop "Ethernet3_1" [sample_group] /\
  is_ufd_port_loop "Ethernet3_1" [VNone; sample_group] = Raise AttributeError.
Proof.
  apply (malformed_group_entry "Ethernet3_1" VNone [sample_group]). reflexivity.
Defined.

(** Without any UFD configuration in the datastore the resolver is
    the upper-cased raw status; and an exception of the datastore while the
    groups are read leaves [get_oper_status] as that exception, whatever
    the raw status is. *)
Theorem get_oper_status_without_groups running raw ifname :
  (running "/goldstone-uplink-failure-detection:ufd-groups/ufd-group" = Ok None ->
   get_oper_status running raw ifname = Ok (passthrough raw ifname)) /\
  (forall e,
      running "/goldstone-uplink-failure-detection:ufd-groups/ufd-group" = Raise e ->
      get_oper_status running raw ifname = Raise e).
Proof.
  split.
  - intros H.
    rewrite (get_oper_status_unfold running raw ifname []).
    + reflexivity.
    + unfold get_ufd, get_running_data. rewrite H. reflexivity.
  - intros e H. unfold get_oper_status, is_downlink_port, get_ufd,
      get_running_data. rewrite H. reflexivity.
Qed.

Lemma get_oper_status_without_groups_witness :
  get_oper_status (interfaces_datastore []) raw_all_down "Ethernet3_1"
  = Ok (Some "DOWN") /\
  get_oper_status (failing_datastore NotFoundError) raw_all_down "Ethernet3_1"
  = Raise NotFoundError.
Proof.
  split.
  - apply (proj1 (get_oper_status_without_groups
                    (interfaces_datastore []) raw_all_down "Ethernet3_1")).
    reflexivity.
  - apply (proj2 (get_oper_status_without_groups
                    (failing_datastore NotFoundError) raw_all_down "Ethernet3_1")
             NotFoundError). reflexivity.
Defined.

(** ** Interface-type validation, the other channel counts *)

Lemma get_running_data_ok running xpath default o :
  running xpath = Ok o ->
  get_running_data running xpath default = Ok (match o with
                                               | Some v => v
                                               | None => default
                                               end).
Proof. intros H. unfold get_running_data. rewrite H. destruct o; reflexivity. Qed.

Lemma breakout_channels_detail running ifname z cs :
  breakout_detail_is running ifname z cs ->
  breakout_channels running ifname =
    Ok (VDict [("num-channels", VInt z); ("channel-speed", cs)], z).
Proof.
  intros [[o Hif] (d & Hst & Hn & Hz & Hcs)].
  unfold breakout_channels. fold (interface_xpath ifname).
  rewrite (get_running_data_ok _ _ _ _ Hif). cbn.
  rewrite (get_breakout_detail_channels running ifname d z Hst Hn Hz), Hcs.
  py_eval. reflexivity.
Qed.

Lemma breakout_channels_none running ifname :
  no_breakout_detail running ifname ->
  breakout_channels running ifname = Raise NotFoundError \/
  exists k, breakout_channels running ifname = Raise (KeyError k).
Proof.
  unfold breakout_channels. fold (interface_xpath ifname).
  intros [Hif | [[o Hif] Hst]].
  - left. unfold get_running_data. rewrite Hif. reflexivity.
  - rewrite (get_running_data_ok _ _ _ _ Hif). cbn.
    destruct Hst as [Hst | [Hst | [(v & Hst & Hv) | (d & z & Hst & Hn & Hz & Hcs)]]].
    + left. unfold get_breakout_detail, get_running_data.
      fold (breakout_state_xpath ifname). rewrite Hst. reflexivity.
    + right. exists "". unfold get_breakout_detail, get_running_data.
      fold (breakout_state_xpath ifname). rewrite Hst. reflexivity.
    + right. exists "". unfold get_breakout_detail, get_running_data.
      fold (breakout_state_xpath ifname). rewrite Hst. cbn. rewrite Hv.
      reflexivity.
    + right. exists "channel-speed".
      rewrite (get_breakout_detail_channels running ifname d z Hst Hn Hz), Hcs.
      reflexivity.
Qed.

(** X5.  When no breakout detail is found for the interface (a lookup
    raised NotFoundError, the breakout state is absent or empty, or it has
    a channel count but no channel speed), [validate_interface_type] takes
    the interface for a single-channel port: it accepts exactly the
    quad-lane types CR4, LR4, SR4 and KR4. *)
Theorem validate_interface_type_no_detail running ifname iftype :
  no_breakout_detail running ifname ->
  validate_interface_type running ifname iftype =
    if str_in_list iftype QUAD_LANE_INTERFACE_TYPES then Ok tt
    else Raise unsupported_interface_type.
Proof.
  intros H. unfold validate_interface_type.
  destruct (breakout_channels_none _ _ H) as [-> | [k ->]]; cbn;
    destruct (str_in_list iftype QUAD_LANE_INTERFACE_TYPES); reflexivity.
Qed.

Lemma validate_interface_type_no_detail_witness :
  validate_interface_type (interfaces_datastore []) "Ethernet1_1" "CR4" = Ok tt /\
  validate_interface_type (failing_datastore NotFoundError) "Ethernet1_1" "SR"
  = Raise unsupported_interface_type /\
  validate_interface_type
    (breakout_datastore "Ethernet1_1" (VDict [("num-channels", VInt 4)]))
    "Ethernet1_1" "SR4" = Ok tt.
Proof.
  split; [| split].
  - apply (validate_interface_type_no_detail (interfaces_datastore [])
             "Ethernet1_1" "CR4").
    right. split; [eexists; reflexivity |]. right. left. reflexivity.
  - apply (validate_interface_type_no_detail (failing_datastore NotFoundError)
             "Ethernet1_1" "SR").
    left. reflexivity.
  - apply (validate_interface_type_no_detail
             (breakout_datastore "Ethernet1_1" (VDict [("num-channels", VInt 4)]))
             "Ethernet1_1" "SR4").
    right. split; [eexists; reflexivity |]. right. right. right.
    exists [("num-channels", VInt 4)], 4. repeat split; reflexivity.
Defined.

(** X6.  With two channels in the breakout state,
    [validate_interface_type] accepts exactly the double-lane types CR2,
    LR2, SR2 and KR2, whatever the channel speed is; with a channel count
    above one that is neither 2 nor 4 it refuses every interface type. *)
Theorem validate_interface_type_by_channels running ifname iftype z cs :
  breakout_detail_is running ifname z cs ->
  z <> 4 ->
  validate_interface_type running ifname iftype =
    if z =? 2
    then (if str_in_list iftype DOUBLE_LANE_INTERFACE_TYPES then Ok tt
          else Raise unsupported_interface_type)
    else Raise unsupported_interface_type.
Proof.
  intros H H4. pose proof H as [_ (d & _ & _ & Hz & _)].
  unfold validate_interface_type.
  rewrite (breakout_channels_detail _ _ _ _ H). cbn.
  destruct (Z.eqb_spec z 4); [contradiction |].
  destruct (Z.eqb_spec z 2).
  - destruct (str_in_list iftype DOUBLE_LANE_INTERFACE_TYPES); reflexivity.
  - destruct (Z.eqb_spec z 1); [lia | reflexivity].
Qed.

Lemma validate_interface_type_by_channels_witness :
  validate_interface_type
    (breakout_datastore "Ethernet1_1"
       (VDict [("num-channels", VInt 2); ("channel-speed", VStr "SPEED_50G")]))
    "Ethernet1_1" "CR2" = Ok tt /\
  validate_interface_type
    (breakout_datastore "Ethernet1_1"
       (VDict [("num-channels", VInt 3); ("channel-speed", VStr "SPEED_25G")]))
    "Ethernet1_1" "CR" = Raise unsupported_interface_type.
Proof.
  split.
  - apply (validate_interface_type_by_channels _ "Ethernet1_1" "CR2" 2
             (VStr "SPEED_50G")); [| discriminate].
    split; [eexists; reflexivity |].
    exists [("num-channels", VInt 2); ("channel-speed", VStr "SPEED_50G")].
    repeat split; reflexivity.
  - apply (validate_interface_type_by_channels _ "Ethernet1_1" "CR" 3
             (VStr "SPEED_25G")); [| discriminate].
    split; [eexists; reflexivity |].
    exists [("num-channels", VInt 3); ("channel-speed", VStr "SPEED_25G")].
    repeat split; reflexivity.
Defined.

(** X7.  With four channels and a channel speed whose name ends in "10GB",
    SR is refused although it is a single-lane type: exactly CR, LR and KR
    are accepted. *)
Theorem validate_interface_type_four_channels_10GB running ifname iftype cs :
  breakout_detail_is running ifname 4 (VStr cs) ->
  PyStr.endswith cs "10GB" = true ->
  validate_interface_type running ifname iftype =
    if str_in_list iftype ["CR"; "LR"; "KR"] then Ok tt
    else Raise unsupported_interface_type.
Proof.
  intros H H10. unfold validate_interface_type.
  rewrite (breakout_channels_detail _ _ _ _ H). py_eval. rewrite H10. cbn.
  unfold str_in_list, SINGLE_LANE_INTERFACE_TYPES. cbn [existsb].
  destruct (String.eqb_spec iftype "SR") as [-> | Hsr]; [reflexivity |].
  cbn. destruct (String.eqb iftype "CR"), (String.eqb iftype "LR"),
         (String.eqb iftype "KR"); reflexivity.
Qed.

Lemma validate_interface_type_four_channels_10GB_witness :
  validate_interface_type
    (breakout_datastore "Ethernet1_1"
       (VDict [("num-channels", VInt 4); ("channel-speed", VStr "SPEED_10GB")]))
    "Ethernet1_1" "SR" = Raise unsupported_interface_type.
Proof.
  apply (validate_interface_type_four_channels_10GB _ "Ethernet1_1" "SR"
           "SPEED_10GB"); [| reflexivity].
  split; [eexists; reflexivity |].
  exists [("num-channels", VInt 4); ("channel-speed", VStr "SPEED_10GB")].
  repeat split; reflexivity.
Defined.

Lemma get_breakout_detail_single_channel running ifname d :
  running (breakout_state_xpath ifname) = Ok (Some (VDict d)) ->
  d <> [] ->
  (Py.dict_lookup "num-channels" d = None \/
   exists z, Py.dict_lookup "num-channels" d = Some (VInt z) /\ z <= 1) ->
  get_breakout_detail running ifname = Raise (NameError "name").
Proof.
  intros Hrun Hd Hn. unfold get_breakout_detail, get_running_data.
  fold (breakout_state_xpath ifname). rewrite Hrun. cbn.
  destruct d as [| kv d']; [congruence |]. cbn [Py.truthy negb].
  unfold Py.get. destruct Hn as [Hn | (z & Hn & Hz)]; rewrite Hn; cbn.
  - reflexivity.
  - replace (1 <? z) with false by (symmetry; apply Z.ltb_ge; exact Hz).
    reflexivity.
Qed.

(** X8.  The NameError of [get_breakout_detail] is not among the
    exceptions [validate_interface_type] catches.  For an interface whose
    breakout state is there with at most one channel, validation of the
    interface type ends in NameError for every type, valid or not, and so
    does [EthernetIfTypeHandler.validate] on a created or modified
    event. *)
Theorem validate_interface_type_name_error running ifname d o :
  running (interface_xpath ifname) = Ok o ->
  running (breakout_state_xpath ifname) = Ok (Some (VDict d)) ->
  d <> [] ->
  (Py.dict_lookup "num-channels" d = None \/
   exists z, Py.dict_lookup "num-channels" d = Some (VInt z) /\ z <= 1) ->
  forall iftype,
    validate_interface_type running ifname iftype = Raise (NameError "name") /\
    EthernetIfTypeHandler_validate running (Handler ifname created iftype)
    = Raise (NameError "name") /\
    EthernetIfTypeHandler_validate running (Handler ifname deleted iftype) = Ok tt.
Proof.
  intros Hif Hst Hd Hn iftype.
  assert (H : validate_interface_type running ifname iftype
              = Raise (NameError "name")).
  { unfold validate_interface_type, breakout_channels.
    fold (interface_xpath ifname). rewrite (get_running_data_ok _ _ _ _ Hif). cbn.
    rewrite (get_breakout_detail_single_channel _ _ _ Hst Hd Hn). reflexivity. }
  split; [exact H | split; [exact H | reflexivity]].
Qed.

Lemma validate_interface_type_name_error_witness :
  validate_interface_type
    (breakout_datastore "Ethernet1_2" (VDict [("parent", VStr "Ethernet1_1")]))
    "Ethernet1_2" "CR4" = Raise (NameError "name").
Proof.
  apply (validate_interface_type_name_error
           (breakout_datastore "Ethernet1_2" (VDict [("parent", VStr "Ethernet1_1")]))
           "Ethernet1_2" [("parent", VStr "Ethernet1_1")] None).
  - reflexivity.
  - reflexivity.
  - discriminate.
  - left. reflexivity.
Defined.

Lemma str_in_list_app s a b :
  str_in_list s (a ++ b) = str_in_list s a || str_in_list s b.
Proof. unfold str_in_list. apply existsb_app. Qed.

(** X9.  Whatever the datastore holds, an interface type that
    [validate_interface_type] accepts is one of the twelve known lane
    types; every other type is refused or the validation raises. *)
Theorem validate_interface_type_known_types running ifname iftype :
  validate_interface_type running ifname iftype = Ok tt ->
  str_in_list iftype KNOWN_INTERFACE_TYPES = true.
Proof.
  unfold validate_interface_type, KNOWN_INTERFACE_TYPES.
  rewrite !str_in_list_app.
  destruct (match breakout_channels running ifname with
            | Ok dn => Ok dn
            | Raise (KeyError _) | Raise NotFoundError => Ok (VNone, 1)
            | Raise e => Raise e
            end) as [[detail numch] | e]; cbn; [| discriminate].
  destruct (numch =? 4).
  - destruct (Py.getitem detail "channel-speed") as [cs |]; cbn; [| discriminate].
    destruct cs; cbn; try discriminate.
    destruct (PyStr.endswith s "10GB" && String.eqb iftype "SR"); [discriminate |].
    destruct (str_in_list iftype SINGLE_LANE_INTERFACE_TYPES); [reflexivity |].
    discriminate.
  - destruct (numch =? 2).
    + destruct (str_in_list iftype DOUBLE_LANE_INTERFACE_TYPES); [| discriminate].
      intros _. apply orb_true_r.
    + destruct (numch =? 1); [| discriminate].
      destruct (str_in_list iftype QUAD_LANE_INTERFACE_TYPES); [| discriminate].
      intros _. rewrite !orb_true_r. reflexivity.
Qed.

Lemma validate_interface_type_known_types_witness :
  str_in_list "SR" KNOWN_INTERFACE_TYPES = true.
Proof.
  apply (validate_interface_type_known_types
           (breakout_datastore "Ethernet0_1" four_by_10G) "Ethernet0_1" "SR").
  reflexivity.
Defined.

(** ** VLAN mode validation *)

(** X10.  On a created or modified interface-mode, with the VLAN
    configuration of the post-change snapshot holding the mode [m]:
    [validate] refuses TRUNK together with an access-vlan leaf and ACCESS
    together with a trunk-vlans leaf, and accepts every other
    combination; without an interface-mode leaf it ends in KeyError. *)
Theorem VLANIfModeHandler_validate_set cache h d :
  is_set (h_type h) = true ->
  switched_vlan_config cache (h_ifname h) = Ok (VDict d) ->
  VLANIfModeHandler_validate cache h =
    match Py.dict_lookup "interface-mode" d with
    | None => Raise (KeyError "interface-mode")
    | Some mode =>
        if Py.is_str "TRUNK" mode && Py.dict_mem "access-vlan" d
        then Raise trunk_with_access_vlan
        else if Py.is_str "ACCESS" mode && Py.dict_mem "trunk-vlans" d
        then Raise access_with_trunk_vlans
        else Ok tt
    end.
Proof.
  intros Hset Hcfg. unfold VLANIfModeHandler_validate. rewrite Hset.
  unfold switched_vlan_config in Hcfg. fold (interface_xpath (h_ifname h)).
  destruct (Py.getitem (xpath_get cache (interface_xpath (h_ifname h)) VNone)
              "switched-vlan") as [sv | ?]; [| discriminate].
  cbn in Hcfg |- *. rewrite Hcfg. cbn. unfold Py.getitem.
  destruct (Py.dict_lookup "interface-mode" d) as [mode |]; [| reflexivity].
  cbn. destruct (Py.is_str "TRUNK" mode); cbn.
  - destruct (Py.dict_mem "access-vlan" d); cbn; [reflexivity |].
    destruct (Py.is_str "ACCESS" mode); cbn; [| reflexivity].
    destruct (Py.dict_mem "trunk-vlans" d); reflexivity.
  - destruct (Py.is_str "ACCESS" mode); cbn; [| reflexivity].
    destruct (Py.dict_mem "trunk-vlans" d); reflexivity.
Qed.

Lemma VLANIfModeHandler_validate_set_witness :
  VLANIfModeHandler_validate
    (vlan_snapshot "Ethernet1_1"
       (VDict [("interface-mode", VStr "TRUNK"); ("access-vlan", VInt 100)]))
    (Handler "Ethernet1_1" modified "TRUNK") = Raise trunk_with_access_vlan /\
  VLANIfModeHandler_validate
    (vlan_snapshot "Ethernet1_1"
       (VDict [("interface-mode", VStr "ACCESS"); ("access-vlan", VInt 100)]))
    (Handler "Ethernet1_1" created "ACCESS") = Ok tt.
Proof.
  split.
  - apply (VLANIfModeHandler_validate_set
             (vlan_snapshot "Ethernet1_1"
                (VDict [("interface-mode", VStr "TRUNK"); ("access-vlan", VInt 100)]))
             (Handler "Ethernet1_1" modified "TRUNK")
             [("interface-mode", VStr "TRUNK"); ("access-vlan", VInt 100)]);
      reflexivity.
  - apply (VLANIfModeHandler_validate_set
             (vlan_snapshot "Ethernet1_1"
                (VDict [("interface-mode", VStr "ACCESS"); ("access-vlan", VInt 100)]))
             (Handler "Ethernet1_1" created "ACCESS")
             [("interface-mode", VStr "ACCESS"); ("access-vlan", VInt 100)]);
      reflexivity.
Defined.

(** X11.  On a deleted interface-mode, [validate] accepts when the
    interface, its switched-vlan container or the container's config is
    gone from the post-change snapshot; when the config is still there, it
    refuses exactly when an access-vlan or a trunk-vlans leaf is left in
    it. *)
Theorem VLANIfModeHandler_validate_deleted cache h :
  h_type h = deleted ->
  (xpath_get cache (interface_xpath (h_ifname h)) VNone = VNone ->
   VLANIfModeHandler_validate cache h = Ok tt) /\
  (forall c,
      xpath_get cache (interface_xpath (h_ifname h)) VNone = VDict c ->
      (Py.dict_lookup "switched-vlan" c = None ->
       VLANIfModeHandler_validate cache h = Ok tt) /\
      (forall sv,
          Py.dict_lookup "switched-vlan" c = Some (VDict sv) ->
          (Py.dict_lookup "config" sv = None ->
           VLANIfModeHandler_validate cache h = Ok tt) /\
          (forall d,
              Py.dict_lookup "config" sv = Some (VDict d) ->
              VLANIfModeHandler_validate cache h =
                if Py.dict_mem "access-vlan" d || Py.dict_mem "trunk-vlans" d
                then Raise vlan_leaves_left
                else Ok tt))).
Proof.
  intros Hdel. unfold VLANIfModeHandler_validate. rewrite Hdel. cbn [is_set].
  fold (interface_xpath (h_ifname h)). split.
  - intros ->. reflexivity.
  - intros c ->. cbn [is_none]. unfold Py.get. split.
    + intros ->. reflexivity.
    + intros sv ->. cbn. split.
      * intros ->. reflexivity.
      * intros d ->. cbn.
        destruct (Py.dict_mem "access-vlan" d); cbn; [reflexivity |].
        destruct (Py.dict_mem "trunk-vlans" d); reflexivity.
Qed.

Lemma VLANIfModeHandler_validate_deleted_witness :
  VLANIfModeHandler_validate (fun _ => None)
    (Handler "Ethernet1_1" deleted "") = Ok tt /\
  VLANIfModeHandler_validate
    (vlan_snapshot "Ethernet1_1" (VDict [("trunk-vlans", VList [VInt 100])]))
    (Handler "Ethernet1_1" deleted "") = Raise vlan_leaves_left.
Proof.
  split.
  - apply (proj1 (VLANIfModeHandler_validate_deleted (fun _ => None)
                    (Handler "Ethernet1_1" deleted "") eq_refl)).
    reflexivity.
  - apply (proj2 (proj2 (proj2 (VLANIfModeHandler_validate_deleted
             (vlan_snapshot "Ethernet1_1" (VDict [("trunk-vlans", VList [VInt 100])]))
             (Handler "Ethernet1_1" deleted "") eq_refl)
           [("switched-vlan",
             VDict [("config", VDict [("trunk-vlans", VList [VInt 100])])])]
           eq_refl)
           [("config", VDict [("trunk-vlans", VList [VInt 100])])] eq_refl)
           [("trunk-vlans", VList [VInt 100])]).
    reflexivity.
Defined.

(** ** The handlers' apply *)

Lemma sets_field_intro E key h (m : M unit) :
  (forall s, m s =
     match leaf_value E key h with
     | Ok v => (Ok tt, run_action (ASetConfigDb (l_ifname h) key v) s)
     | Raise e => (Raise e, s)
     end) ->
  sets_field m (l_ifname h) key (leaf_value E key h).
Proof.
  intros Hm s. rewrite Hm. destruct (leaf_value E key h) as [v | e];
    [| reflexivity].
  eexists. split; [reflexivity |]. cbn. split; [apply lookup_insert_eq |].
  split; [| repeat split].
  intros k Hk. apply lookup_insert_ne. congruence.
Qed.

(** X12.  The handlers of admin-status, mtu and fec write one field of
    the state table and nothing else: after [apply] the field of the
    interface holds the new value, or the schema default when the leaf was
    deleted; every other field, the vendor commands, the busy flag and the
    task queue are as before.  When a deleted leaf has no schema default,
    [apply] raises and the driver is unchanged. *)
Theorem leaf_handlers_apply E h :
  sets_field (AdminStatusHandler_apply E h) (l_ifname h) "admin-status"
    (leaf_value E "admin-status" h) /\
  sets_field (MTUHandler_apply E h) (l_ifname h) "mtu" (leaf_value E "mtu" h) /\
  sets_field (FECHandler_apply E h) (l_ifname h) "fec" (leaf_value E "fec" h).
Proof.
  split; [| split]; apply sets_field_intro; intros s;
    unfold AdminStatusHandler_apply, MTUHandler_apply, FECHandler_apply,
      leaf_value; rewrite bind_eq;
    (destruct (is_set (l_type h)); [reflexivity |]);
    unfold lift;
    match goal with
    | |- context [get_default E ?k] => destruct (get_default E k)
    end; reflexivity.
Qed.

Lemma dict_lookup_set_ne k k' v d :
  k <> k' ->
  Py.dict_lookup k (Py.dict_set k' v d) = Py.dict_lookup k d.
Proof.
  intros Hne. induction d as [| [k0 v0] d IH].
  - unfold Py.dict_set, Py.dict_lookup.
    destruct (String.eqb_spec k k'); [contradiction | reflexivity].
  - unfold Py.dict_set, Py.dict_lookup. fold Py.dict_set. fold Py.dict_lookup.
    destruct (String.eqb_spec k' k0) as [-> | Hk0].
    + unfold Py.dict_lookup. fold Py.dict_lookup.
      destruct (String.eqb_spec k k0); [contradiction | reflexivity].
    + unfold Py.dict_lookup at 1. fold Py.dict_lookup.
      destruct (String.eqb_spec k k0); [reflexivity | exact IH].
Qed.

Lemma dict_mem_set_ne k k' v d :
  k <> k' -> Py.dict_mem k (Py.dict_set k' v d) = Py.dict_mem k d.
Proof. intros H. unfold Py.dict_mem. rewrite dict_lookup_set_ne by exact H. reflexivity. Qed.

Lemma fill_default_other E key k d d' :
  k <> key ->
  fill_default E key d = Ok d' ->
  Py.dict_mem k d' = Py.dict_mem k d.
Proof.
  intros Hne. unfold fill_default.
  destruct (Py.dict_mem key d); cbn [negb]; [intros [= <-]; reflexivity |].
  destruct (get_default E key) as [v | e]; [| discriminate].
  intros [= <-]. apply dict_mem_set_ne. exact Hne.
Qed.

(** X13.  Where no default interface type is known for an interface
    ([get_default_iftype] gives nothing), the two paths differ: [reconcile]
    leaves interface-type out of what it replays, while
    [EthernetIfTypeHandler.apply] on a deleted leaf builds ["if=" + None],
    raises TypeError and issues no command. *)
Theorem interface_type_without_default E ifname data c d eth v s :
  Py.truthy (get_default_iftype E ifname) = false ->
  Py.get data "ethernet" (VDict []) = Ok c ->
  Py.get c "config" (VDict []) = Ok (VDict d) ->
  Py.dict_mem "interface-type" d = false ->
  ethernet_config E ifname data = Ok eth ->
  Py.dict_mem "interface-type" eth = false /\
  (get_default_iftype E ifname = VNone ->
   EthernetIfTypeHandler_apply E (LeafHandler ifname deleted v) s
   = (Raise TypeError, s)).
Proof.
  intros Hno Hc Hd Hmem Heth. split.
  - unfold ethernet_config in Heth. rewrite Hc in Heth. cbn in Heth.
    rewrite Hd in Heth. cbn in Heth.
    destruct (fill_default E "mtu" d) as [d1 |] eqn:H1; [| discriminate].
    cbn in Heth.
    destruct (fill_default E "fec" d1) as [d2 |] eqn:H2; [| discriminate].
    cbn in Heth.
    assert (Hm2 : Py.dict_mem "interface-type" d2 = false).
    { rewrite (fill_default_other E "fec" "interface-type" d1 d2) by
        (discriminate || exact H2).
      rewrite (fill_default_other E "mtu" "interface-type" d d1) by
        (discriminate || exact H1).
      exact Hmem. }
    rewrite Hm2, Hno in Heth. cbn in Heth. injection Heth as <-. exact Hm2.
  - intros Hnone. unfold EthernetIfTypeHandler_apply. cbn [is_set l_type l_ifname].
    rewrite Hnone. reflexivity.
Qed.

Lemma interface_type_without_default_witness :
  EthernetIfTypeHandler_apply (schema_environment sample_find_node)
    (LeafHandler "Ethernet1_1" deleted VNone) fresh_sonic
  = (Raise TypeError, fresh_sonic).
Proof.
  apply (interface_type_without_default (schema_environment sample_find_node)
           "Ethernet1_1" (VDict []) (VDict []) []
           [("mtu", VStr "9100"); ("fec", VStr "NONE")] VNone fresh_sonic);
    reflexivity.
Defined.



(** ** From the handlers to [post] *)

Lemma post_flagged E user s :
  update_sonic user = true ->
  post E user s =
    (Ok tt, with_task_queue (task_queue s ++ [ReconcileTask])
              (with_is_rebooting true s)).
Proof. intros H. unfold post. rewrite H. reflexivity. Qed.

(** X15.  A breakout change that is created or modified, or that deletes
    a configuration the running datastore still holds, makes [post]
    schedule a reconcile run: the busy flag is set, one task is queued, no
    vendor command is issued even when interfaces wait for their
    advertised speeds, and [pre] refuses the next commit.  Deleting a
    breakout configuration the running datastore does not hold leaves the
    context as it was. *)
Theorem breakout_change_schedules_reconcile E xpath h user :
  (is_set (h_type h) = true \/
   (exists v, running E xpath = Ok (Some v) /\ Py.truthy v = true) ->
   BreakoutHandler_apply E xpath h user = Ok (flagged user) /\
   forall s,
     exists s',
       post E (flagged user) s = (Ok tt, s') /\
       is_rebooting s' = true /\
       task_queue s' = (task_queue s ++ [ReconcileTask])%list /\
       bcm_log s' = bcm_log s /\
       config_db s' = config_db s /\
       pre s' = (Raise (LockedError "uSONiC is rebooting"), s')) /\
  (h_type h = deleted ->
   running E xpath = Ok None ->
   BreakoutHandler_apply E xpath h user = Ok user).
Proof.
  split.
  - intros Hcase. split.
    + unfold BreakoutHandler_apply, flagged.
      destruct Hcase as [Hset | (v & Hv & Ht)].
      * destruct (h_type h); try reflexivity. discriminate.
      * destruct (h_type h); try reflexivity.
        rewrite (get_running_data_ok _ _ _ _ Hv). cbn. rewrite Ht. reflexivity.
    + intros s. eexists. split; [apply post_flagged; reflexivity |].
      cbn. repeat split; reflexivity.
  - intros Hdel Hnone. unfold BreakoutHandler_apply. rewrite Hdel.
    rewrite (get_running_data_ok _ _ _ _ Hnone). reflexivity.
Qed.

Lemma breakout_change_schedules_reconcile_witness :
  fst (pre (snd (post (sample_environment [plain_interface] (Ok tt))
                   (flagged (UserContext false ["Ethernet1_1"] (fun _ => None)))
                   fresh_sonic)))
  = Raise (LockedError "uSONiC is rebooting") /\
  BreakoutHandler_apply (sample_environment [plain_interface] (Ok tt))
    "/goldstone-interfaces:interfaces/interface[name='Ethernet9_1']/ethernet/breakout/config"
    (Handler "Ethernet9_1" deleted "")
    (UserContext false [] (fun _ => None))
  = Ok (UserContext false [] (fun _ => None)).
Proof.
  destruct (breakout_change_schedules_reconcile
              (sample_environment [plain_interface] (Ok tt))
              "/goldstone-interfaces:interfaces/interface[name='Ethernet9_1']/ethernet/breakout/config"
              (Handler "Ethernet9_1" created "")
              (UserContext false ["Ethernet1_1"] (fun _ => None))) as [H1 _].
  destruct (H1 (or_introl eq_refl)) as [_ H].
  destruct (H fresh_sonic) as (s' & Hpost & _ & _ & _ & _ & Hpre).
  split.
  - rewrite Hpost. cbn [snd]. rewrite Hpre. reflexivity.
  - apply (proj2 (breakout_change_schedules_reconcile
                    (sample_environment [plain_interface] (Ok tt)) _
                    (Handler "Ethernet9_1" deleted "")
                    (UserContext false [] (fun _ => None)))); reflexivity.
Defined.




Lemma set_add_member x l : str_in_list x (set_add x l) = true.
Proof.
  unfold set_add. destruct (str_in_list x l) eqn:H; [exact H |].
  rewrite str_in_list_app. unfold str_in_list at 2. cbn [existsb].
  rewrite String.eqb_refl. apply orb_true_r.
Qed.

Lemma str_in_list_In x l : str_in_list x l = true <-> In x l.
Proof.
  unfold str_in_list. rewrite existsb_exists. split.
  - intros (y & Hy & Heq). apply String.eqb_eq in Heq. subst. exact Hy.
  - intros H. exists x. split; [exact H | apply String.eqb_refl].
Qed.

(** X17.  [AutoNegotiateAdvertisedSpeedsHandler.apply] records the
    interface in the set of the context: afterwards the interface is in
    the set, applying the handler again changes nothing, an interface is
    never recorded twice, and the reconcile flag is left as it was. *)
Theorem advertised_speeds_apply_records setup_cache h user :
  let u1 := AutoNegotiateAdvertisedSpeedsHandler_apply setup_cache h user in
  let u2 := AutoNegotiateAdvertisedSpeedsHandler_apply setup_cache h u1 in
  str_in_list (h_ifname h) (needs_adv_speed_config u1) = true /\
  needs_adv_speed_config u2 = needs_adv_speed_config u1 /\
  (NoDup (needs_adv_speed_config user) -> NoDup (needs_adv_speed_config u1)) /\
  update_sonic u1 = update_sonic user.
Proof.
  cbn. split; [apply set_add_member |]. split; [| split; [| reflexivity]].
  - unfold set_add at 1. rewrite set_add_member. reflexivity.
  - intros Hnd. unfold set_add.
    destruct (str_in_list (h_ifname h) (needs_adv_speed_config user)) eqn:Hin;
      [exact Hnd |].
    apply NoDup_app. split; [exact Hnd |]. split.
    + intros x Hx Hx'. apply list_elem_of_In in Hx, Hx'.
      destruct Hx' as [<- | []].
      apply str_in_list_In in Hx. congruence.
    + repeat constructor. intros H. inversion H.
Qed.

Lemma advertised_speeds_apply_records_witness :
  needs_adv_speed_config
    (AutoNegotiateAdvertisedSpeedsHandler_apply user_cache
       (Handler "Ethernet1_1" created "SPEED_100G")
       (AutoNegotiateAdvertisedSpeedsHandler_apply user_cache
          (Handler "Ethernet1_1" created "SPEED_40G")
          (UserContext false [] (fun _ => None))))
  = ["Ethernet1_1"].
Proof.
  pose proof (advertised_speeds_apply_records user_cache
                (Handler "Ethernet1_1" created "SPEED_100G")
                (AutoNegotiateAdvertisedSpeedsHandler_apply user_cache
                   (Handler "Ethernet1_1" created "SPEED_40G")
                   (UserContext false [] (fun _ => None)))) as H.
  cbv zeta in H. destruct H as (_ & H & _).
  exact (proj1 (conj H I)).
Defined.

(** ** The task loop *)

Lemma finish_replay_state E names config s r s' :
  finish (replay E names config s) = (r, s') ->
  exists acts,
    s' = match r with
         | Ok _ => with_is_rebooting false (run_actions acts s)
         | Raise _ => run_actions acts s
         end.
Proof.
  destruct (uniform_replay E names config) as (r0 & acts & Hrun).
  rewrite Hrun. unfold finish.
  destruct r0 as [[] | e]; intros [= <- <-]; exists acts; reflexivity.
Qed.

Lemma reconcile_frame E s r s' :
  reconcile E s = (r, s') ->
  task_queue s' = task_queue s /\
  (restarts s <= restarts s')%nat /\ (restarts s' <= S (restarts s))%nat /\
  (exists cmds, bcm_log s' = (bcm_log s ++ cmds)%list) /\
  (exists msgs, warnings s' = (warnings s ++ msgs)%list).
Proof.
  rewrite reconcile_eq.
  assert (Hnil : forall (A : Type) (l : list A), exists x, l = (l ++ x)%list)
    by (intros A l; exists []; symmetry; apply app_nil_r).
  destruct (get_running_data (running E) (conn_top E) (VDict [])) as [config | e].
  2:{ intros [= <- <-]. cbn. repeat split; auto. }
  destruct (breakout_intfs E config) as [intfs | e].
  2:{ intros [= <- <-]. cbn. repeat split; auto. }
  assert (Hfin : forall names s0,
             finish (replay E names config s0) = (r, s') ->
             task_queue s' = task_queue s0 /\ restarts s' = restarts s0 /\
             (exists cmds, bcm_log s' = (bcm_log s0 ++ cmds)%list) /\
             (exists msgs, warnings s' = (warnings s0 ++ msgs)%list)).
  { intros names s0 H. destruct (finish_replay_state _ _ _ _ _ _ H) as [acts ->].
    rewrite run_actions_fields. destruct r; cbn; repeat split; eauto. }
  destruct (portmap_eqb intfs (usonic_config s)).
  - intros H. destruct (Hfin _ _ H) as (Hq & Hr & Hc & Hw). cbn in *.
    rewrite Hq, Hr. repeat split; auto.
  - destruct (wait_outcome E) as [[] | e].
    + intros H. destruct (Hfin _ _ H) as (Hq & Hr & Hc & Hw). cbn in *.
      rewrite Hq, Hr. repeat split; auto.
    + intros [= <- <-]. cbn. repeat split; auto.
Qed.

(** X18.  A run of [reconcile], whether it returns or raises, restarts
    the forwarding plane at most once, leaves the task queue as it is, and
    only adds to the vendor commands and to the warnings already
    recorded. *)
Theorem reconcile_restarts_at_most_once E s r s' :
  reconcile E s = (r, s') ->
  task_queue s' = task_queue s /\
  (restarts s <= restarts s')%nat /\ (restarts s' <= S (restarts s))%nat /\
  (exists cmds, bcm_log s' = (bcm_log s ++ cmds)%list) /\
  (exists msgs, warnings s' = (warnings s ++ msgs)%list).
Proof. apply reconcile_frame. Qed.

Lemma reconcile_restarts_at_most_once_witness :
  (restarts (snd (reconcile (sample_environment [plain_interface] (Ok tt))
                    fresh_sonic)) <= 1)%nat.
Proof.
  destruct (reconcile_restarts_at_most_once
              (sample_environment [plain_interface] (Ok tt)) fresh_sonic
              (fst (reconcile (sample_environment [plain_interface] (Ok tt))
                      fresh_sonic))
              (snd (reconcile (sample_environment [plain_interface] (Ok tt))
                      fresh_sonic))) as (_ & _ & H & _).
  - destruct (reconcile (sample_environment [plain_interface] (Ok tt))
                fresh_sonic); reflexivity.
  - exact H.
Defined.

Lemma handle_tasks_idle E n : forall s,
  task_queue s = [] -> handle_tasks E n s = (Ok tt, s).
Proof.
  induction n as [| n IH]; intros s Hq; [reflexivity |].
  cbn [handle_tasks]. rewrite bind_eq. unfold handle_tasks_round.
  rewrite bind_eq. unfold task_queue_get. rewrite Hq. cbn. apply IH. exact Hq.
Qed.

(** X19.  The task loop takes the scheduled runs one at a time from the
    head of the queue: a round on a non-empty queue runs [reconcile] once
    and leaves the rest of the queue, whether the run returns or raises;
    and on an empty queue any number of rounds changes nothing. *)
Theorem handle_tasks_queue E s :
  (forall q r s',
      task_queue s = ReconcileTask :: q ->
      handle_tasks_round E s = (r, s') ->
      reconcile E (with_task_queue q s) = (r, s') /\ task_queue s' = q) /\
  (forall n, task_queue s = [] -> handle_tasks E n s = (Ok tt, s)).
Proof.
  split.
  - intros q r s' Hq. unfold handle_tasks_round. rewrite bind_eq.
    unfold task_queue_get. rewrite Hq. intros Hrun. split; [exact Hrun |].
    destruct (reconcile_frame _ _ _ _ Hrun) as [H _]. exact H.
  - intros n. apply handle_tasks_idle.
Qed.

Lemma handle_tasks_queue_witness :
  handle_tasks (sample_environment [plain_interface] (Ok tt)) 5%nat fresh_sonic
  = (Ok tt, fresh_sonic).
Proof.
  apply (proj2 (handle_tasks_queue (sample_environment [plain_interface] (Ok tt))
                  fresh_sonic) 5%nat).
  reflexivity.
Defined.

(** ** The notification loop *)

Lemma split_last_go_plain sep name : forall cur,
  has_char sep name = false ->
  PyStr.split_last_go sep cur name = cur +:+ name.
Proof.
  induction name as [| c name IH]; intros cur H; cbn.
  - induction cur as [| c cur IHc]; [reflexivity |].
    change (String c cur +:+ "") with (String c (cur +:+ "")).
    rewrite <- IHc. reflexivity.
  - cbn in H. apply orb_false_iff in H as [Hc Hn]. rewrite Hc.
    rewrite (IH _ Hn). clear.
    induction cur as [| a cur IHc]; [reflexivity |].
    change ((String a cur +:+ String c "") +:+ name)
      with (String a ((cur +:+ String c "") +:+ name)).
    rewrite IHc. reflexivity.
Qed.

Lemma split_last_go_after sep name pre : forall cur,
  has_char sep name = false ->
  PyStr.split_last_go sep cur (pre +:+ String sep name) = name.
Proof.
  induction pre as [| c pre IH]; intros cur H.
  - change ("" +:+ String sep name) with (String sep name).
    cbn [PyStr.split_last_go]. rewrite Ascii.eqb_refl.
    rewrite (split_last_go_plain _ _ "" H). reflexivity.
  - change (String c pre +:+ String sep name)
      with (String c (pre +:+ String sep name)).
    cbn [PyStr.split_last_go].
    destruct (Ascii.eqb c sep); apply IH; exact H.
Qed.

(** X20.  The loop reads the interface off the channel of the message:
    for a channel that ends in a colon and a name without colons, a signal
    whose raw status differs from the cached one is notified under exactly
    that name, with the resolver's status, and the raw status is cached
    under that name. *)
Theorem event_handler_step_names_interface w p pre name n st r :
  has_char ":" name = false ->
  w_oper_status w (VStr name) = Some st ->
  String.eqb (default "unknown" (notif_if n !! name)) st = false ->
  get_oper_status (w_running w) (w_oper_status w) name = Ok r ->
  event_handler_step w (Message (Some p) (pre +:+ String ":" name)) n =
    Ok (Notifier (<[name := st]> (notif_if n)) (sent n ++ [(name, r)])).
Proof.
  intros Hname Hraw Hneq Hres. unfold event_handler_step. cbn [pattern channel].
  unfold PyStr.split_last. rewrite (split_last_go_after _ _ _ _ Hname).
  rewrite Hraw, Hneq, Hres. reflexivity.
Qed.

Lemma event_handler_step_names_interface_witness :
  sent_by (event_handler_step (World (ufd_datastore []) raw_all_down)
             port_message (Notifier ∅ []))
  = [("Ethernet3_1", Some "DOWN")].
Proof.
  change port_message
    with (Message (Some "__keyspace@0__:PORT_TABLE:Ethernet*")
            ("__keyspace@0__:PORT_TABLE" +:+ String ":" "Ethernet3_1")).
  rewrite (event_handler_step_names_interface
             (World (ufd_datastore []) raw_all_down)
             "__keyspace@0__:PORT_TABLE:Ethernet*" "__keyspace@0__:PORT_TABLE"
             "Ethernet3_1" (Notifier ∅ []) "down" (Some "DOWN"));
    reflexivity.
Defined.

(** What one message does to the notifier: nothing, or one notification
    for the interface of the message, whose raw status is cached. *)
Lemma event_handler_step_inv w msg n n' :
  event_handler_step w msg n = Ok n' ->
  n' = n \/
  exists ifname st r,
    w_oper_status w (VStr ifname) = Some st /\
    String.eqb (default "unknown" (notif_if n !! ifname)) st = false /\
    n' = Notifier (<[ifname := st]> (notif_if n)) (sent n ++ [(ifname, r)]).
Proof.
  unfold event_handler_step.
  destruct (pattern msg); [| intros [= <-]; left; reflexivity].
  set (ifname := PyStr.split_last ":" (channel msg)).
  destruct (w_oper_status w (VStr ifname)) as [st |] eqn:Hraw;
    [| intros [= <-]; left; reflexivity].
  destruct (String.eqb (default "unknown" (notif_if n !! ifname)) st) eqn:Hc;
    [intros [= <-]; left; reflexivity |].
  destruct (get_oper_status (w_running w) (w_oper_status w) ifname) as [r | e];
    [| discriminate].
  cbn. intros [= <-]. right. exists ifname, st, r. repeat split; assumption.
Qed.

(** X21.  Notifications are only ever added: after any feed the earlier
    notifications are still there, in their order, and at most one was
    added per message; and the cache of raw statuses keeps every interface
    it held. *)
Theorem event_handler_appends feed : forall n n',
  event_handler feed n = Ok n' ->
  (exists new, sent n' = (sent n ++ new)%list /\ (length new <= length feed)%nat) /\
  (forall ifname, is_Some (notif_if n !! ifname) -> is_Some (notif_if n' !! ifname)).
Proof.
  induction feed as [| [w msg] feed IH]; intros n n'.
  - intros [= <-]. split; [exists []; split; [symmetry; apply app_nil_r | cbn; lia] |].
    intros ifname H. exact H.
  - cbn [event_handler].
    destruct (event_handler_step w msg n) as [n1 | e] eqn:Hstep; [| discriminate].
    cbn. intros Hrest. destruct (IH _ _ Hrest) as [(new & Hnew & Hlen) Hdom].
    destruct (event_handler_step_inv _ _ _ _ Hstep)
      as [-> | (ifname & st & r & _ & _ & ->)].
    + split; [exists new; split; [exact Hnew | cbn; lia] | exact Hdom].
    + cbn in Hnew, Hdom. split.
      * exists ((ifname, r) :: new). split.
        -- rewrite Hnew, <- app_assoc. reflexivity.
        -- cbn. lia.
      * intros i Hi. apply Hdom.
        destruct (decide (ifname = i)) as [-> | Hne].
        -- rewrite lookup_insert_eq. eexists; reflexivity.
        -- rewrite lookup_insert_ne by exact Hne. exact Hi.
Qed.

Lemma event_handler_appends_witness :
  exists new,
    sent_by (event_handler
               [(World (ufd_datastore []) raw_all_down, port_message)]
               (Notifier ∅ [("Ethernet1_1", Some "UP")]))
    = ([("Ethernet1_1", Some "UP")] ++ new)%list /\ (length new <= 1)%nat.
Proof.
  destruct (event_handler
              [(World (ufd_datastore []) raw_all_down, port_message)]
              (Notifier ∅ [("Ethernet1_1", Some "UP")])) as [n' | e] eqn:Hrun;
    [| discriminate Hrun].
  destruct (event_handler_appends _ _ _ Hrun) as [(new & Hnew & Hlen) _].
  exists new. split; [exact Hnew | exact Hlen].
Defined.

Lemma count_for_app ifname a b :
  count_for ifname (a ++ b) = (count_for ifname a + count_for ifname b)%nat.
Proof. unfold count_for. rewrite List.filter_app, length_app. reflexivity. Qed.

Lemma count_for_same ifname r : count_for ifname [(ifname, r)] = 1%nat.
Proof. unfold count_for. cbn. rewrite String.eqb_refl. reflexivity. Qed.

Lemma count_for_other ifname i r : i <> ifname -> count_for ifname [(i, r)] = 0%nat.
Proof.
  intros H. unfold count_for. cbn.
  destruct (String.eqb_spec i ifname); [contradiction | reflexivity].
Qed.

(** X22.  While the raw status of an interface stays the same, the loop
    notifies it at most once, however many signals arrive for it and for
    other interfaces in between; and not at all when that status is the one
    already cached. *)
Theorem event_handler_constant_status ifname st feed : forall n n',
  Forall (fun wm => w_oper_status (fst wm) (VStr ifname) = Some st) feed ->
  event_handler feed n = Ok n' ->
  (count_for ifname (sent n') <= count_for ifname (sent n) + 1)%nat /\
  (notif_if n !! ifname = Some st ->
   count_for ifname (sent n') = count_for ifname (sent n) /\
   notif_if n' !! ifname = Some st).
Proof.
  induction feed as [| [w msg] feed IH]; intros n n' Hall.
  - intros [= <-]. split; [lia | intros H; split; [reflexivity | exact H]].
  - apply Forall_cons in Hall as [Hw Hall]. cbn [fst] in Hw.
    cbn [event_handler].
    destruct (event_handler_step w msg n) as [n1 | e] eqn:Hstep; [| discriminate].
    cbn. intros Hrest. destruct (IH _ _ Hall Hrest) as [Hle Hsame].
    destruct (event_handler_step_inv _ _ _ _ Hstep)
      as [-> | (i & st' & r & Hraw & Hneq & ->)]; [split; assumption |].
    cbn [sent notif_if] in Hle, Hsame.
    destruct (decide (i = ifname)) as [-> | Hne].
    + assert (st' = st) as -> by congruence.
      rewrite lookup_insert_eq in Hsame. destruct (Hsame eq_refl) as [Hc Hn].
      rewrite count_for_app, count_for_same in Hc.
      split; [lia |]. intros Hcached. rewrite Hcached in Hneq. cbn in Hneq.
      rewrite String.eqb_refl in Hneq. discriminate.
    + rewrite lookup_insert_ne in Hsame by exact Hne.
      rewrite count_for_app, (count_for_other _ _ _ Hne), Nat.add_0_r in Hle, Hsame.
      split; [exact Hle | exact Hsame].
Qed.

Lemma event_handler_constant_status_witness :
  (count_for "Ethernet3_1"
     (sent_by (event_handler
                 [(World (ufd_datastore []) raw_all_down, port_message);
                  (World (ufd_datastore [sample_group]) raw_all_down, port_message);
                  (World (ufd_datastore []) raw_all_down, port_message)]
                 (Notifier ∅ []))) <= 1)%nat.
Proof.
  assert (Hall : Forall (fun wm => w_oper_status (fst wm) (VStr "Ethernet3_1")
                                   = Some "down")
                   [(World (ufd_datastore []) raw_all_down, port_message);
                    (World (ufd_datastore [sample_group]) raw_all_down, port_message);
                    (World (ufd_datastore []) raw_all_down, port_message)])
    by (repeat constructor).
  destruct (event_handler
              [(World (ufd_datastore []) raw_all_down, port_message);
               (World (ufd_datastore [sample_group]) raw_all_down, port_message);
               (World (ufd_datastore []) raw_all_down, port_message)]
              (Notifier ∅ [])) as [n' | e] eqn:Hrun; [| cbn; lia].
  exact (proj1 (event_handler_constant_status "Ethernet3_1" "down" _ _ _ Hall Hrun)).
Defined.

(** ** The port map *)

Lemma portmap_set_keys n e m x :
  In x (map fst (portmap_set n e m)) <-> x = n \/ In x (map fst m).
Proof.
  induction m as [| [k v] m IH]; cbn.
  - intuition.
  - destruct (String.eqb_spec n k) as [-> | Hne]; cbn.
    + intuition.
    + rewrite IH. intuition.
Qed.

Lemma portmap_set_NoDup n e m :
  List.NoDup (map fst m) -> List.NoDup (map fst (portmap_set n e m)).
Proof.
  induction m as [| [k v] m IH]; cbn; intros H.
  - constructor; [intros [] | constructor].
  - destruct (String.eqb_spec n k) as [-> | Hne]; cbn; [exact H |].
    inversion H as [| ? ? Hk Hm]; subst. constructor.
    + rewrite portmap_set_keys. intros [-> | Hin]; [congruence | contradiction].
    + apply IH. exact Hm.
Qed.

Lemma breakout_entry_name E i n e :
  breakout_entry E i = Ok (n, e) -> Py.getitem i "name" = Ok (VStr n).
Proof.
  unfold breakout_entry.
  destruct (Py.getitem i "name") as [name |]; [| discriminate]. cbn.
  destruct (Py.get i "ethernet" (VDict [])) as [x |]; [| discriminate]. cbn.
  destruct (Py.get x "breakout" (VDict [])) as [b |]; [| discriminate]. cbn.
  destruct (Py.get b "config" (VDict [])) as [b' |]; [| discriminate]. cbn.
  destruct (Py.get b' "num-channels" VNone) as [nc |]; [| discriminate]. cbn.
  destruct (Py.get b' "channel-speed" VNone) as [cs |]; [| discriminate]. cbn.
  destruct name; try discriminate. intros [= -> _]. reflexivity.
Qed.

Lemma breakout_portmap_keys E l : forall m m',
  breakout_portmap E l m = Ok m' ->
  (List.NoDup (map fst m) -> List.NoDup (map fst m')) /\
  (forall n, In n (map fst m') <->
             In n (map fst m) \/
             exists i, In i l /\ Py.getitem i "name" = Ok (VStr n)).
Proof.
  induction l as [| i l IH]; intros m m'; cbn [breakout_portmap].
  - intros [= <-]. split; [auto |]. intros n. split; [auto |].
    intros [H | (i & [] & _)]. exact H.
  - destruct (breakout_entry E i) as [[n e] |] eqn:He; [| discriminate]. cbn.
    intros H. destruct (IH _ _ H) as [Hnd Hkeys]. split.
    + intros Hm. apply Hnd, portmap_set_NoDup, Hm.
    + intros x. rewrite Hkeys, portmap_set_keys.
      pose proof (breakout_entry_name _ _ _ _ He) as Hname. split.
      * intros [[-> | Hx] | (j & Hj & Hjn)].
        -- right. exists i. split; [left; reflexivity | exact Hname].
        -- left. exact Hx.
        -- right. exists j. split; [right; exact Hj | exact Hjn].
      * intros [Hx | (j & [<- | Hj] & Hjn)].
        -- left. right. exact Hx.
        -- left. left. congruence.
        -- right. exists j. split; assumption.
Qed.

(** X23.  The port map [breakout_update_usonic] hands to the forwarding
    plane has one entry per interface name, also when the configuration
    lists a name twice, and its names are exactly the names of the
    interfaces of the configuration, with or without a breakout
    configuration. *)
Theorem breakout_intfs_names E config l m :
  interface_list config = Ok l ->
  breakout_intfs E config = Ok m ->
  List.NoDup (map fst m) /\
  forall n, In n (map fst m) <->
            exists i, In i l /\ Py.getitem i "name" = Ok (VStr n).
Proof.
  unfold interface_list, breakout_intfs.
  destruct (Py.get config "interfaces" (VDict [])) as [ifs |]; [| discriminate].
  cbn. destruct (Py.get ifs "interface" (VList [])) as [x |]; [| discriminate].
  cbn. destruct (Py.to_list x) as [l' |]; [| discriminate]. cbn.
  intros [= ->] H. destruct (breakout_portmap_keys _ _ _ _ H) as [Hnd Hkeys].
  split; [apply Hnd; constructor |].
  intros n. rewrite Hkeys. cbn. intuition.
Qed.

Lemma breakout_intfs_names_witness :
  List.NoDup
    (map fst [("Ethernet1_1", (VNone, VNone)); ("Ethernet2_1", (VInt 4, VInt 25000))]).
Proof.
  apply (breakout_intfs_names (sample_environment [] (Ok tt))
           (VDict [("interfaces",
                    VDict [("interface",
                            VList [VDict [("name", VStr "Ethernet1_1")];
                                   VDict [("name", VStr "Ethernet2_1");
                                          ("ethernet",
                                           VDict [("breakout",
                                                   VDict [("config",
                                                           VDict [("num-channels", VInt 4);
                                                                  ("channel-speed", VStr "SPEED_25G")])])])];
                                   VDict [("name", VStr "Ethernet1_1")]])])])
           [VDict [("name", VStr "Ethernet1_1")];
            VDict [("name", VStr "Ethernet2_1");
                   ("ethernet",
                    VDict [("breakout",
                            VDict [("config",
                                    VDict [("num-channels", VInt 4);
                                           ("channel-speed", VStr "SPEED_25G")])])])];
            VDict [("name", VStr "Ethernet1_1")]]);
    reflexivity.
Defined.

(** ** What a run of reconcile writes *)

Lemma emits_ret P {A} (a : A) : emits P (mret a).
Proof. exists (Ok a), []. split; [constructor | reflexivity]. Qed.

Lemma emits_lift P {A} (r : result A) : emits P (lift r).
Proof. exists r, []. split; [constructor | reflexivity]. Qed.

Lemma emits_emit (P : action -> Prop) a : P a -> emits P (emit a).
Proof. intros H. exists (Ok tt), [a]. split; [repeat constructor; exact H | reflexivity]. Qed.

Lemma emits_bind P {A B} (m : M A) (f : A -> M B) :
  emits P m -> (forall a, emits P (f a)) -> emits P (m ≫= f).
Proof.
  intros (r & acts & HP & Hm) Hf. destruct r as [a | e].
  - destruct (Hf a) as (r2 & acts2 & HP2 & Hfa). exists r2, (acts ++ acts2)%list.
    split; [apply Forall_app; split; assumption |].
    intros s. rewrite bind_eq, Hm, Hfa, run_actions_app. reflexivity.
  - exists (Raise e), acts. split; [exact HP |].
    intros s. rewrite bind_eq, Hm. reflexivity.
Qed.

Lemma emits_weaken (P Q : action -> Prop) {A} (m : M A) :
  (forall a, P a -> Q a) -> emits P m -> emits Q m.
Proof.
  intros HPQ (r & acts & HP & Hm). exists r, acts. split; [| exact Hm].
  eapply Forall_impl; [exact HP | exact HPQ].
Qed.

Lemma prefix_append p s : String.prefix p (p +:+ s) = true.
Proof.
  induction p as [| c p IH]; [destruct s; reflexivity |].
  change (String c p +:+ s) with (String c (p +:+ s)). cbn [String.prefix].
  destruct (ascii_dec c c); [exact IH | contradiction].
Qed.

Lemma emits_run_bcmcmd_port E ifname cmd :
  replay_command cmd = true ->
  emits (replay_effect [ifname]) (run_bcmcmd_port E ifname cmd).
Proof.
  intros H. unfold run_bcmcmd_port. apply emits_bind; [apply emits_lift |].
  intros _. apply emits_emit. cbn. split; [left; reflexivity | exact H].
Qed.

Lemma emits_autoneg_loop E ifname items :
  emits (replay_effect [ifname]) (autoneg_loop E ifname items).
Proof.
  induction items as [| [key v] rest IH]; cbn [autoneg_loop].
  - apply emits_ret.
  - apply emits_bind; [| intros _; exact IH].
    destruct (String.eqb key "enabled").
    + apply emits_run_bcmcmd_port. unfold replay_command.
      rewrite prefix_append. reflexivity.
    + destruct (String.eqb key "advertised-speeds"); [| apply emits_ret].
      apply emits_bind; [apply emits_lift |]. intros speeds.
      apply emits_run_bcmcmd_port. unfold replay_command.
      rewrite (prefix_append "adv="), orb_true_r. reflexivity.
Qed.

Lemma emits_set_config_db ifname key v :
  replayed_field key = true ->
  emits (replay_effect [ifname]) (set_config_db ifname key v).
Proof.
  intros H. apply emits_emit. cbn. split; [left; reflexivity | exact H].
Qed.

Lemma replayed_field_ethernet key :
  str_in_list key ["mtu"; "fec"; "speed"] = true -> replayed_field key = true.
Proof.
  unfold replayed_field, str_in_list. cbn [existsb].
  destruct (String.eqb key "mtu"), (String.eqb key "fec"),
    (String.eqb key "speed"); cbn; try reflexivity; discriminate.
Qed.

Lemma replayed_field_config key :
  str_in_list key ["admin-status"; "description"] = true -> replayed_field key = true.
Proof.
  unfold replayed_field, str_in_list. cbn [existsb].
  destruct (String.eqb key "admin-status"), (String.eqb key "description");
    cbn; rewrite ?orb_true_r; try reflexivity; discriminate.
Qed.

Lemma emits_bind_lift P {A B} (r : result A) (f : A -> M B) :
  (forall a, r = Ok a -> emits P (f a)) -> emits P (lift r ≫= f).
Proof.
  intros Hf. destruct r as [a | e].
  - destruct (Hf a eq_refl) as (r2 & acts & HP & Hfa). exists r2, acts.
    split; [exact HP |]. intros s. rewrite bind_eq. apply Hfa.
  - exists (Raise e), []. split; [constructor | reflexivity].
Qed.

Lemma str_add_prefix p v cmd : str_add p v = Ok cmd -> String.prefix p cmd = true.
Proof.
  destruct v; try discriminate. intros [= <-]. apply prefix_append.
Qed.

Lemma emits_ethernet_loop E ifname ethernet config keys :
  emits (replay_effect [ifname]) (ethernet_loop E ifname ethernet config keys).
Proof.
  induction keys as [| key rest IH]; cbn [ethernet_loop].
  - apply emits_ret.
  - apply emits_bind; [| intros _; exact IH].
    destruct (String.eqb key "interface-type").
    + apply emits_bind_lift. intros v _.
      apply emits_bind_lift. intros cmd Hcmd.
      apply emits_run_bcmcmd_port. unfold replay_command.
      rewrite (str_add_prefix _ _ _ Hcmd). apply orb_true_r.
    + destruct (str_in_list key ["mtu"; "fec"; "speed"]) eqn:Hk.
      * apply emits_bind_lift. intros v _.
        apply emits_set_config_db, replayed_field_ethernet, Hk.
      * apply emits_bind_lift. intros v _. apply emits_emit. exact I.
Qed.

Lemma emits_config_loop ifname config keys :
  emits (replay_effect [ifname]) (config_loop ifname config keys).
Proof.
  induction keys as [| key rest IH]; cbn [config_loop].
  - apply emits_ret.
  - apply emits_bind; [| intros _; exact IH].
    destruct (str_in_list key ["admin-status"; "description"]) eqn:Hk.
    + apply emits_bind_lift. intros v _.
      apply emits_set_config_db, replayed_field_config, Hk.
    + destruct (str_in_list key ["name"]); [apply emits_ret |].
      apply emits_bind_lift. intros v _. apply emits_emit. exact I.
Qed.

Lemma emits_reconcile_interface E ifname config :
  emits (replay_effect [ifname]) (reconcile_interface E ifname config).
Proof.
  unfold reconcile_interface.
  apply emits_bind_lift. intros data _.
  apply emits_bind_lift. intros autoneg _.
  apply emits_bind; [apply emits_autoneg_loop |]. intros _.
  apply emits_bind_lift. intros ethernet _.
  apply emits_bind; [apply emits_ethernet_loop |]. intros _.
  apply emits_bind_lift. intros config' _.
  apply emits_bind; [apply emits_config_loop |]. intros _.
  apply emits_ret.
Qed.

Lemma replay_effect_mono names names' a :
  (forall i, In i names -> In i names') ->
  replay_effect names a -> replay_effect names' a.
Proof. intros H. destruct a; cbn; intuition. Qed.

Lemma emits_reconcile_interfaces E names :
  forall config, emits (replay_effect names) (reconcile_interfaces E names config).
Proof.
  induction names as [| ifname rest IH]; intros config;
    cbn [reconcile_interfaces].
  - apply emits_ret.
  - apply emits_bind.
    + eapply emits_weaken; [| apply emits_reconcile_interface].
      intros a. apply replay_effect_mono. intros i [<- | []]. left. reflexivity.
    + intros c. eapply emits_weaken; [| apply IH].
      intros a. apply replay_effect_mono. intros i Hi. right. exact Hi.
Qed.

Lemma emits_reconcile_servers P l : emits P (reconcile_servers l).
Proof.
  induction l as [| r rest IH]; cbn [reconcile_servers].
  - apply emits_ret.
  - apply emits_bind; [apply emits_lift | intros _; exact IH].
Qed.

Lemma emits_replay E names config :
  emits (replay_effect names) (replay E names config).
Proof.
  unfold replay. apply emits_bind.
  - apply emits_reconcile_interfaces.
  - intros _. apply emits_reconcile_servers.
Qed.

Lemma db_writes_outside names acts db i k :
  Forall (replay_effect names) acts ->
  ~ (In i names /\ replayed_field k = true) ->
  db_writes acts db !! (i, k) = db !! (i, k).
Proof.
  intros Hall Hout. revert db.
  induction Hall as [| a acts Ha _ IH]; intros db; [reflexivity |].
  change (db_writes (a :: acts) db) with (db_writes acts (db_write db a)).
  rewrite IH. destruct a as [i' k' v | |]; cbn [db_write]; try reflexivity.
  cbn in Ha. apply lookup_insert_ne. intros [= -> ->]. apply Hout. exact Ha.
Qed.

Lemma bcm_cmds_replay names acts :
  Forall (replay_effect names) acts ->
  Forall (fun c => In (fst c) names /\ replay_command (snd c) = true) (bcm_cmds acts).
Proof.
  induction 1 as [| a acts Ha _ IH]; [constructor |].
  destruct a; cbn; try exact IH. constructor; [exact Ha | exact IH].
Qed.

(** What a finished or failed replay leaves, by the effects it had. *)
Lemma finish_replay_effects E names config s r s' :
  finish (replay E names config s) = (r, s') ->
  (forall i k, ~ (In i names /\ replayed_field k = true) ->
               config_db s' !! (i, k) = config_db s !! (i, k)) /\
  exists cmds,
    bcm_log s' = (bcm_log s ++ cmds)%list /\
    Forall (fun c => In (fst c) names /\ replay_command (snd c) = true) cmds.
Proof.
  destruct (emits_replay E names config) as (r0 & acts & HP & Hrun).
  rewrite Hrun, run_actions_fields. unfold finish.
  destruct r0 as [[] | e]; intros [= <- <-]; cbn;
    (split; [intros i k Hout; apply (db_writes_outside names); assumption |]);
    exists (bcm_cmds acts); (split; [reflexivity | apply bcm_cmds_replay, HP]).
Qed.

(** X24.  A run of [reconcile], whether it returns or raises, writes to
    the state table only the fields mtu, fec, speed, admin-status and
    description of the interfaces the forwarding plane has, and every
    vendor command it sends is an "an=", "adv=" or "if=" command for one of
    those interfaces. *)
Theorem reconcile_writes E s r s' :
  reconcile E s = (r, s') ->
  (forall i k, ~ (In i (ifnames s') /\ replayed_field k = true) ->
               config_db s' !! (i, k) = config_db s !! (i, k)) /\
  exists cmds,
    bcm_log s' = (bcm_log s ++ cmds)%list /\
    Forall (fun c => In (fst c) (ifnames s') /\ replay_command (snd c) = true) cmds.
Proof.
  rewrite reconcile_eq.
  assert (Hnone : forall s0 : sonic,
             exists cmds : list (string * string),
               bcm_log s0 = (bcm_log s0 ++ cmds)%list /\
               Forall (fun c => In (fst c) (ifnames s0) /\
                                replay_command (snd c) = true) cmds).
  { intros s0. exists []. split; [symmetry; apply app_nil_r | constructor]. }
  destruct (get_running_data (running E) (conn_top E) (VDict [])) as [config | e].
  2:{ intros [= <- <-]. split; [reflexivity | apply (Hnone (with_is_rebooting true s))]. }
  destruct (breakout_intfs E config) as [intfs | e].
  2:{ intros [= <- <-]. split; [reflexivity | apply (Hnone (with_is_rebooting true s))]. }
  destruct (portmap_eqb intfs (usonic_config s)).
  - intros H. destruct (finish_replay_fields _ _ _ _ _ _ H) as (_ & _ & Hn & _).
    cbn in Hn. rewrite Hn. exact (finish_replay_effects _ _ _ _ _ _ H).
  - destruct (wait_outcome E) as [[] | e].
    + intros H. destruct (finish_replay_fields _ _ _ _ _ _ H) as (_ & _ & Hn & _).
      cbn in Hn. rewrite Hn. exact (finish_replay_effects _ _ _ _ _ _ H).
    + intros [= <- <-]. split; [reflexivity |].
      apply (Hnone (restarted (port_names E intfs)
                      (with_usonic_config intfs (with_is_rebooting true s)))).
Qed.

Lemma reconcile_writes_witness :
  config_db (snd (reconcile (sample_environment [plain_interface] (Ok tt))
                    fresh_sonic)) !! ("Ethernet1_1", "name")
  = None.
Proof.
  destruct (reconcile_writes (sample_environment [plain_interface] (Ok tt))
              fresh_sonic
              (fst (reconcile (sample_environment [plain_interface] (Ok tt))
                      fresh_sonic))
              (snd (reconcile (sample_environment [plain_interface] (Ok tt))
                      fresh_sonic))) as [H _].
  - destruct (reconcile (sample_environment [plain_interface] (Ok tt))
                fresh_sonic); reflexivity.
  - rewrite H; [reflexivity |]. intros [_ Hk]. discriminate Hk.
Defined.

(** ** What a run of reconcile fills in *)

Lemma bind_lift_eq {A B} (r : result A) (f : A -> M B) s :
  (lift r ≫= f) s =
    match r with
    | Ok a => f a s
    | Raise e => (Raise e, s)
    end.
Proof. rewrite bind_eq. destruct r; reflexivity. Qed.

Lemma db_writes_keeps i k v acts : forall db,
  Forall (keeps_field i k v) acts ->
  db !! (i, k) = Some v ->
  db_writes acts db !! (i, k) = Some v.
Proof.
  induction acts as [| a acts IH]; intros db Hall Hdb; [exact Hdb |].
  change (db_writes (a :: acts) db) with (db_writes acts (db_write db a)).
  inversion Hall as [| ? ? Ha Hrest]; subst.
  apply IH; [exact Hrest |].
  destruct a as [i' k' w | |]; cbn [db_write]; try exact Hdb.
  destruct (decide ((i', k') = (i, k))) as [[= -> ->] | Hne].
  - rewrite (Ha eq_refl eq_refl). apply lookup_insert_eq.
  - rewrite lookup_insert_ne by exact Hne. exact Hdb.
Qed.

Lemma emits_keeps {A} (m : M A) i k v s r s' :
  emits (keeps_field i k v) m ->
  m s = (r, s') ->
  config_db s !! (i, k) = Some v ->
  config_db s' !! (i, k) = Some v.
Proof.
  intros (r0 & acts & HP & Hm). rewrite Hm. intros [= _ <-].
  rewrite run_actions_fields. cbn. apply db_writes_keeps. exact HP.
Qed.

Lemma emits_ethernet_loop_keeps E ifname ethernet config keys i k v :
  (i = ifname -> str_in_list k ["mtu"; "fec"; "speed"] = true ->
   Py.getitem ethernet k = Ok v) ->
  emits (keeps_field i k v) (ethernet_loop E ifname ethernet config keys).
Proof.
  intros Hv. induction keys as [| key rest IH]; cbn [ethernet_loop].
  - apply emits_ret.
  - apply emits_bind; [| intros _; exact IH].
    destruct (String.eqb key "interface-type").
    + apply emits_bind_lift. intros w _.
      apply emits_bind_lift. intros cmd _.
      unfold run_bcmcmd_port. apply emits_bind; [apply emits_lift |].
      intros _. apply emits_emit. exact I.
    + destruct (str_in_list key ["mtu"; "fec"; "speed"]) eqn:Hk.
      * apply emits_bind_lift. intros w Hw. apply emits_emit.
        cbn. intros <- <-. rewrite (Hv eq_refl Hk) in Hw.
        injection Hw as ->. reflexivity.
      * apply emits_bind_lift. intros w _. apply emits_emit. exact I.
Qed.

Lemma emits_config_loop_keeps ifname config keys i k v :
  (i = ifname -> str_in_list k ["admin-status"; "description"] = true ->
   Py.getitem config k = Ok v) ->
  emits (keeps_field i k v) (config_loop ifname config keys).
Proof.
  intros Hv. induction keys as [| key rest IH]; cbn [config_loop].
  - apply emits_ret.
  - apply emits_bind; [| intros _; exact IH].
    destruct (str_in_list key ["admin-status"; "description"]) eqn:Hk.
    + apply emits_bind_lift. intros w Hw. apply emits_emit.
      cbn. intros <- <-. rewrite (Hv eq_refl Hk) in Hw.
      injection Hw as ->. reflexivity.
    + destruct (str_in_list key ["name"]); [apply emits_ret |].
      apply emits_bind_lift. intros w _. apply emits_emit. exact I.
Qed.

(** The replay of other interfaces leaves the fields of [i] alone. *)
Lemma replay_effect_keeps names i k v a :
  ~ In i names -> replay_effect names a -> keeps_field i k v a.
Proof.
  intros Hout. destruct a as [i' k' w | |]; cbn; try (intros; exact I).
  intros [Hin _] -> _. contradiction.
Qed.

Lemma dict_mem_keys k d : Py.dict_mem k d = true -> In k (map fst d).
Proof.
  unfold Py.dict_mem. induction d as [| [k' v] d IH]; [discriminate |].
  unfold Py.dict_lookup. fold Py.dict_lookup.
  destruct (String.eqb_spec k k') as [-> | Hne]; intros H.
  - left. reflexivity.
  - right. apply IH. exact H.
Qed.

Lemma dict_lookup_set_same k v d :
  Py.dict_lookup k (Py.dict_set k v d) = Some v.
Proof.
  induction d as [| [k' v'] d IH].
  - unfold Py.dict_set, Py.dict_lookup. rewrite String.eqb_refl. reflexivity.
  - unfold Py.dict_set. fold Py.dict_set.
    destruct (String.eqb_spec k k') as [-> | Hne].
    + unfold Py.dict_lookup. rewrite String.eqb_refl. reflexivity.
    + unfold Py.dict_lookup. fold Py.dict_lookup.
      destruct (String.eqb_spec k k'); [contradiction | exact IH].
Qed.

(** What the dictionary holds under [key] once the default is filled in. *)
Lemma fill_default_lookup E key d d' :
  fill_default E key d = Ok d' ->
  exists v,
    match Py.dict_lookup key d with
    | Some v => Ok v
    | None => get_default E key
    end = Ok v /\
    Py.dict_lookup key d' = Some v.
Proof.
  unfold fill_default, Py.dict_mem.
  destruct (Py.dict_lookup key d) as [v |] eqn:Hl; cbn [negb].
  - intros [= <-]. exists v. split; [reflexivity | exact Hl].
  - destruct (get_default E key) as [v | e]; [| discriminate].
    intros [= <-]. exists v. split; [reflexivity | apply dict_lookup_set_same].
Qed.

Lemma fill_default_lookup_other E key k d d' :
  k <> key ->
  fill_default E key d = Ok d' ->
  Py.dict_lookup k d' = Py.dict_lookup k d.
Proof.
  intros Hne. unfold fill_default.
  destruct (Py.dict_mem key d); cbn [negb]; [intros [= <-]; reflexivity |].
  destruct (get_default E key) as [v | e]; [| discriminate].
  intros [= <-]. apply dict_lookup_set_ne. exact Hne.
Qed.

Lemma lookup_mem k d v : Py.dict_lookup k d = Some v -> Py.dict_mem k d = true.
Proof. unfold Py.dict_mem. intros ->. reflexivity. Qed.

(** The dictionary [ethernet] of one round holds, under mtu and fec, the
    configured leaf or the schema default. *)
Lemma ethernet_config_leaves E ifname data eth :
  get_running_data (running E) (interface_xpath ifname) (VDict []) = Ok data ->
  ethernet_config E ifname data = Ok eth ->
  (exists v, configured_or_default E ifname ["ethernet"; "config"] "mtu" = Ok v /\
             Py.dict_lookup "mtu" eth = Some v) /\
  (exists v, configured_or_default E ifname ["ethernet"; "config"] "fec" = Ok v /\
             Py.dict_lookup "fec" eth = Some v).
Proof.
  intros Hdata. unfold configured_or_default, interface_container.
  rewrite Hdata. cbn. unfold ethernet_config.
  destruct (Py.get data "ethernet" (VDict [])) as [e |]; [| discriminate]. cbn.
  destruct (Py.get e "config" (VDict [])) as [c |]; [| discriminate]. cbn.
  destruct (as_dict c) as [d |]; [| discriminate]. cbn.
  destruct (fill_default E "mtu" d) as [d1 |] eqn:H1; [| discriminate]. cbn.
  destruct (fill_default E "fec" d1) as [d2 |] eqn:H2; [| discriminate]. cbn.
  destruct (fill_default_lookup _ _ _ _ H1) as (mtu & Hmtu & Hl1).
  destruct (fill_default_lookup _ _ _ _ H2) as (fec & Hfec & Hl2).
  rewrite (fill_default_lookup_other E "mtu" "fec" d d1) in Hfec
    by (discriminate || exact H1).
  assert (Hl1' : Py.dict_lookup "mtu" d2 = Some mtu).
  { rewrite (fill_default_lookup_other E "fec" "mtu" d1 d2)
      by (discriminate || exact H2). exact Hl1. }
  intros Heth.
  assert (Hsame : forall k, k <> "interface-type" ->
                            Py.dict_lookup k eth = Py.dict_lookup k d2).
  { intros k Hk.
    destruct (negb (Py.dict_mem "interface-type" d2));
      [destruct (Py.truthy (get_default_iftype E ifname)) |];
      injection Heth as <-; rewrite ?dict_lookup_set_ne by exact Hk; reflexivity. }
  split; [exists mtu | exists fec];
    (split; [assumption | rewrite Hsame by discriminate; assumption]).
Qed.

Lemma interface_config_leaf E ifname data cfg :
  get_running_data (running E) (interface_xpath ifname) (VDict []) = Ok data ->
  interface_config E data = Ok cfg ->
  exists v, configured_or_default E ifname ["config"] "admin-status" = Ok v /\
            Py.dict_lookup "admin-status" cfg = Some v.
Proof.
  intros Hdata. unfold configured_or_default, interface_container.
  rewrite Hdata. cbn. unfold interface_config.
  destruct (Py.get data "config" (VDict [])) as [c |]; [| discriminate]. cbn.
  destruct (as_dict c) as [d |]; [| discriminate]. cbn.
  unfold Py.dict_mem.
  destruct (Py.dict_lookup "admin-status" d) as [v |] eqn:Hl; cbn [negb].
  - intros [= <-]. exists v. split; [reflexivity | exact Hl].
  - destruct (get_default E "admin-status") as [v | e]; [| discriminate].
    intros [= <-]. exists v. split; [reflexivity | apply dict_lookup_set_same].
Qed.

Lemma ethernet_loop_sets E ifname d config keys : forall s s',
  ethernet_loop E ifname (VDict d) config keys s = (Ok tt, s') ->
  forall key v,
    In key keys ->
    String.eqb key "interface-type" = false ->
    str_in_list key ["mtu"; "fec"; "speed"] = true ->
    Py.dict_lookup key d = Some v ->
    config_db s' !! (ifname, key) = Some v.
Proof.
  induction keys as [| key0 rest IH]; intros s s' H key v Hin Hne Hk Hv;
    [destruct Hin |].
  cbn [ethernet_loop] in H. rewrite bind_eq in H.
  match type of H with
  | match ?body s with _ => _ end = _ =>
      destruct (body s) as [[[] | e] s1] eqn:Hb; [| discriminate H]
  end.
  assert (Hget : Py.getitem (VDict d) key = Ok v).
  { unfold Py.getitem. rewrite Hv. reflexivity. }
  destruct Hin as [-> | Hin]; [| exact (IH _ _ H key v Hin Hne Hk Hv)].
  rewrite Hne, Hk, bind_lift_eq, Hget in Hb. injection Hb as <-.
  apply (emits_keeps _ _ _ _ _ _ _
           (emits_ethernet_loop_keeps E ifname (VDict d) config rest
              ifname key v (fun _ _ => Hget)) H).
  cbn. apply lookup_insert_eq.
Qed.

Lemma config_loop_sets ifname d keys : forall s s',
  config_loop ifname (VDict d) keys s = (Ok tt, s') ->
  forall key v,
    In key keys ->
    str_in_list key ["admin-status"; "description"] = true ->
    Py.dict_lookup key d = Some v ->
    config_db s' !! (ifname, key) = Some v.
Proof.
  induction keys as [| key0 rest IH]; intros s s' H key v Hin Hk Hv;
    [destruct Hin |].
  cbn [config_loop] in H. rewrite bind_eq in H.
  match type of H with
  | match ?body s with _ => _ end = _ =>
      destruct (body s) as [[[] | e] s1] eqn:Hb; [| discriminate H]
  end.
  assert (Hget : Py.getitem (VDict d) key = Ok v).
  { unfold Py.getitem. rewrite Hv. reflexivity. }
  destruct Hin as [-> | Hin]; [| exact (IH _ _ H key v Hin Hk Hv)].
  rewrite Hk, bind_lift_eq, Hget in Hb. injection Hb as <-.
  apply (emits_keeps _ _ _ _ _ _ _
           (emits_config_loop_keeps ifname (VDict d) rest
              ifname key v (fun _ _ => Hget)) H).
  cbn. apply lookup_insert_eq.
Qed.

Lemma reconcile_interface_sets E ifname config s c s' :
  reconcile_interface E ifname config s = (Ok c, s') ->
  field_is s' ifname "admin-status"
    (configured_or_default E ifname ["config"] "admin-status") /\
  field_is s' ifname "mtu"
    (configured_or_default E ifname ["ethernet"; "config"] "mtu") /\
  field_is s' ifname "fec"
    (configured_or_default E ifname ["ethernet"; "config"] "fec").
Proof.
  unfold reconcile_interface. fold (interface_xpath ifname).
  rewrite bind_lift_eq.
  destruct (get_running_data (running E) (interface_xpath ifname) (VDict []))
    as [data |] eqn:Hdata; [| discriminate].
  rewrite bind_lift_eq.
  destruct (autoneg_config E data) as [autoneg |]; [| discriminate].
  rewrite bind_eq.
  destruct (autoneg_loop E ifname autoneg s) as [[[] | e] s1]; [| discriminate].
  rewrite bind_lift_eq.
  destruct (ethernet_config E ifname data) as [eth |] eqn:He; [| discriminate].
  rewrite bind_eq.
  destruct (ethernet_loop E ifname (VDict eth) config (map fst eth) s1)
    as [[[] | e] s2] eqn:H2; [| discriminate].
  rewrite bind_lift_eq.
  destruct (interface_config E data) as [cfg |] eqn:Hc; [| discriminate].
  rewrite bind_eq.
  destruct (config_loop ifname (VDict cfg) (map fst cfg) s2)
    as [[[] | e] s3] eqn:H3; [| discriminate].
  intros [= _ <-].
  destruct (ethernet_config_leaves _ _ _ _ Hdata He)
    as ((mtu & Hmtu & Hlm) & (fec & Hfec & Hlf)).
  destruct (interface_config_leaf _ _ _ _ Hdata Hc) as (adm & Hadm & Hla).
  assert (Hother : forall k v,
             str_in_list k ["admin-status"; "description"] = false ->
             config_db s2 !! (ifname, k) = Some v ->
             config_db s3 !! (ifname, k) = Some v).
  { intros k v Hk.
    apply (emits_keeps _ _ _ _ _ _ _
             (emits_config_loop_keeps ifname (VDict cfg) (map fst cfg) ifname k v
                (fun _ Habs => ltac:(congruence))) H3). }
  split; [| split].
  - exists adm. split; [exact Hadm |].
    apply (config_loop_sets _ _ _ _ _ H3);
      [apply dict_mem_keys, (lookup_mem _ _ _ Hla) | reflexivity | exact Hla].
  - exists mtu. split; [exact Hmtu |]. apply Hother; [reflexivity |].
    apply (ethernet_loop_sets _ _ _ _ _ _ _ H2);
      [apply dict_mem_keys, (lookup_mem _ _ _ Hlm) | reflexivity | reflexivity
      | exact Hlm].
  - exists fec. split; [exact Hfec |]. apply Hother; [reflexivity |].
    apply (ethernet_loop_sets _ _ _ _ _ _ _ H2);
      [apply dict_mem_keys, (lookup_mem _ _ _ Hlf) | reflexivity | reflexivity
      | exact Hlf].
Qed.

Lemma field_is_kept {A} (m : M A) ifname key r s res s' :
  (forall v, emits (keeps_field ifname key v) m) ->
  m s = (res, s') ->
  field_is s ifname key r -> field_is s' ifname key r.
Proof.
  intros Hm Hrun (v & Hr & Hv). exists v. split; [exact Hr |].
  exact (emits_keeps _ _ _ _ _ _ _ (Hm v) Hrun Hv).
Qed.

Lemma reconcile_interfaces_sets E names : forall config s c s',
  reconcile_interfaces E names config s = (Ok c, s') ->
  forall ifname,
    In ifname names ->
    field_is s' ifname "admin-status"
      (configured_or_default E ifname ["config"] "admin-status") /\
    field_is s' ifname "mtu"
      (configured_or_default E ifname ["ethernet"; "config"] "mtu") /\
    field_is s' ifname "fec"
      (configured_or_default E ifname ["ethernet"; "config"] "fec").
Proof.
  induction names as [| a rest IH]; intros config s c s' H ifname Hin;
    [destruct Hin |].
  cbn [reconcile_interfaces] in H. rewrite bind_eq in H.
  destruct (reconcile_interface E a config s) as [[c1 | e] s1] eqn:Ha;
    [| discriminate H].
  destruct (in_dec string_dec ifname rest) as [Hrest | Hnot].
  - exact (IH _ _ _ _ H ifname Hrest).
  - destruct Hin as [-> | Hin]; [| contradiction].
    destruct (reconcile_interface_sets _ _ _ _ _ _ Ha) as (H1 & H2 & H3).
    assert (Hkeep : forall key v,
               emits (keeps_field ifname key v) (reconcile_interfaces E rest c1)).
    { intros key v. eapply emits_weaken; [| apply emits_reconcile_interfaces].
      intros act. apply replay_effect_keeps. exact Hnot. }
    repeat split; eapply field_is_kept; eauto.
Qed.

Lemma finish_replay_sets E names config s s' :
  finish (replay E names config s) = (Ok tt, s') ->
  forall ifname,
    In ifname names ->
    field_is s' ifname "admin-status"
      (configured_or_default E ifname ["config"] "admin-status") /\
    field_is s' ifname "mtu"
      (configured_or_default E ifname ["ethernet"; "config"] "mtu") /\
    field_is s' ifname "fec"
      (configured_or_default E ifname ["ethernet"; "config"] "fec").
Proof.
  unfold replay, finish. rewrite bind_eq.
  destruct (reconcile_interfaces E names config s) as [[c | e] s1] eqn:H1;
    [| discriminate].
  destruct (reconcile_servers (servers E) s1) as [[[] | e] s2] eqn:H2;
    [| discriminate].
  intros [= <-] ifname Hin.
  destruct (reconcile_interfaces_sets _ _ _ _ _ _ H1 ifname Hin) as (Ha & Hm & Hf).
  assert (Hkeep : forall key r,
             field_is s1 ifname key r ->
             field_is (with_is_rebooting false s2) ifname key r).
  { intros key r Hr.
    destruct (field_is_kept (reconcile_servers (servers E)) ifname key r s1
                (Ok tt) s2 (fun v => emits_reconcile_servers _ _) H2 Hr)
      as (v & Hv & Hdb).
    exists v. split; [exact Hv | exact Hdb]. }
  repeat split; apply Hkeep; assumption.
Qed.

(** X25.  After a run of [reconcile] that returned, the state table holds
    for every interface of the forwarding plane its admin-status, mtu and
    fec: the leaf of the interface's running configuration (admin-status
    under config, mtu and fec under ethernet/config), or the schema
    default where the configuration has no such leaf. *)
Theorem reconcile_fills_defaults E s s' :
  reconcile E s = (Ok tt, s') ->
  forall ifname,
    In ifname (ifnames s') ->
    field_is s' ifname "admin-status"
      (configured_or_default E ifname ["config"] "admin-status") /\
    field_is s' ifname "mtu"
      (configured_or_default E ifname ["ethernet"; "config"] "mtu") /\
    field_is s' ifname "fec"
      (configured_or_default E ifname ["ethernet"; "config"] "fec").
Proof.
  rewrite reconcile_eq.
  destruct (get_running_data (running E) (conn_top E) (VDict [])) as [config | e];
    [| discriminate].
  destruct (breakout_intfs E config) as [intfs | e]; [| discriminate].
  destruct (portmap_eqb intfs (usonic_config s)).
  - intros H. destruct (finish_replay_fields _ _ _ _ _ _ H) as (_ & _ & Hn & _).
    cbn in Hn. rewrite Hn. exact (finish_replay_sets _ _ _ _ _ H).
  - destruct (wait_outcome E) as [[] | e]; [| discriminate].
    intros H. destruct (finish_replay_fields _ _ _ _ _ _ H) as (_ & _ & Hn & _).
    cbn in Hn. rewrite Hn. exact (finish_replay_sets _ _ _ _ _ H).
Qed.

Lemma reconcile_fills_defaults_witness :
  config_db (snd (reconcile (sample_environment [tuned_interface] (Ok tt))
                    fresh_sonic)) !! ("Ethernet1_1", "mtu") = Some (VInt 1500) /\
  config_db (snd (reconcile (sample_environment [tuned_interface] (Ok tt))
                    fresh_sonic)) !! ("Ethernet1_1", "fec") = Some (VStr "NONE").
Proof.
  destruct (reconcile_fills_defaults
              (sample_environment [tuned_interface] (Ok tt)) fresh_sonic
              (snd (reconcile (sample_environment [tuned_interface] (Ok tt))
                      fresh_sonic)))
    with (ifname := "Ethernet1_1")
    as (_ & (mtu & Hmtu & Hm) & (fec & Hfec & Hf)).
  - vm_compute. reflexivity.
  - vm_compute. left. reflexivity.
  - vm_compute in Hmtu. vm_compute in Hfec.
    injection Hmtu as <-. injection Hfec as <-.
    split; [exact Hm | exact Hf].
Defined.

(** ** The operational-data callback *)

(** The loop over the port table leaves the leaves "name",
    "oper-status" and "counters" of the state as they are. *)
Lemma oper_port_table_keeps O k config : forall state eth_state,
  str_in_list k ["alias"; "lanes"] = false ->
  k <> "admin-status" ->
  Py.dict_lookup k (fst (oper_port_table O config state eth_state))
  = Py.dict_lookup k state.
Proof.
  intros state eth_state Hk Hadm. revert state eth_state.
  induction config as [| [key v] rest IH]; intros state eth_state;
    [reflexivity |].
  cbn [oper_port_table].
  destruct (str_in_list key ["alias"; "lanes"]) eqn:Hkey.
  - rewrite IH. apply dict_lookup_set_ne. intros ->. congruence.
  - destruct (String.eqb key "speed"); [apply IH |].
    destruct (String.eqb key "admin_status").
    + rewrite IH. apply dict_lookup_set_ne. exact Hadm.
    + destruct (String.eqb key "mtu"); apply IH.
Qed.

(** The shape of a finished entry. *)
Lemma oper_interface_shape O counter_only bcminfo ifname cc bstate e :
  oper_interface O counter_only bcminfo (ifname, cc, bstate) = Ok e ->
  exists state ethernet,
    e = VDict ([("name", VStr ifname);
                ("config", VDict [("name", VStr ifname)]);
                ("state", VDict state);
                ("ethernet", VDict ethernet)]
               ++ match cc with
                  | Some v => [("component-connection", v)]
                  | None => []
                  end) /\
    Py.dict_lookup "name" state = Some (VStr ifname) /\
    Py.dict_lookup "counters" state = Some (o_get_counters O ifname) /\
    Py.dict_lookup "oper-status" state =
      (if counter_only then None
       else match get_oper_status (o_running O) (o_oper_status O) ifname with
            | Ok st => Some (opt_value st)
            | Raise _ => None
            end).
Proof.
  unfold oper_interface. destruct counter_only.
  - cbn. destruct cc; intros [= <-]; eexists _, _;
      (split; [rewrite ?app_nil_r; reflexivity |]); repeat split; reflexivity.
  - destruct (get_oper_status (o_running O) (o_oper_status O) ifname)
      as [st | err]; [| discriminate].
    cbn.
    destruct (oper_port_table O (o_hgetall O "APPL_DB" ("PORT_TABLE:" +:+ ifname))
                (Py.dict_set "oper-status" (opt_value st)
                   [("name", VStr ifname); ("counters", o_get_counters O ifname)])
                []) as [state eth_state] eqn:Htab.
    assert (Hkeep : forall k,
               str_in_list k ["alias"; "lanes"] = false -> k <> "admin-status" ->
               Py.dict_lookup k state =
               Py.dict_lookup k
                 (Py.dict_set "oper-status" (opt_value st)
                    [("name", VStr ifname); ("counters", o_get_counters O ifname)])).
    { intros k Hk Hadm.
      rewrite <- (oper_port_table_keeps O k
                    (o_hgetall O "APPL_DB" ("PORT_TABLE:" +:+ ifname))
                    (Py.dict_set "oper-status" (opt_value st)
                       [("name", VStr ifname); ("counters", o_get_counters O ifname)])
                    [] Hk Hadm).
      rewrite Htab. reflexivity. }
    destruct (Py.get bcminfo ifname (VDict [])) as [info |]; [| discriminate]. cbn.
    destruct (Py.get info "iftype" VNone) as [iftype |]; [| discriminate]. cbn.
    destruct (Py.get info "fec" VNone) as [fec |]; [| discriminate]. cbn.
    destruct (oper_auto_negotiate O info) as [an |]; [| discriminate]. cbn.
    destruct cc; intros [= <-]; eexists state, _;
      (split; [rewrite ?app_nil_r; reflexivity |]);
      rewrite !Hkeep by (reflexivity || discriminate);
      repeat split; reflexivity.
Qed.

Lemma oper_interfaces_entries O counter_only bcminfo sks : forall entries,
  oper_interfaces O counter_only bcminfo sks = Ok entries ->
  Forall2 (fun sk e =>
             entry_names e = Ok (VStr (fst (fst sk)), VStr (fst (fst sk)),
                                 VStr (fst (fst sk))))
          sks entries.
Proof.
  induction sks as [| [[ifname cc] b] rest IH]; intros entries;
    cbn [oper_interfaces].
  - intros [= <-]. constructor.
  - destruct (oper_interface O counter_only bcminfo (ifname, cc, b))
      as [e |] eqn:He; [| discriminate]. cbn.
    destruct (oper_interfaces O counter_only bcminfo rest) as [l |];
      [| discriminate]. cbn.
    intros [= <-]. constructor; [| apply IH; reflexivity].
    destruct (oper_interface_shape _ _ _ _ _ _ _ He)
      as (state & ethernet & -> & Hn & _ & _).
    unfold entry_names, Py.getitem. cbn [fst].
    change (Py.dict_lookup "name" (?a :: ?l)) with (Some (VStr ifname)).
    cbn.
    change (Py.dict_lookup "config" (?a :: ?b :: ?l))
      with (Some (VDict [("name", VStr ifname)])).
    cbn. change (Py.dict_lookup "name" [("name", VStr ifname)])
      with (Some (VStr ifname)).
    cbn. change (Py.dict_lookup "state" (?a :: ?b :: ?c :: ?l))
      with (Some (VDict state)).
    cbn. rewrite Hn. reflexivity.
Qed.

Lemma oper_skeletons_names O names : forall sks,
  oper_skeletons O names = Ok sks -> map (fun sk => fst (fst sk)) sks = names.
Proof.
  induction names as [| name rest IH]; intros sks; cbn [oper_skeletons].
  - intros [= <-]. reflexivity.
  - destruct (component_connection O name); [| discriminate]. cbn.
    destruct (oper_breakout_state O name); [| discriminate]. cbn.
    destruct (oper_skeletons O rest) as [l |]; [| discriminate]. cbn.
    intros [= <-]. cbn. rewrite (IH l eq_refl). reflexivity.
Qed.

(** X26.  [oper_cb] refuses with CallbackFailedError while the server is
    busy, and answers None for a key predicate that names no interface of
    the forwarding plane.  A full reply has one entry per interface asked
    for (the interface of the key predicate, else all of them), in their
    order, and each entry carries its interface's name in its "name" leaf
    and in those of "config" and "state": the port table of the driver
    cannot overwrite them. *)
Theorem oper_cb_entries O xpath req_xpath s :
  (is_rebooting s = true ->
   oper_cb O xpath req_xpath s = Raise (CallbackFailedError "uSONiC is rebooting")) /\
  (forall first p n rest,
      req_xpath = first :: (p, "interface", [("name", n)]) :: rest ->
      is_rebooting s = false -> oper_names_only req_xpath = false ->
      str_in_list n (ifnames s) = false ->
      oper_cb O xpath req_xpath s = Ok None) /\
  (forall reply,
      oper_names_only req_xpath = false ->
      oper_cb O xpath req_xpath s = Ok (Some reply) ->
      exists names entries,
        oper_selected req_xpath (ifnames s) = Ok (Some names) /\
        reply = oper_reply entries /\
        Forall2 (fun name e => entry_names e = Ok (VStr name, VStr name, VStr name))
                names entries).
Proof.
  unfold oper_cb. split; [| split].
  - intros ->. reflexivity.
  - intros first p n rest -> -> -> Hn. unfold oper_selected.
    cbn [step_name step_conds fst snd]. rewrite Hn. reflexivity.
  - intros reply Hno. rewrite Hno.
    destruct (is_rebooting s); [discriminate |].
    destruct (oper_selected req_xpath (ifnames s)) as [[names |] | e];
      cbn; try discriminate.
    destruct (oper_skeletons O names) as [sks |] eqn:Hsk; [| discriminate]. cbn.
    destruct (if PyStr.contains "counters" xpath then Ok VNone
              else o_bcm_ports_info O (map (fun sk => fst (fst sk)) sks))
      as [bcminfo |]; [| discriminate]. cbn.
    destruct (oper_interfaces O (PyStr.contains "counters" xpath) bcminfo sks)
      as [entries |] eqn:Hent; [| discriminate]. cbn.
    intros [= <-]. exists names, entries. split; [reflexivity |].
    split; [reflexivity |].
    pose proof (oper_interfaces_entries _ _ _ _ _ Hent) as Hall.
    rewrite <- (oper_skeletons_names _ _ _ Hsk).
    clear -Hall. induction Hall; cbn; constructor; assumption.
Qed.

Lemma oper_cb_entries_witness :
  oper_cb (sample_sources (ufd_datastore []) raw_all_down)
    "/goldstone-interfaces:interfaces/interface[name='Ethernet9_1']"
    (interface_step "Ethernet9_1") settled_sonic = Ok None.
Proof.
  apply (proj1 (proj2 (oper_cb_entries
                         (sample_sources (ufd_datastore []) raw_all_down)
                         "/goldstone-interfaces:interfaces/interface[name='Ethernet9_1']"
                         (interface_step "Ethernet9_1") settled_sonic))
           ("goldstone-interfaces", "interfaces", []) "" "Ethernet9_1" []);
    reflexivity.
Defined.

Lemma entry_getitem_state ifname state ethernet tail :
  Py.getitem (VDict ([("name", VStr ifname);
                      ("config", VDict [("name", VStr ifname)]);
                      ("state", VDict state);
                      ("ethernet", VDict ethernet)] ++ tail)) "state"
  = Ok (VDict state).
Proof. reflexivity. Qed.

(** X27.  The "oper-status" of an entry of the reply is what
    [get_oper_status] answers for the interface, the status the
    notification loop sends; no leaf of the port table can replace it.  A
    request for counters has no "oper-status" in its entries and does not
    consult the resolver. *)
Theorem oper_interface_oper_status O bcminfo ifname cc bstate e :
  (oper_interface O false bcminfo (ifname, cc, bstate) = Ok e ->
   exists st,
     get_oper_status (o_running O) (o_oper_status O) ifname = Ok st /\
     entry_oper_status e = Ok (opt_value st)) /\
  (oper_interface O true bcminfo (ifname, cc, bstate) = Ok e ->
   entry_oper_status e = Raise (KeyError "oper-status")).
Proof.
  split; intros He;
    destruct (oper_interface_shape _ _ _ _ _ _ _ He)
      as (state & ethernet & -> & _ & _ & Hst).
  - destruct (get_oper_status (o_running O) (o_oper_status O) ifname)
      as [st | err] eqn:Hres.
    + exists st. split; [reflexivity |].
      unfold entry_oper_status. rewrite entry_getitem_state. cbn.
      unfold Py.getitem. rewrite Hst. reflexivity.
    + unfold oper_interface in He. rewrite Hres in He. discriminate He.
  - unfold entry_oper_status. rewrite entry_getitem_state. cbn.
    unfold Py.getitem. rewrite Hst. reflexivity.
Qed.

Lemma oper_interface_oper_status_witness :
  exists st,
    get_oper_status (ufd_datastore [sample_group]) raw_uplinks_down "Ethernet3_1"
    = Ok st /\
    entry_oper_status
      (VDict [("name", VStr "Ethernet3_1");
              ("config", VDict [("name", VStr "Ethernet3_1")]);
              ("state", VDict [("name", VStr "Ethernet3_1");
                               ("counters", VDict [("in-octets", VInt 0)]);
                               ("oper-status", VStr "DORMANT");
                               ("admin-status", VStr "UP")]);
              ("ethernet", VDict [("state", VDict []);
                                  ("breakout", VDict [("state", VDict [])]);
                                  ("auto-negotiate",
                                   VDict [("state", VDict [("enabled", VBool false)])])])])
    = Ok (opt_value st).
Proof.
  apply (proj1 (oper_interface_oper_status
                  (sample_sources (ufd_datastore [sample_group]) raw_uplinks_down)
                  (VDict []) "Ethernet3_1" None (VDict []) _)).
  vm_compute. reflexivity.
Defined.

Lemma has_char_after c a b : has_char c (a +:+ String c b) = true.
Proof.
  induction a as [| x a IH].
  - change ("" +:+ String c b) with (String c b). cbn. rewrite Ascii.eqb_refl.
    reflexivity.
  - change (String x a +:+ String c b) with (String x (a +:+ String c b)).
    cbn. rewrite IH. apply orb_true_r.
Qed.

Lemma split_first_before c a b :
  has_char c a = false -> PyStr.split_first c (a +:+ String c b) = a.
Proof.
  induction a as [| x a IH]; intros H.
  - change ("" +:+ String c b) with (String c b). cbn. rewrite Ascii.eqb_refl.
    reflexivity.
  - change (String x a +:+ String c b) with (String x (a +:+ String c b)).
    cbn in H |- *. apply orb_false_iff in H as [Hx Ha]. rewrite Hx, (IH Ha).
    reflexivity.
Qed.

(** X28.  In the reply of [oper_cb], the breakout state of a channel
    [base_k] other than the first is its parent [base_1], read off the
    name alone: the datastore is not consulted.  For a name without
    underscore it is the breakout configuration the running datastore
    holds, and empty when there is none. *)
Theorem oper_breakout_state_parent O base ch :
  has_char "_" base = false ->
  (PyStr.endswith (base +:+ String "_" ch) "_1" = false ->
   oper_breakout_state O (base +:+ String "_" ch)
   = Ok (VDict [("parent", VStr (base +:+ "_1"))])) /\
  (forall o,
      o_running O ("/goldstone-interfaces:interfaces/interface[name='" +:+ base
                   +:+ "']/ethernet/breakout/config") = Ok o ->
      oper_breakout_state O base =
        Ok (match o with
            | Some config => if Py.truthy config then config else VDict []
            | None => VDict []
            end)).
Proof.
  intros Hbase. split.
  - intros Hend. unfold oper_breakout_state.
    rewrite Hend, has_char_after, (split_first_before _ _ _ Hbase). reflexivity.
  - intros o Ho. unfold oper_breakout_state.
    rewrite Hbase, andb_false_r, (get_running_data_ok _ _ _ _ Ho).
    destruct o as [config |]; cbn; [destruct (Py.truthy config) |]; reflexivity.
Qed.

Lemma oper_breakout_state_parent_witness :
  oper_breakout_state (sample_sources (failing_datastore NotFoundError) raw_all_down)
    "Ethernet1_3"
  = Ok (VDict [("parent", VStr "Ethernet1_1")]).
Proof.
  apply (proj1 (oper_breakout_state_parent
                  (sample_sources (failing_datastore NotFoundError) raw_all_down)
                  "Ethernet1" "3" eq_refl)).
  reflexivity.
Defined.

(** ** The remaining handlers *)

(** X29.  [SpeedHandler.apply] writes the speed to the state table before
    it asks the vendor channel to update its port map: the new speed, or
    "100G" for a deleted leaf, is in the table afterwards whether that call
    returns or raises, and [apply] returns what the call returns. *)
Theorem SpeedHandler_apply_writes_first outcome h s :
  fst (SpeedHandler_apply outcome h s) = outcome /\
  config_db (snd (SpeedHandler_apply outcome h s)) !! (l_ifname h, "speed")
  = Some (if is_set (l_type h) then l_value h else VStr "100G") /\
  (forall k, k <> (l_ifname h, "speed") ->
             config_db (snd (SpeedHandler_apply outcome h s)) !! k = config_db s !! k).
Proof.
  unfold SpeedHandler_apply. rewrite bind_eq. cbn.
  destruct outcome as [[] | e]; cbn; (split; [reflexivity |]);
    (split; [apply lookup_insert_eq |]); intros k Hk; apply lookup_insert_ne;
    congruence.
Qed.

(** X30.  The validators of the interface type and of the loopback and
    PRBS modes accept a created or modified leaf for one value only
    (IF_ETHERNET, NONE and NONE), and a deleted leaf always; a deleted leaf
    also passes the validators of the speed, the advertised speeds, the
    ethernet interface type and the breakout configuration, whatever the
    datastore holds. *)
Theorem validators_on_values running cache y2r r2y h :
  (IfTypeHandler_validate h = Ok tt <->
   h_type h = deleted \/ h_value h = "IF_ETHERNET") /\
  (LoopbackModeHandler_validate h = Ok tt <->
   h_type h = deleted \/ h_value h = "NONE") /\
  (PRBSModeHandler_validate h = Ok tt <->
   h_type h = deleted \/ h_value h = "NONE") /\
  (h_type h = deleted ->
   SpeedHandler_validate y2r r2y h = Ok tt /\
   AutoNegotiateAdvertisedSpeedsHandler_validate y2r r2y h = Ok tt /\
   EthernetIfTypeHandler_validate running h = Ok tt /\
   BreakoutHandler_validate running cache h = Ok tt).
Proof.
  split; [| split; [| split]].
  - unfold IfTypeHandler_validate. split.
    + destruct (h_type h); cbn [is_set]; try (intros _; left; reflexivity);
        (destruct (String.eqb_spec (h_value h) "IF_ETHERNET");
         [intros _; right; assumption | discriminate]).
    + intros [-> | ->]; [reflexivity |]. rewrite String.eqb_refl.
      destruct (is_set (h_type h)); reflexivity.
  - unfold LoopbackModeHandler_validate. split.
    + destruct (h_type h); cbn [is_set]; try (intros _; left; reflexivity);
        (destruct (String.eqb_spec (h_value h) "NONE");
         [intros _; right; assumption | discriminate]).
    + intros [-> | ->]; [reflexivity |]. rewrite String.eqb_refl.
      destruct (is_set (h_type h)); reflexivity.
  - unfold PRBSModeHandler_validate. split.
    + destruct (h_type h); cbn [is_set]; try (intros _; left; reflexivity);
        (destruct (String.eqb_spec (h_value h) "NONE");
         [intros _; right; assumption | discriminate]).
    + intros [-> | ->]; [reflexivity |]. rewrite String.eqb_refl.
      destruct (is_set (h_type h)); reflexivity.
  - intros Hd.
    unfold SpeedHandler_validate, AutoNegotiateAdvertisedSpeedsHandler_validate,
      EthernetIfTypeHandler_validate, BreakoutHandler_validate.
    rewrite Hd. repeat split; reflexivity.
Qed.
